(** * pikaur: update classification, ranking and listing

    A shallow embedding of [pikaur/updates.py] and
    [pikaur/print_department.py], and the properties of the update
    classifier, the warn filter, the ranking keys, the column layout, the
    repository colour cache and the search listing that are stated about
    them. *)

From Stdlib Require Import ZArith Ascii DecimalString.
From stdpp Require Import gmap strings list sorting.

Local Open Scope Z_scope.

(** ** Exceptions and results *)

Inductive exn : Type :=
| KeyError (key : string)
| ValueError
| TypeError (message : string).

Inductive res (A : Type) : Type :=
| Ok (a : A)
| Raise (e : exn).
Arguments Ok {A} a.
Arguments Raise {A} e.

Definition res_bind {A B} (r : res A) (k : A → res B) : res B :=
  match r with
  | Ok a => k a
  | Raise e => Raise e
  end.

(** ** Python built-ins the two modules rely on

    Strings are sequences of one-byte characters: lengths and the order
    of strings are those of Python for ASCII text, which package,
    repository and version names are. *)

Module Py.

(** [s.endswith(suffix)]: [s] is [suffix], or the tail of [s] ends with it. *)
Fixpoint endswith (s suffix : string) : bool :=
  String.eqb s suffix ||
  match s with
  | EmptyString => false
  | String _ s' => endswith s' suffix
  end.

(** Truth value of an [int] and of an [Optional[int]]. *)
Definition truthy_int (n : Z) : bool := negb (n =? 0).

Definition truthy_opt_int (o : option Z) : bool :=
  match o with
  | Some n => truthy_int n
  | None => false
  end.

(** Truth value of a [str]: non-empty. *)
Definition truthy_str (s : string) : bool :=
  match s with
  | EmptyString => false
  | String _ _ => true
  end.

(** Truth value of a [list]: non-empty. *)
Definition truthy_list {A} (l : list A) : bool :=
  match l with
  | [] => false
  | _ :: _ => true
  end.

(** [x or default] for an [Optional[str]]: [None] and the empty string
    both give the default. *)
Definition str_or (o : option string) (default : string) : string :=
  match o with
  | Some s => if truthy_str s then s else default
  | None => default
  end.

(** [len(s)] as an integer. *)
Definition len (s : string) : Z := Z.of_nat (String.length s).

(** [" " * n]: the empty string when [n <= 0]. *)
Fixpoint spaces_nat (n : nat) : string :=
  match n with
  | O => EmptyString
  | S k => String " "%char (spaces_nat k)
  end.

Definition spaces (n : Z) : string := spaces_nat (Z.to_nat n).

(** [sep.join(parts)]. *)
Fixpoint join (sep : string) (parts : list string) : string :=
  match parts with
  | [] => EmptyString
  | [p] => p
  | p :: rest => p +:+ sep +:+ join sep rest
  end.

(** [str(n)] for a natural number. *)
Definition str_of_nat (n : nat) : string :=
  NilZero.string_of_uint (Nat.to_uint n).

(** [sorted(l, key=...)]: a stable sort; [leb] is the order on keys
    already composed with the key function.  Insertion from the right
    keeps equal keys in their input order, and on a total order of keys
    every stable sort returns the same list. *)
Section Sorted.
Context {A : Type} (leb : A → A → bool).

Fixpoint insert_sorted (x : A) (l : list A) : list A :=
  match l with
  | [] => [x]
  | y :: l' => if leb x y then x :: y :: l' else y :: insert_sorted x l'
  end.

Fixpoint sorted (l : list A) : list A :=
  match l with
  | [] => []
  | x :: l' => insert_sorted x (sorted l')
  end.
End Sorted.

(** [l.remove(x)]: drops the first element equal to [x], and raises
    [ValueError] when there is none. *)
Fixpoint list_remove `{EqDecision A} (x : A) (l : list A) : res (list A) :=
  match l with
  | [] => Raise ValueError
  | y :: l' =>
      if decide (y = x) then Ok l'
      else res_bind (list_remove x l') (λ r, Ok (y :: r))
  end.

(** [l.index(x)]: position of the first element equal to [x]. *)
Fixpoint list_index `{EqDecision A} (x : A) (l : list A) : option nat :=
  match l with
  | [] => None
  | y :: l' => if decide (y = x) then Some O else S <$> list_index x l'
  end.

(** [s.split(sep)] for a one-character separator: never returns the
    empty list. *)
Fixpoint split (sep : ascii) (s : string) : list string :=
  match s with
  | EmptyString => [EmptyString]
  | String c s' =>
      if Ascii.eqb c sep then EmptyString :: split sep s'
      else match split sep s' with
           | h :: t => String c h :: t
           | [] => [String c EmptyString]
           end
  end.

(** The line feed. *)
Definition nl : string := String (ascii_of_nat 10) EmptyString.

(** [str(n)] for an integer. *)
Definition str_of_Z (n : Z) : string :=
  NilZero.string_of_int (Z.to_int n).

(** [s.rjust(width)]. *)
Definition rjust (s : string) (width : Z) : string :=
  spaces (width - len s) +:+ s.

End Py.

(** ** Data model *)

(** A package of the local database ([PackageDB.get_local_dict()]). *)
Record LocalPackage : Type := {
  lp_name : string;
  lp_version : string;
  lp_installdate : Z;
}.

(** A [pyalpm.Package] of a sync database. *)
Record AlpmPackage : Type := {
  alpm_name : string;
  alpm_version : string;
  alpm_desc : string;
  alpm_db_name : string;
  alpm_size : Z;
  alpm_builddate : option Z;
  alpm_groups : list string;
}.

(** An [AURPackageInfo].  [aur_popularity] stands for the float of the
    RPC answer, kept as the text it was received as. *)
Record AURPackageInfo : Type := {
  aur_name : string;
  aur_version : string;
  aur_desc : string;
  aur_maintainer : option string;
  aur_outofdate : option Z;
  aur_numvotes : option Z;
  aur_popularity : option string;
  aur_lastmodified : option Z;
  aur_groups : list string;
}.

Inductive AnyPackage : Type :=
| RepoPkg (pkg : AlpmPackage)
| AurPkg (pkg : AURPackageInfo).

Definition package_name (p : AnyPackage) : string :=
  match p with
  | RepoPkg pkg => alpm_name pkg
  | AurPkg pkg => aur_name pkg
  end.

(** [InstallInfo] with its two subclasses [RepoInstallInfo] and
    [AURInstallInfo]; [required_by] and [provided_by] keep the names the
    formatter reads from them. *)
Record InstallInfo : Type := {
  name : string;
  current_version : string;
  new_version : string;
  description : option string;
  repository : option string;
  maintainer : option string;
  devel_pkg_age_days : option Z;
  package : option AnyPackage;
  required_by : list string;
  provided_by : list string;
  members_of : list string;
  replaces : list string;
}.

Global Instance LocalPackage_eq_dec : EqDecision LocalPackage.
Proof. solve_decision. Defined.
Global Instance AlpmPackage_eq_dec : EqDecision AlpmPackage.
Proof. solve_decision. Defined.
Global Instance AURPackageInfo_eq_dec : EqDecision AURPackageInfo.
Proof. solve_decision. Defined.
Global Instance AnyPackage_eq_dec : EqDecision AnyPackage.
Proof. solve_decision. Defined.
Global Instance InstallInfo_eq_dec : EqDecision InstallInfo.
Proof. solve_decision. Defined.

(** ** Configuration and command line *)

Inductive UpgradeSortingValues : Type := VERSIONDIFF | PKGNAME | REPO.

Inductive AurSearchSortingValues : Type :=
| AUR_HOTTEST | AUR_PKGNAME | AUR_POPULARITY | AUR_NUMVOTES | AUR_LASTMODIFIED.

Record PikaurConfig : Type := {
  sync_DevelPkgsExpiration : Z;
  sync_UpgradeSorting : UpgradeSortingValues;
  sync_AlwaysShowPkgOrigin : bool;
  sync_ShowDownloadSize : bool;
  colors_Version : Z;
  colors_VersionDiffOld : Z;
  colors_VersionDiffNew : Z;
  ui_WarnAboutPackageUpdates : string;
  ui_GroupByRepository : bool;
  ui_AurSearchSorting : AurSearchSortingValues;
  ui_ReverseSearchSorting : bool;
  ui_DisplayLastUpdated : bool;
}.

Record Args : Type := {
  args_ignore_outofdate : bool;
  args_devel : bool;
  args_repo : bool;
  args_aur : bool;
  args_quiet : bool;
  args_ignore : list string;
}.

(** ** Collaborators

    Everything the two modules import from the rest of the program, from
    the system or from the Python library and that is not a plain data
    operation: version comparison, translation, terminal colours, glob
    matching, dates, string templates, the package databases. *)

Record Env : Type := {
  (* .version *)
  compare_versions : string → string → Z;
  get_common_version : string → string → string * Z;
  get_version_diff : string → string → string;
  (* .i18n *)
  translate : string → string;
  translate_many : string → string → Z → string;
  (* .pprint *)
  color_line : string → Z → bool → string;
  bold_line : string → string;
  format_paragraph : string → string;
  Colors_green : Z;
  Colors_yellow : Z;
  Colors_blue : Z;
  ColorsHighlight_black : Z;
  ColorsHighlight_red : Z;
  ColorsHighlight_yellow : Z;
  ColorsHighlight_blue : Z;
  ColorsHighlight_cyan : Z;
  (* the terminal: the width answered to the k-th query *)
  term_width : nat → Z;
  (* fnmatch.fnmatch *)
  fnmatch : string → string → bool;
  (* str.format: template, positional and keyword arguments *)
  format : string → list string → list (string * string) → string;
  (* f"{size/1024/1024:.2f}" and f"{popularity:.2f}" *)
  format_mib : Z → string;
  format_popularity : string → string;
  (* datetime.fromtimestamp(t, tz=DEFAULT_TIMEZONE).strftime("%Y/%m/%d") *)
  format_date : Z → string;
  (* datetime.now() and datetime.fromtimestamp(t), naive, in seconds *)
  now : Z;
  fromtimestamp : Z → Z;
  (* .pacman *)
  OFFICIAL_REPOS : list string;
  syncdbs : list string;
  local_dict : gmap string LocalPackage;
  find_packages_not_from_repo : list string;
  find_upgradeable_packages : list AlpmPackage;
  pacman_IgnorePkg : list string;
  (* .aur *)
  find_aur_packages : list string → list AURPackageInfo * list string;
  (* order of the keys of get_aur_sort_key, whose float arithmetic is
     not modelled *)
  aur_sort_key_leb :
    AurSearchSortingValues → AURPackageInfo → AURPackageInfo → bool;
  (* PikaurConfig() and parse_args() *)
  config : PikaurConfig;
  args : Args;
}.

(** ** The process state and the monad of effectful code

    The state holds what the code mutates or consumes: the class
    attributes of [RepoColorGenerator], the number of terminal width
    queries made so far, and what was printed. *)

Inductive event : Type :=
| Stdout (text : string)
| Stderr (text : string)
| Warning (text : string).

Record ColorGen : Type := {
  _type_storage : gmap string Z;
  _cache : gmap string (gmap string Z);
  _init_done : bool;
}.

Record World : Type := {
  color_gen : ColorGen;
  term_queries : nat;
  printed : list event;
}.

Definition M (A : Type) : Type := World → res A * World.

Definition ret {A} (a : A) : M A := λ w, (Ok a, w).

Definition bind {A B} (m : M A) (k : A → M B) : M B :=
  λ w, match m w with
       | (Ok a, w') => k a w'
       | (Raise e, w') => (Raise e, w')
       end.

Definition raise {A} (e : exn) : M A := λ w, (Raise e, w).

Definition lift {A} (r : res A) : M A := λ w, (r, w).

Notation "'let*' x := m 'in' k" := (bind m (λ x, k))
  (at level 10, x pattern, m at level 100, k at level 200).

Fixpoint mapM {A B} (f : A → M B) (l : list A) : M (list B) :=
  match l with
  | [] => ret []
  | x :: l' =>
      let* y := f x in
      let* ys := mapM f l' in
      ret (y :: ys)
  end.

Definition print (e : event) : M unit :=
  λ w, (Ok tt, {| color_gen := color_gen w;
                  term_queries := term_queries w;
                  printed := printed w ++ [e] |}).

Definition print_stdout (text : string) : M unit := print (Stdout text).
Definition print_stderr (text : string) : M unit := print (Stderr text).
Definition print_warning (text : string) : M unit := print (Warning text).

(** [get_term_width()]: the terminal is asked again at every call. *)
Definition get_term_width (E : Env) : M Z :=
  λ w, (Ok (term_width E (term_queries w)),
        {| color_gen := color_gen w;
           term_queries := S (term_queries w);
           printed := printed w |}).

Definition with_color_gen {A} (f : ColorGen → A * ColorGen) : M A :=
  λ w, let '(a, g) := f (color_gen w) in
       (Ok a, {| color_gen := g;
                 term_queries := term_queries w;
                 printed := printed w |}).

Definition initial_color_gen : ColorGen :=
  {| _type_storage := ∅; _cache := ∅; _init_done := false |}.

Definition initial_world : World :=
  {| color_gen := initial_color_gen; term_queries := O; printed := [] |}.

(** ** [pikaur/print_department.py] *)

Module PrintDepartment.

Module RepoColorGenerator.

Definition _MAX_COLOR : Z := 15.

(** Lines 113-123 of [get_next]: the next colour of the type is taken
    and cached for [_id]. *)
Definition assign_next (color_type _id : string) (g : ColorGen)
    : Z * ColorGen :=
  let counter :=
    if negb (Py.truthy_opt_int (_type_storage g !! color_type))
       || (_MAX_COLOR <=? default 0 (_type_storage g !! color_type))
    then 10
    else default 0 (_type_storage g !! color_type) + 1 in
  let storage := <[color_type := counter]> (_type_storage g) in
  let cache :=
    <[color_type := <[_id := counter]> (default ∅ (_cache g !! color_type))]>
      (_cache g) in
  (counter,
   {| _type_storage := storage; _cache := cache;
      _init_done := _init_done g |}).

(** Lines 110-123 of [get_next], after the call of [do_init]. *)
Definition get_next_body (color_type _id : string) (g : ColorGen)
    : Z * ColorGen :=
  match default ∅ (_cache g !! color_type) !! _id with
  | Some c => if Py.truthy_int c then (c, g) else assign_next color_type _id g
  | None => assign_next color_type _id g
  end.

(** [do_init]: the calls of [get_next] it makes enter [do_init] again,
    which returns at once since [_init_done] is already set, so each of
    them is [get_next_body]. *)
Definition do_init (E : Env) (g : ColorGen) : ColorGen :=
  if _init_done g then g
  else
    let g1 := {| _type_storage := _type_storage g; _cache := _cache g;
                 _init_done := true |} in
    let g2 :=
      foldl (λ acc official_repo_name,
               snd (get_next_body "repo" official_repo_name acc))
            g1 (OFFICIAL_REPOS E) in
    foldl (λ acc repo, snd (get_next_body "repo" repo acc)) g2 (syncdbs E).

Definition get_next (E : Env) (color_type _id : string) (g : ColorGen)
    : Z * ColorGen :=
  get_next_body color_type _id (do_init E g).

End RepoColorGenerator.

Definition pretty_format_repo_name (E : Env) (repo_name : string)
    (color : bool) : M string :=
  let result := repo_name +:+ "/" in
  if negb color then ret result
  else
    let* c := with_color_gen (RepoColorGenerator.get_next E "repo" repo_name) in
    ret (color_line E result c true).

Definition GROUP_COLOR (E : Env) : Z := Colors_blue E.
Definition REPLACEMENTS_COLOR (E : Env) : Z := ColorsHighlight_cyan E.
Definition ORPHANED_COLOR (E : Env) : Z := ColorsHighlight_red E.

(** The keyword arguments of the line template. *)
Record Fields : Type := {
  f_pkg_name : string;
  f_current_version : string;
  f_new_version : string;
  f_version_separator : string;
  f_spacing : string;
  f_spacing2 : string;
  f_spacing3 : string;
  f_pkg_size : string;
  f_days_old : string;
  f_out_of_date : string;
  f_verbose : string;
}.

(** Keyword-only arguments of [pretty_format_upgradeable]; a template is
    a format string over [Fields]. *)
Record Options : Type := {
  verbose : bool;
  print_repo : bool;
  color : bool;
  template : option (Fields → string);
}.

(** The three shapes of [sort_by]. *)
Inductive sort_key : Type :=
| KeyDiff (neg_diff_weight : Z) (pkg : string)
| KeyName (pkg : string)
| KeyRepo (repo : string) (pkg : string).

(** Tuple order of Python on the keys.  One call uses one shape only;
    across shapes (never compared by the code) the order is that of the
    constructors. *)
Definition key_leb (k1 k2 : sort_key) : bool :=
  match k1, k2 with
  | KeyDiff w1 n1, KeyDiff w2 n2 =>
      (w1 <? w2) || ((w1 =? w2) && String.leb n1 n2)
  | KeyName n1, KeyName n2 => String.leb n1 n2
  | KeyRepo r1 n1, KeyRepo r2 n2 =>
      String.ltb r1 r2 || (String.eqb r1 r2 && String.leb n1 n2)
  | KeyDiff _ _, _ => true
  | KeyName _, KeyDiff _ _ => false
  | KeyName _, KeyRepo _ _ => true
  | KeyRepo _ _, _ => false
  end.

(** Lines 173-184: the sort key of a record. *)
Definition sort_by (E : Env) (pkg_update : InstallInfo) : sort_key :=
  let diff_weight :=
    snd (get_common_version E (current_version pkg_update)
                              (new_version pkg_update)) in
  match sync_UpgradeSorting (config E) with
  | PKGNAME => KeyName (name pkg_update)
  | REPO => KeyRepo (Py.str_or (repository pkg_update) "zzz_(aur)")
                    (name pkg_update)
  | VERSIONDIFF => KeyDiff (- diff_weight) (name pkg_update)
  end.

(** Line 171: [min(int(get_term_width() / 2.5), 37)].  [int] truncates
    towards zero, and the float quotient of an integer width by 2.5 has
    the integer part of the exact quotient 2 * width / 5 (a width is far
    below 2^50). *)
Definition column_width (term : Z) : Z := Z.min (Z.quot (2 * term) 5) 37.

Definition _color_line (E : Env) (parent_color : bool) (line : string)
    (color : Z) (reset : bool) : string :=
  if parent_color then color_line E line color reset else line.

Definition _bold_line (E : Env) (parent_color : bool) (line : string)
    : string :=
  if parent_color then bold_line E line else line.

Definition is_aur_package (p : option AnyPackage) : bool :=
  match p with
  | Some (AurPkg _) => true
  | _ => false
  end.

Definition required_by_text (E : Env) (pkg_update : InstallInfo) : string :=
  " (" +:+ format E (translate E "for {pkg}") []
             [("pkg", Py.join ", " (required_by pkg_update))] +:+ ")".

Definition provided_by_text (pkg_update : InstallInfo) : string :=
  " (" +:+ Py.join " # " (provided_by pkg_update) +:+ ")".

Definition members_of_text (E : Env) (pkg_update : InstallInfo) : string :=
  " (" +:+ format E
             (translate_many E "{grp} group" "{grp} groups"
                (Z.of_nat (length (members_of pkg_update)))) []
             [("grp", Py.join ", " (members_of pkg_update))] +:+ ")".

Definition replaces_text (pkg_update : InstallInfo) : string :=
  " (replaces " +:+ Py.join ", " (replaces pkg_update) +:+ ")".

Definition orphaned_text (E : Env) : string :=
  " [" +:+ translate E "orphaned" +:+ "]".

(** The visible length counter [pkg_len] (lines 187, 192, 198, 206, 220,
    228, 241 and 262): colour escapes never enter it. *)
Definition pkg_len (E : Env) (o : Options) (pkg_update : InstallInfo) : Z :=
  let l0 := Py.len (name pkg_update) in
  let l1 :=
    if (print_repo o || verbose o)
       && Py.truthy_str (Py.str_or (repository pkg_update) "")
    then l0 + (Py.len (Py.str_or (repository pkg_update) "") + 1)
    else if print_repo o then l0 + Py.len "aur/"
    else l0 in
  let l2 :=
    if Py.truthy_list (required_by pkg_update)
    then l1 + Py.len (required_by_text E pkg_update) else l1 in
  let l3 :=
    if Py.truthy_list (provided_by pkg_update)
    then l2 + Py.len (provided_by_text pkg_update) else l2 in
  let l4 :=
    if Py.truthy_list (members_of pkg_update)
    then l3 + Py.len (members_of_text E pkg_update) else l3 in
  let l5 :=
    if Py.truthy_list (replaces pkg_update)
    then l4 + Py.len (replaces_text pkg_update) else l4 in
  if is_aur_package (package pkg_update)
     && bool_decide (maintainer pkg_update = None)
  then l5 + Py.len (orphaned_text E) else l5.

(** The displayed name [pkg_name] with its annotations (lines 186-263). *)
Definition pkg_name (E : Env) (o : Options) (pkg_update : InstallInfo)
    : M string :=
  let cl := _color_line E (color o) in
  let n0 := _bold_line E (color o) (name pkg_update) in
  let* n1 :=
    if (print_repo o || verbose o)
       && Py.truthy_str (Py.str_or (repository pkg_update) "")
    then
      let* r := pretty_format_repo_name E
                  (Py.str_or (repository pkg_update) "") (color o) in
      ret (r +:+ n0)
    else if print_repo o
    then ret (cl "aur/" (ColorsHighlight_red E) true +:+ n0)
    else ret n0 in
  let n2 :=
    if Py.truthy_list (required_by pkg_update) then
      let dep_color := Colors_yellow E in
      n1 +:+ format E (cl " ({})" dep_color true)
               [format E (translate E "for {pkg}") []
                  [("pkg",
                    Py.join (cl ", " dep_color true)
                      (map (λ p, cl p (dep_color + 8) true)
                         (required_by pkg_update))
                    +:+ cl "" dep_color false)]] []
    else n1 in
  let n3 :=
    if Py.truthy_list (provided_by pkg_update)
    then n2 +:+ cl (provided_by_text pkg_update) (Colors_green E) true
    else n2 in
  let n4 :=
    if Py.truthy_list (members_of pkg_update) then
      n3 +:+ cl (format E (cl " ({})" (GROUP_COLOR E) true)
                   [format E
                      (translate_many E "{grp} group" "{grp} groups"
                         (Z.of_nat (length (members_of pkg_update)))) []
                      [("grp",
                        Py.join (cl ", " (GROUP_COLOR E) true)
                          (map (λ g, cl g (GROUP_COLOR E + 8) true)
                             (members_of pkg_update))
                        +:+ cl "" (GROUP_COLOR E) false)]] [])
              (GROUP_COLOR E) true
    else n3 in
  let n5 :=
    if Py.truthy_list (replaces pkg_update) then
      let n :=
        n4 +:+ cl (replaces_text pkg_update) (REPLACEMENTS_COLOR E) true in
      if negb (color o) then "# " +:+ n else n
    else n4 in
  ret (if is_aur_package (package pkg_update)
          && bool_decide (maintainer pkg_update = None)
       then n5 +:+ cl (orphaned_text E) (ORPHANED_COLOR E) true
       else n5).

Definition pkg_size (E : Env) (pkg_update : InstallInfo) : string :=
  match package pkg_update with
  | Some (RepoPkg pkg) =>
      if sync_ShowDownloadSize (config E)
      then format_mib E (alpm_size pkg) +:+ " MiB"
      else ""
  | _ => ""
  end.

Definition days_old (E : Env) (pkg_update : InstallInfo) : string :=
  match devel_pkg_age_days pkg_update with
  | Some d =>
      if Py.truthy_int d
      then " " +:+ format E (translate E "({} days old)") [Py.str_of_Z d] []
      else ""
  | None => ""
  end.

Definition out_of_date (E : Env) (o : Options) (pkg_update : InstallInfo)
    : string :=
  match package pkg_update with
  | Some (AurPkg pkg) =>
      match aur_outofdate pkg with
      | Some t =>
          _color_line E (color o)
            (" [" +:+ translate E "outofdate" +:+ ": "
                  +:+ format_date E t +:+ "]")
            (colors_VersionDiffOld (config E)) true
      | None => ""
      end
  | _ => ""
  end.

(** [pretty_format] up to the call of [format]: the keyword arguments of
    the template and the sort key. *)
Definition pretty_format_fields (E : Env) (o : Options)
    (pkg_update : InstallInfo) : M (Fields * sort_key) :=
  let cl := _color_line E (color o) in
  let common_version :=
    fst (get_common_version E (current_version pkg_update)
                              (new_version pkg_update)) in
  let version_color := colors_Version (config E) in
  let old_color := colors_VersionDiffOld (config E) in
  let new_color := colors_VersionDiffNew (config E) in
  let* term := get_term_width E in
  let column_width := column_width term in
  let* pkg_name := pkg_name E o pkg_update in
  let pkg_len := pkg_len E o pkg_update in
  let pkg_size := pkg_size E pkg_update in
  ret ({| f_pkg_name := pkg_name;
          f_current_version :=
            cl common_version version_color true
            +:+ cl (get_version_diff E (current_version pkg_update)
                      common_version) old_color true;
          f_new_version :=
            cl common_version version_color true
            +:+ cl (get_version_diff E (new_version pkg_update)
                      common_version) new_color true;
          f_version_separator :=
            if Py.truthy_str (current_version pkg_update)
               || Py.truthy_str (new_version pkg_update)
            then " -> " else "";
          f_spacing := Py.spaces (Z.max 1 (column_width - pkg_len));
          f_spacing2 :=
            Py.spaces (Z.max 1 (column_width - 18
                                - Py.len (current_version pkg_update)
                                - Z.max (-1) (pkg_len - column_width)));
          f_spacing3 :=
            if Py.truthy_str pkg_size
            then Py.spaces (Z.max 1 (column_width - 18
                                     - Py.len (new_version pkg_update)
                                     - Z.max (-1) (pkg_len - column_width)))
            else "";
          f_pkg_size := pkg_size;
          f_days_old := days_old E pkg_update;
          f_out_of_date := out_of_date E o pkg_update;
          f_verbose :=
            match description pkg_update with
            | Some d =>
                if verbose o && Py.truthy_str d
                then Py.nl +:+ format_paragraph E d else ""
            | None => ""
            end |},
       sort_by E pkg_update).

Definition default_template (f : Fields) : string :=
  " " +:+ f_pkg_name f +:+ f_spacing f
  +:+ " " +:+ f_current_version f +:+ f_spacing2 f
  +:+ f_version_separator f +:+ f_new_version f +:+ f_spacing3 f
  +:+ f_pkg_size f +:+ f_days_old f +:+ f_out_of_date f +:+ f_verbose f.

Definition pretty_format (E : Env) (o : Options) (pkg_update : InstallInfo)
    : M (string * sort_key) :=
  let* (fields, sort_by) := pretty_format_fields E o pkg_update in
  ret (default default_template (template o) fields, sort_by).

(** The formatted records in display order, each with its key. *)
Definition ranked_upgradeable (E : Env) (o : Options)
    (packages_updates : list InstallInfo) : M (list (string * sort_key)) :=
  let* formatted := mapM (pretty_format E o) packages_updates in
  ret (Py.sorted (λ x y, key_leb (snd x) (snd y)) formatted).

Definition pretty_format_upgradeable (E : Env) (o : Options)
    (packages_updates : list InstallInfo) : M string :=
  let* ranked := ranked_upgradeable E o packages_updates in
  ret (Py.join Py.nl (map fst ranked)).

(** *** [SysupgradePrettyFormatter] *)

(** What the formatter reads from its [InstallInfoFetcher]; the two
    totals are [str(round(size, 2))]. *)
Record InstallInfoFetcher : Type := {
  repo_packages_install_info : list InstallInfo;
  thirdparty_repo_packages_install_info : list InstallInfo;
  aur_updates_install_info : list InstallInfo;
  repo_replacements_install_info : list InstallInfo;
  thirdparty_repo_replacements_install_info : list InstallInfo;
  new_repo_deps_install_info : list InstallInfo;
  new_thirdparty_repo_deps_install_info : list InstallInfo;
  aur_deps_install_info : list InstallInfo;
  total_download_size : string;
  total_installed_size : string;
}.

(** The attributes of a formatter.  [all_install_info_lists] holds the
    eight list objects themselves, so what is removed through it is
    removed from the attribute: here the attribute is rewritten. *)
Record Formatter : Type := {
  self_color : bool;
  self_install_info : InstallInfoFetcher;
  self_verbose : bool;
  repo_packages_updates : list InstallInfo;
  thirdparty_repo_packages_updates : list InstallInfo;
  aur_updates : list InstallInfo;
  repo_replacements : list InstallInfo;
  thirdparty_repo_replacements : list InstallInfo;
  new_repo_deps : list InstallInfo;
  new_thirdparty_repo_deps : list InstallInfo;
  new_aur_deps : list InstallInfo;
  result : list string;
}.

Definition init (install_info : InstallInfoFetcher) (verbose : bool)
    (manual_package_selection : bool) : Formatter :=
  {| self_color := negb manual_package_selection;
     self_install_info := install_info;
     self_verbose := verbose;
     repo_packages_updates := repo_packages_install_info install_info;
     thirdparty_repo_packages_updates :=
       thirdparty_repo_packages_install_info install_info;
     aur_updates := aur_updates_install_info install_info;
     repo_replacements := repo_replacements_install_info install_info;
     thirdparty_repo_replacements :=
       thirdparty_repo_replacements_install_info install_info;
     new_repo_deps :=
       if manual_package_selection then []
       else new_repo_deps_install_info install_info;
     new_thirdparty_repo_deps :=
       if manual_package_selection then []
       else new_thirdparty_repo_deps_install_info install_info;
     new_aur_deps :=
       if manual_package_selection then []
       else aur_deps_install_info install_info;
     result := [] |}.

Definition all_install_info_lists (self : Formatter)
    : list (list InstallInfo) :=
  [repo_packages_updates self;
   thirdparty_repo_packages_updates self;
   aur_updates self;
   repo_replacements self;
   thirdparty_repo_replacements self;
   new_repo_deps self;
   new_thirdparty_repo_deps self;
   new_aur_deps self].

Definition append_result (self : Formatter) (lines : list string)
    : Formatter :=
  {| self_color := self_color self;
     self_install_info := self_install_info self;
     self_verbose := self_verbose self;
     repo_packages_updates := repo_packages_updates self;
     thirdparty_repo_packages_updates :=
       thirdparty_repo_packages_updates self;
     aur_updates := aur_updates self;
     repo_replacements := repo_replacements self;
     thirdparty_repo_replacements := thirdparty_repo_replacements self;
     new_repo_deps := new_repo_deps self;
     new_thirdparty_repo_deps := new_thirdparty_repo_deps self;
     new_aur_deps := new_aur_deps self;
     result := result self ++ lines |}.

Definition self__color_line (E : Env) (self : Formatter) (line : string)
    (color : Z) : string :=
  if self_color self then color_line E line color true else line.

Definition self__bold_line (E : Env) (self : Formatter) (line : string)
    : string :=
  if self_color self then bold_line E line else line.

Definition self_pretty_format_upgradeable (E : Env) (self : Formatter)
    (install_infos : list InstallInfo) (print_repo : option bool)
    : M string :=
  pretty_format_upgradeable E
    {| verbose := self_verbose self;
       print_repo :=
         default (sync_AlwaysShowPkgOrigin (config E)) print_repo;
       color := self_color self;
       template := None |}
    install_infos.

(** The inner loop of [remove_globs_from_pkg_list]: every glob that
    matches removes the record and appends it to the warned list. *)
Fixpoint remove_globs_of_pkg (E : Env) (globs_and_names : list string)
    (pkg_install_info : InstallInfo)
    (st : list InstallInfo * list InstallInfo)
    : res (list InstallInfo * list InstallInfo) :=
  match globs_and_names with
  | [] => Ok st
  | glob :: rest =>
      if fnmatch E (name pkg_install_info) glob then
        res_bind (Py.list_remove pkg_install_info (fst st)) (λ pkg_list,
          remove_globs_of_pkg E rest pkg_install_info
            (pkg_list, snd st ++ [pkg_install_info]))
      else remove_globs_of_pkg E rest pkg_install_info st
  end.

(** The outer loop, over the copy [pkg_list[::]]. *)
Fixpoint remove_globs_loop (E : Env) (globs_and_names : list string)
    (copy : list InstallInfo) (st : list InstallInfo * list InstallInfo)
    : res (list InstallInfo * list InstallInfo) :=
  match copy with
  | [] => Ok st
  | pkg_install_info :: rest =>
      res_bind (remove_globs_of_pkg E globs_and_names pkg_install_info st)
        (remove_globs_loop E globs_and_names rest)
  end.

(** [remove_globs_from_pkg_list]: the list left and the warned list. *)
Definition remove_globs_from_pkg_list (E : Env)
    (globs_and_names : list string) (pkg_list : list InstallInfo)
    (warn_about_packages_list : list InstallInfo)
    : res (list InstallInfo * list InstallInfo) :=
  remove_globs_loop E globs_and_names pkg_list
    (pkg_list, warn_about_packages_list).

(** The loop over [all_install_info_lists]. *)
Fixpoint remove_globs_from_lists (E : Env) (globs_and_names : list string)
    (lists : list (list InstallInfo))
    (warn_about_packages_list : list InstallInfo)
    : res (list (list InstallInfo) * list InstallInfo) :=
  match lists with
  | [] => Ok ([], warn_about_packages_list)
  | pkg_list :: rest =>
      res_bind (remove_globs_from_pkg_list E globs_and_names pkg_list
                  warn_about_packages_list) (λ r,
        res_bind (remove_globs_from_lists E globs_and_names rest (snd r))
          (λ r', Ok (fst r :: fst r', snd r')))
  end.

(** The formatter after its eight lists were rewritten. *)
Definition set_install_info_lists (self : Formatter)
    (lists : list (list InstallInfo)) : Formatter :=
  match lists with
  | [l1; l2; l3; l4; l5; l6; l7; l8] =>
      {| self_color := self_color self;
         self_install_info := self_install_info self;
         self_verbose := self_verbose self;
         repo_packages_updates := l1;
         thirdparty_repo_packages_updates := l2;
         aur_updates := l3;
         repo_replacements := l4;
         thirdparty_repo_replacements := l5;
         new_repo_deps := l6;
         new_thirdparty_repo_deps := l7;
         new_aur_deps := l8;
         result := result self |}
  | _ => self
  end.

(** Lines 421-425 of [pformat_warned_packages]: the filtered formatter
    and the warned list. *)
Definition warn_filter (E : Env) (self : Formatter)
    : res (Formatter * list InstallInfo) :=
  let warn_about_packages_str := ui_WarnAboutPackageUpdates (config E) in
  if Py.truthy_str warn_about_packages_str then
    let globs_and_names := Py.split ","%char warn_about_packages_str in
    res_bind (remove_globs_from_lists E globs_and_names
                (all_install_info_lists self) [])
      (λ r, Ok (set_install_info_lists self (fst r), snd r))
  else Ok (self, []).

Definition pformat_warned_packages (E : Env) (self : Formatter)
    : M Formatter :=
  let* (self, warn_about_packages_list) := lift (warn_filter E self) in
  if Py.truthy_list warn_about_packages_list then
    let header :=
      Py.nl +:+ self__color_line E self "::" (ColorsHighlight_blue E)
      +:+ " " +:+ self__color_line E self "!!" (ColorsHighlight_red E)
      +:+ " " +:+ self__color_line E self
                    (translate_many E
                       "WARNING about package installation:"
                       "WARNING about packages installation:"
                       (Z.of_nat (length warn_about_packages_list)))
                    (ColorsHighlight_red E)
      +:+ " " +:+ self__color_line E self "!!" (ColorsHighlight_red E) in
    let* listing :=
      self_pretty_format_upgradeable E self warn_about_packages_list None in
    ret (append_result self [header; listing])
  else ret self.

(** A section of the report: a header whose number is chosen from
    [counted], then the listing of [listed]. *)
Definition section (E : Env) (self : Formatter) (mark_color : Z)
    (singular plural : string) (counted : list InstallInfo)
    (listed : list InstallInfo) (print_repo : option bool) : M Formatter :=
  let header :=
    Py.nl +:+ self__color_line E self "::" mark_color
    +:+ " " +:+ self__bold_line E self
                  (translate_many E singular plural
                     (Z.of_nat (length counted))) in
  let* listing := self_pretty_format_upgradeable E self listed print_repo in
  ret (append_result self [header; listing]).

Definition pformat_replacements (E : Env) (self : Formatter) : M Formatter :=
  let* self :=
    if Py.truthy_list (repo_replacements self) then
      section E self (ColorsHighlight_blue E)
        "Repository package suggested as a replacement:"
        "Repository packages suggested as a replacement:"
        (repo_replacements self) (repo_replacements self) None
    else ret self in
  if Py.truthy_list (thirdparty_repo_replacements self) then
    section E self (ColorsHighlight_blue E)
      "Third-party repository package suggested as a replacement:"
      "Third-party repository packages suggested as a replacement:"
      (repo_packages_updates self) (thirdparty_repo_replacements self) None
  else ret self.

Definition pformat_repo (E : Env) (self : Formatter) : M Formatter :=
  let* self :=
    if Py.truthy_list (repo_packages_updates self) then
      section E self (ColorsHighlight_blue E)
        "Repository package will be installed:"
        "Repository packages will be installed:"
        (repo_packages_updates self) (repo_packages_updates self) None
    else ret self in
  if Py.truthy_list (new_repo_deps self) then
    section E self (ColorsHighlight_yellow E)
      "New dependency will be installed from repository:"
      "New dependencies will be installed from repository:"
      (new_repo_deps self) (new_repo_deps self) None
  else ret self.

Definition pformat_thirdaprty_repo (E : Env) (self : Formatter)
    : M Formatter :=
  let* self :=
    if Py.truthy_list (thirdparty_repo_packages_updates self) then
      section E self (ColorsHighlight_blue E)
        "Third-party repository package will be installed:"
        "Third-party repository packages will be installed:"
        (thirdparty_repo_packages_updates self)
        (thirdparty_repo_packages_updates self) (Some true)
    else ret self in
  if Py.truthy_list (new_thirdparty_repo_deps self) then
    section E self (ColorsHighlight_yellow E)
      "New dependency will be installed from third-party repository:"
      "New dependencies will be installed from third-party repository:"
      (new_thirdparty_repo_deps self) (new_thirdparty_repo_deps self) None
  else ret self.

Definition pformat_aur (E : Env) (self : Formatter) : M Formatter :=
  let* self :=
    if Py.truthy_list (aur_updates self) then
      section E self (ColorsHighlight_cyan E)
        "AUR package will be installed:"
        "AUR packages will be installed:"
        (aur_updates self) (aur_updates self) (Some false)
    else ret self in
  if Py.truthy_list (new_aur_deps self) then
    section E self (ColorsHighlight_yellow E)
      "New dependency will be installed from AUR:"
      "New dependencies will be installed from AUR:"
      (new_aur_deps self) (new_aur_deps self) (Some false)
  else ret self.

Definition pformat_total_size (E : Env) (self : Formatter) : Formatter :=
  if sync_ShowDownloadSize (config E) then
    append_result self
      [Py.nl
       +:+ self__bold_line E self (translate E "Total Download Size:")
       +:+ Py.rjust (total_download_size (self_install_info self)) 10
       +:+ " MiB" +:+ Py.nl
       +:+ self__bold_line E self (translate E "Total Installed Size:")
       +:+ Py.rjust (total_installed_size (self_install_info self)) 9
       +:+ " MiB" +:+ Py.nl]
  else append_result self [""].

(** [__call__]. *)
Definition call (E : Env) (self : Formatter) : M string :=
  let* self := pformat_warned_packages E self in
  let* self := pformat_replacements E self in
  let* self := pformat_repo E self in
  let* self := pformat_thirdaprty_repo E self in
  let* self := pformat_aur E self in
  let self := pformat_total_size E self in
  ret (Py.join Py.nl (result self)).

(** [self] as [__call__] leaves it before it joins [self.result]. *)
Definition call_steps (E : Env) (self : Formatter) : M Formatter :=
  let* self := pformat_warned_packages E self in
  let* self := pformat_replacements E self in
  let* self := pformat_repo E self in
  let* self := pformat_thirdaprty_repo E self in
  let* self := pformat_aur E self in
  ret (pformat_total_size E self).

Definition pretty_format_sysupgrade (E : Env)
    (install_info : InstallInfoFetcher) (verbose : bool)
    (manual_package_selection : bool) : M string :=
  call E (init install_info verbose manual_package_selection).

(** *** Notices *)

Definition print_ignored_package (E : Env) (package_name : option string)
    (install_info : option InstallInfo) (ignored_from : option string)
    : M unit :=
  if negb (match package_name with
           | Some n => Py.truthy_str n
           | None => false
           end
           || bool_decide (is_Some install_info))
  then raise (TypeError
                (format E
                   (translate E "Either `{prop1}` or `{prop2}` should be set")
                   [] [("prop1", "package_name"); ("prop2", "install_info")]))
  else
    let install_info :=
      default {| name := default "" package_name;
                 current_version := ""; new_version := "";
                 description := None; repository := None;
                 maintainer := None; devel_pkg_age_days := None;
                 package := None; required_by := []; provided_by := [];
                 members_of := []; replaces := [] |}
              install_info in
    let opts t :=
      {| verbose := false; print_repo := false; color := true;
         template := Some t |} in
    let* text :=
      if Py.truthy_str (current_version install_info)
         && Py.truthy_str (new_version install_info)
      then
        let* l := pretty_format_upgradeable E
                    (opts (λ f, f_pkg_name f +:+ " (" +:+ f_current_version f
                                +:+ " => " +:+ f_new_version f +:+ ")"))
                    [install_info] in
        ret (format E (translate E "Ignoring package update {}") [l] [])
      else
        let* l := pretty_format_upgradeable E
                    (opts (if Py.truthy_str (current_version install_info)
                           then λ f, f_pkg_name f +:+ " "
                                     +:+ f_current_version f
                           else λ f, f_pkg_name f +:+ " "
                                     +:+ f_new_version f))
                    [install_info] in
        ret (format E (translate E "Ignoring package {}") [l] []) in
    let message :=
      Py.join " " [color_line E "::" (ColorsHighlight_yellow E) true; text] in
    let message :=
      match ignored_from with
      | Some from => if Py.truthy_str from then message +:+ " " +:+ from
                     else message
      | None => message
      end in
    print_stderr message.

Definition print_ignoring_outofdate_upgrade (E : Env)
    (package_info : InstallInfo) : M unit :=
  print_warning
    (format E
       (translate E
          "{name} {version} AUR package marked as 'outofdate' - skipping")
       []
       [("name", name package_info);
        ("version", bold_line E (new_version package_info))]).

Definition print_not_found_packages (E : Env)
    (not_found_packages : list string) (repo : bool) : M unit :=
  let num_packages := Z.of_nat (length not_found_packages) in
  let* _ :=
    print_warning
      (bold_line E
         (if repo then
            translate_many E
              "Following package cannot be found in repositories:"
              "Following packages cannot be found in repositories:"
              num_packages
          else
            translate_many E
              "Following package cannot be found in AUR:"
              "Following packages cannot be found in AUR:"
              num_packages)) in
  let* _ :=
    mapM (λ package, print_stderr (format_paragraph E package))
         not_found_packages in
  ret tt.

(** [PackageDB.get_local_dict()[package_name].version]. *)
Definition _get_local_version (E : Env) (package_name : string) : res string :=
  match local_dict E !! package_name with
  | Some local_pkg => Ok (lp_version local_pkg)
  | None => Raise (KeyError package_name)
  end.

(** [package_source] is read through its [name] only. *)
Definition print_package_uptodate (E : Env) (package_name : string)
    (package_source_name : string) : M unit :=
  let* version := lift (_get_local_version E package_name) in
  print_warning
    (format E
       (translate E
          "{name} {version} {package_source} package is up to date - skipping")
       []
       [("name", package_name);
        ("version", bold_line E version);
        ("package_source", package_source_name)]).

Definition print_local_package_newer (E : Env) (package_name : string)
    (aur_version : string) : M unit :=
  let* version := lift (_get_local_version E package_name) in
  print_warning
    (format E
       (translate E
          "{name} {version} local package is newer than in AUR ({aur_version}) - skipping")
       []
       [("name", package_name);
        ("version", bold_line E version);
        ("aur_version", bold_line E aur_version)]).

Definition print_package_downgrading (E : Env) (package_name : string)
    (downgrade_version : string) : M unit :=
  let* version := lift (_get_local_version E package_name) in
  print_warning
    (format E
       (translate E
          "Downgrading AUR package {name} {version} to {downgrade_version}")
       []
       [("name", bold_line E package_name);
        ("version", bold_line E version);
        ("downgrade_version", bold_line E downgrade_version)]).

(** *** Search results *)

Definition get_repo_sort_key (E : Env) (pkg : AlpmPackage) : Z * string :=
  (match Py.list_index (alpm_db_name pkg) (syncdbs E) with
   | Some i => if ui_GroupByRepository (config E) then Z.of_nat i else 999
   | None => 999
   end,
   alpm_name pkg).

Definition repo_sort_key_leb (k1 k2 : Z * string) : bool :=
  (fst k1 <? fst k2) || ((fst k1 =? fst k2) && String.leb (snd k1) (snd k2)).

(** [enumerate(l)], from [start]. *)
Fixpoint enumerate {A} (start : nat) (l : list A) : list (nat * A) :=
  match l with
  | [] => []
  | x :: l' => (start, x) :: enumerate (S start) l'
  end.

(** Lines 715-728: the packages in the order returned, and the numbered
    packages in the order printed. *)
Definition sorted_packages (E : Env) (repo_packages : list AlpmPackage)
    (aur_packages : list AURPackageInfo) : list AnyPackage :=
  let sorted_repo_pkgs :=
    Py.sorted (λ x y, repo_sort_key_leb (get_repo_sort_key E x)
                                        (get_repo_sort_key E y))
              repo_packages in
  let sorted_aur_pkgs :=
    Py.sorted (aur_sort_key_leb E (ui_AurSearchSorting (config E)))
              aur_packages in
  map RepoPkg sorted_repo_pkgs ++ map AurPkg sorted_aur_pkgs.

Definition enumerated_packages (E : Env) (repo_packages : list AlpmPackage)
    (aur_packages : list AURPackageInfo) : list (nat * AnyPackage) :=
  let enumerated_packages :=
    enumerate 0 (sorted_packages E repo_packages aur_packages) in
  if ui_ReverseSearchSorting (config E) then rev enumerated_packages
  else enumerated_packages.

(** The number shown in front of a line. *)
Definition idx_text (E : Env) (enumerated : bool) (pkg_idx : nat) : string :=
  if enumerated then bold_line E (Py.str_of_nat (pkg_idx + 1) +:+ ") ")
  else "".

Definition package_version (p : AnyPackage) : string :=
  match p with
  | RepoPkg pkg => alpm_version pkg
  | AurPkg pkg => aur_version pkg
  end.

Definition package_desc (p : AnyPackage) : string :=
  match p with
  | RepoPkg pkg => alpm_desc pkg
  | AurPkg pkg => aur_desc pkg
  end.

Definition package_groups (p : AnyPackage) : list string :=
  match p with
  | RepoPkg pkg => alpm_groups pkg
  | AurPkg pkg => aur_groups pkg
  end.

(** Lines 730-821: what one turn of the printing loop writes. *)
Definition print_search_entry (E : Env)
    (local_pkgs_versions : gmap string string) (enumerated : bool)
    (entry : nat * AnyPackage) : M unit :=
  let '(pkg_idx, package) := entry in
  let idx := idx_text E enumerated pkg_idx in
  let pkg_name := package_name package in
  if args_quiet (args E) then print_stdout (idx +:+ pkg_name)
  else
    let* repo :=
      match package with
      | RepoPkg pkg => pretty_format_repo_name E (alpm_db_name pkg) true
      | AurPkg _ => ret (color_line E "aur/" (ColorsHighlight_red E) true)
      end in
    let groups :=
      if Py.truthy_list (package_groups package)
      then color_line E ("(" +:+ Py.join " " (package_groups package) +:+ ") ")
             (GROUP_COLOR E) true
      else "" in
    let installed :=
      match local_pkgs_versions !! pkg_name with
      | Some v =>
          color_line E
            (if negb (String.eqb (package_version package) v)
             then format E (translate E "[installed: {version}]") []
                    [("version", v)] +:+ " "
             else translate E "[installed]" +:+ " ")
            (ColorsHighlight_cyan E) true
      | None => ""
      end in
    let rating :=
      match package with
      | AurPkg pkg =>
          match aur_numvotes pkg, aur_popularity pkg with
          | Some votes, Some popularity =>
              color_line E
                ("(" +:+ Py.str_of_Z votes +:+ ", "
                     +:+ format_popularity E popularity +:+ ")")
                (Colors_yellow E) true
          | _, _ => ""
          end
      | RepoPkg _ => ""
      end in
    let '(version, version_color) :=
      match package with
      | AurPkg pkg =>
          match aur_outofdate pkg with
          | Some t =>
              (aur_version pkg +:+ " [" +:+ translate E "outofdate" +:+ ": "
                 +:+ format_date E t +:+ "]",
               colors_VersionDiffOld (config E))
          | None => (aur_version pkg, colors_Version (config E))
          end
      | RepoPkg pkg => (alpm_version pkg, colors_Version (config E))
      end in
    let last_updated :=
      if ui_DisplayLastUpdated (config E) then
        let last_update_date :=
          match package with
          | RepoPkg pkg => alpm_builddate pkg
          | AurPkg pkg => aur_lastmodified pkg
          end in
        color_line E
          (" (last updated: "
           +:+ match last_update_date with
               | Some t => format_date E t
               | None => "unknown"
               end +:+ ")")
          (ColorsHighlight_black E) true
      else "" in
    let* _ :=
      print_stdout
        (idx +:+ repo +:+ bold_line E pkg_name +:+ " "
             +:+ color_line E version version_color true +:+ " "
             +:+ groups +:+ installed +:+ rating +:+ last_updated) in
    print_stdout (format_paragraph E (package_desc package)).

Definition print_package_search_results (E : Env)
    (repo_packages : list AlpmPackage) (aur_packages : list AURPackageInfo)
    (local_pkgs_versions : gmap string string) (enumerated : bool)
    : M (list AnyPackage) :=
  let* _ :=
    mapM (print_search_entry E local_pkgs_versions enumerated)
         (enumerated_packages E repo_packages aur_packages) in
  ret (sorted_packages E repo_packages aur_packages).

End PrintDepartment.

(** ** [pikaur/updates.py] *)

Module Updates.

Definition DEVEL_PKGS_POSTFIXES : list string :=
  ["-git"; "-svn"; "-bzr"; "-hg"; "-cvs"; "-nightly"].

(** The [for] loop of [is_devel_pkg]: [result] starts as [False]; the
    first matching postfix sets it and breaks. *)
Fixpoint is_devel_pkg_loop (postfixes : list string) (pkg_name : string)
    (result : bool) : bool :=
  match postfixes with
  | [] => result
  | devel_pkg_postfix :: rest =>
      if Py.endswith pkg_name devel_pkg_postfix then true
      else is_devel_pkg_loop rest pkg_name result
  end.

Definition is_devel_pkg (pkg_name : string) : bool :=
  is_devel_pkg_loop DEVEL_PKGS_POSTFIXES pkg_name false.

(** [d[key]] on the local database. *)
Definition local_lookup (E : Env) (key : string) : res LocalPackage :=
  match local_dict E !! key with
  | Some pkg => Ok pkg
  | None => Raise (KeyError key)
  end.

Definition RepoInstallInfo (local_pkg : LocalPackage) (repo_pkg : AlpmPackage)
    : InstallInfo :=
  {| name := lp_name local_pkg;
     new_version := alpm_version repo_pkg;
     current_version := lp_version local_pkg;
     description := Some (alpm_desc repo_pkg);
     repository := Some (alpm_db_name repo_pkg);
     maintainer := None;
     devel_pkg_age_days := None;
     package := Some (RepoPkg repo_pkg);
     required_by := []; provided_by := []; members_of := [];
     replaces := [] |}.

Fixpoint find_repo_upgradeable_loop (E : Env) (upgradeable : list AlpmPackage)
    (repo_packages_updates : list InstallInfo) : res (list InstallInfo) :=
  match upgradeable with
  | [] => Ok repo_packages_updates
  | repo_pkg :: rest =>
      res_bind (local_lookup E (alpm_name repo_pkg)) (λ local_pkg,
        find_repo_upgradeable_loop E rest
          (repo_packages_updates ++ [RepoInstallInfo local_pkg repo_pkg]))
  end.

Definition find_repo_upgradeable (E : Env) : res (list InstallInfo) :=
  find_repo_upgradeable_loop E (find_upgradeable_packages E) [].

(** [(now - datetime.fromtimestamp(installdate)).days]: whole days,
    rounded down. *)
Definition pkg_age_days (E : Env) (local_pkg : LocalPackage) : Z :=
  (now E - fromtimestamp E (lp_installdate local_pkg)) `div` 86400.

(** The record synthesized for a stale development package. *)
Definition devel_install_info (local_pkg : LocalPackage)
    (aur_pkg : AURPackageInfo) (age : Z) : InstallInfo :=
  {| name := aur_name aur_pkg;
     current_version := lp_version local_pkg;
     new_version := "devel";
     description := Some (aur_desc aur_pkg);
     repository := None;
     maintainer := aur_maintainer aur_pkg;
     devel_pkg_age_days := Some age;
     package := Some (AurPkg aur_pkg);
     required_by := []; provided_by := []; members_of := [];
     replaces := [] |}.

Fixpoint find_aur_devel_updates_loop (E : Env) (pkgs : list AURPackageInfo)
    (package_ttl_days : Z) (aur_updates : list InstallInfo)
    : res (list InstallInfo) :=
  match pkgs with
  | [] => Ok aur_updates
  | aur_pkg :: rest =>
      let pkg_name := aur_name aur_pkg in
      if negb (is_devel_pkg pkg_name)
      then find_aur_devel_updates_loop E rest package_ttl_days aur_updates
      else
        res_bind (local_lookup E pkg_name) (λ local_pkg,
          let pkg_age_days := pkg_age_days E local_pkg in
          if package_ttl_days <=? pkg_age_days
          then find_aur_devel_updates_loop E rest package_ttl_days
                 (aur_updates
                  ++ [devel_install_info local_pkg aur_pkg pkg_age_days])
          else find_aur_devel_updates_loop E rest package_ttl_days
                 aur_updates)
  end.

Definition find_aur_devel_updates (E : Env)
    (aur_pkgs_info : list AURPackageInfo) (package_ttl_days : Z)
    : res (list InstallInfo) :=
  find_aur_devel_updates_loop E
    (Py.sorted (λ x y, String.leb (aur_name x) (aur_name y)) aur_pkgs_info)
    package_ttl_days [].

(** The record built for a package whose AUR version is newer. *)
Definition AURInstallInfo (current_version : string)
    (aur_pkg : AURPackageInfo) : InstallInfo :=
  {| name := aur_name aur_pkg;
     new_version := aur_version aur_pkg;
     current_version := current_version;
     description := Some (aur_desc aur_pkg);
     repository := None;
     maintainer := aur_maintainer aur_pkg;
     devel_pkg_age_days := None;
     package := Some (AurPkg aur_pkg);
     required_by := []; provided_by := []; members_of := [];
     replaces := [] |}.

(** The loop of [find_aur_updates] (lines 126-145), with its two
    accumulators. *)
Fixpoint find_aur_updates_loop (E : Env) (aur_pkgs_info : list AURPackageInfo)
    (aur_updates : list InstallInfo)
    (aur_pkgs_up_to_date : list AURPackageInfo)
    : M (list InstallInfo * list AURPackageInfo) :=
  match aur_pkgs_info with
  | [] => ret (aur_updates, aur_pkgs_up_to_date)
  | aur_pkg :: rest =>
      let pkg_name := aur_name aur_pkg in
      let aur_version := aur_version aur_pkg in
      let* local_pkg := lift (local_lookup E pkg_name) in
      let current_version := lp_version local_pkg in
      let compare_aur_pkg := compare_versions E current_version aur_version in
      if compare_aur_pkg <? 0 then
        let pkg_install_info := AURInstallInfo current_version aur_pkg in
        if args_ignore_outofdate (args E)
           && Py.truthy_opt_int (aur_outofdate aur_pkg)
        then
          let* _ := PrintDepartment.print_ignoring_outofdate_upgrade E
                      pkg_install_info in
          find_aur_updates_loop E rest aur_updates aur_pkgs_up_to_date
        else
          find_aur_updates_loop E rest (aur_updates ++ [pkg_install_info])
            aur_pkgs_up_to_date
      else
        find_aur_updates_loop E rest aur_updates
          (aur_pkgs_up_to_date ++ [aur_pkg])
  end.

(** Lines 146-155: the development packages among those up to date. *)
Definition devel_updates_of (E : Env)
    (aur_pkgs_up_to_date : list AURPackageInfo) : res (list InstallInfo) :=
  if Py.truthy_list aur_pkgs_up_to_date then
    let devel_packages_expiration :=
      if args_devel (args E) then 0
      else sync_DevelPkgsExpiration (config E) in
    if -1 <? devel_packages_expiration
    then find_aur_devel_updates E aur_pkgs_up_to_date
           devel_packages_expiration
    else Ok []
  else Ok [].

Definition find_aur_updates (E : Env) : M (list InstallInfo * list string) :=
  let package_names := find_packages_not_from_repo E in
  let* _ :=
    print_stderr
      (translate_many E "Reading AUR package info..."
         "Reading AUR packages info..."
         (Z.of_nat (length package_names))) in
  let '(aur_pkgs_info, not_found_aur_pkgs) :=
    find_aur_packages E package_names in
  let* (aur_updates, aur_pkgs_up_to_date) :=
    find_aur_updates_loop E aur_pkgs_info [] [] in
  let* devel_updates := lift (devel_updates_of E aur_pkgs_up_to_date) in
  ret (aur_updates ++ devel_updates, not_found_aur_pkgs).

(** Modelled from the spec: [get_ignored_pkgnames_from_patterns] of the
    pacman module, which is not among the sources: the names that match
    one of the patterns, a pattern being a glob or a bare name. *)
Definition get_ignored_pkgnames_from_patterns (E : Env)
    (pkg_names : list string) (ignore_patterns : list string) : list string :=
  List.filter (λ n, existsb (fnmatch E n) ignore_patterns) pkg_names.

(** Lines 173-176 of [print_upgradeable]. *)
Fixpoint remove_ignored (E : Env) (ignored_pkg_names : list string)
    (copy : list InstallInfo) (updates : list InstallInfo)
    : M (list InstallInfo) :=
  match copy with
  | [] => ret updates
  | pkg :: rest =>
      if bool_decide (name pkg ∈ ignored_pkg_names) then
        let* updates := lift (Py.list_remove pkg updates) in
        let* _ := PrintDepartment.print_ignored_package E None (Some pkg)
                    None in
        remove_ignored E ignored_pkg_names rest updates
      else remove_ignored E ignored_pkg_names rest updates
  end.

Definition print_upgradeable (E : Env) (ignored_only : bool) : M unit :=
  let* aur_updates :=
    if negb (args_repo (args E)) then
      let* (aur_updates, _not_found_aur_pkgs) := find_aur_updates E in
      ret aur_updates
    else ret [] in
  let* repo_updates :=
    if negb (args_aur (args E)) then lift (find_repo_upgradeable E)
    else ret [] in
  let updates := aur_updates ++ repo_updates in
  if negb (Py.truthy_list updates) then ret tt
  else
    let ignored_pkg_names :=
      get_ignored_pkgnames_from_patterns E (map name updates)
        (args_ignore (args E) ++ pacman_IgnorePkg E) in
    let* updates := remove_ignored E ignored_pkg_names updates updates in
    if ignored_only then ret tt
    else if args_quiet (args E)
    then print_stdout (Py.join Py.nl (map name updates))
    else
      let* text :=
        PrintDepartment.pretty_format_upgradeable E
          {| PrintDepartment.verbose := false;
             PrintDepartment.print_repo :=
               sync_AlwaysShowPkgOrigin (config E);
             PrintDepartment.color := true;
             PrintDepartment.template := None |}
          updates in
      print_stdout text.

End Updates.

(** ** Specification devices *)

(** A sequence of colour requests, from any call sites: the colours
    answered, in order, and the generator left. *)
Fixpoint run_requests (E : Env) (requests : list (string * string))
    (g : ColorGen) : list Z * ColorGen :=
  match requests with
  | [] => ([], g)
  | (color_type, _id) :: rest =>
      let '(c, g') :=
        PrintDepartment.RepoColorGenerator.get_next E color_type _id g in
      let '(cs, g'') := run_requests E rest g' in
      (c :: cs, g'')
  end.

(** The requests [do_init] makes. *)
Definition init_requests (E : Env) : list (string * string) :=
  map (λ r, ("repo", r)) (OFFICIAL_REPOS E ++ syncdbs E).

(** The identifiers of one colour type in the order they were first
    requested. *)
Fixpoint first_seen_from (color_type : string)
    (history : list (string * string)) (seen : list string) : list string :=
  match history with
  | [] => seen
  | (t, _id) :: rest =>
      first_seen_from color_type rest
        (if bool_decide (t = color_type) && negb (bool_decide (_id ∈ seen))
         then seen ++ [_id] else seen)
  end.

Definition first_seen (color_type : string)
    (history : list (string * string)) : list string :=
  first_seen_from color_type history [].

(** The palette: the six colours 10 to 15, taken in turn. *)
Definition palette_color (k : nat) : Z := 10 + Z.of_nat k `mod` 6.

(** The colour of a request in a history: by the rank of its identifier
    among those first seen of its type. *)
Definition color_of (history : list (string * string))
    (request : string * string) : Z :=
  match Py.list_index (snd request) (first_seen (fst request) history) with
  | Some k => palette_color k
  | None => 0
  end.

(** The value and the state of a run from a given state. *)
Definition value_of {A} (m : M A) (w : World) : res A := fst (m w).
Definition world_after {A} (m : M A) (w : World) : World := snd (m w).

(** The numbers printed in front of the lines of a search, in the order
    of the lines. *)
Definition printed_indices (E : Env) (repo_packages : list AlpmPackage)
    (aur_packages : list AURPackageInfo) : list nat :=
  map (λ entry, fst entry + 1)%nat
      (PrintDepartment.enumerated_packages E repo_packages aur_packages).

(** The text of the 1-based number of the package at position [k] of
    the returned list: bold "k+1) ", and nothing when the lines are not
    numbered. *)
Definition number_text (E : Env) (enumerated : bool) (k : nat) : string :=
  if enumerated then bold_line E (Py.str_of_nat (S k) +:+ ") ") else "".

(** What a search prints for the package at position [k] of the
    returned list: in quiet mode one line, the number and the name;
    otherwise a line that starts with the number, followed by the
    repository, the bold name and the rest, and then the line of the
    description. *)
Definition search_entry_lines (E : Env) (enumerated : bool) (k : nat)
    (package : AnyPackage) (lines : list event) : Prop :=
  if args_quiet (args E) then
    lines = [Stdout (number_text E enumerated k +:+ package_name package)]
  else
    ∃ repo rest,
      lines
      = [Stdout (number_text E enumerated k +:+ repo
                 +:+ bold_line E (package_name package) +:+ " " +:+ rest);
         Stdout (format_paragraph E
                   (PrintDepartment.package_desc package))].

(** The positions of the returned list in the order in which their
    lines are printed. *)
Definition printing_order (E : Env) (n : nat) : list nat :=
  if ui_ReverseSearchSorting (config E) then rev (seq 0 n) else seq 0 n.

(** Order of the keys, as a relation. *)
Definition key_le (k1 k2 : PrintDepartment.sort_key) : Prop :=
  PrintDepartment.key_leb k1 k2 = true.

(** The order of the keys, in words. *)
Definition key_le_spec (k1 k2 : PrintDepartment.sort_key) : Prop :=
  match k1, k2 with
  | PrintDepartment.KeyDiff w1 n1, PrintDepartment.KeyDiff w2 n2 =>
      w1 < w2 ∨ (w1 = w2 ∧ String.le n1 n2)
  | PrintDepartment.KeyName n1, PrintDepartment.KeyName n2 => String.le n1 n2
  | PrintDepartment.KeyRepo r1 n1, PrintDepartment.KeyRepo r2 n2 =>
      (String.le r1 r2 ∧ r1 ≠ r2) ∨ (r1 = r2 ∧ String.le n1 n2)
  | PrintDepartment.KeyDiff _ _, _ => True
  | PrintDepartment.KeyName _, PrintDepartment.KeyDiff _ _ => False
  | PrintDepartment.KeyName _, PrintDepartment.KeyRepo _ _ => True
  | PrintDepartment.KeyRepo _ _, _ => False
  end.

(** What the generator holds after a history of requests. *)
Record color_inv (h : list (string * string)) (g : ColorGen) : Prop := {
  inv_done : _init_done g = true;
  inv_storage : ∀ t,
    _type_storage g !! t =
    match first_seen t h with
    | [] => None
    | _ :: l => Some (palette_color (length l))
    end;
  inv_cache : ∀ t i,
    default ∅ (_cache g !! t) !! i
    = palette_color <$> Py.list_index i (first_seen t h);
}.

(** A step that only touches the colour generator. *)
Definition colors_only {A} (m : M A) : Prop :=
  ∀ w, ∃ a g,
    m w = (Ok a, {| color_gen := g; term_queries := term_queries w;
                    printed := printed w |}).

(** The widths of the three paddings of the records of one call. *)
Definition padding_widths_of (E : Env) (o : PrintDepartment.Options)
    (packages_updates : list InstallInfo) (w : World) : list (Z * Z * Z) :=
  match value_of (mapM (PrintDepartment.pretty_format_fields E o)
                    packages_updates) w with
  | Ok l =>
      map (λ x, (Py.len (PrintDepartment.f_spacing (fst x)),
                 Py.len (PrintDepartment.f_spacing2 (fst x)),
                 Py.len (PrintDepartment.f_spacing3 (fst x)))) l
  | Raise _ => []
  end.

(** A computation that returns, whatever the state. *)
Definition succeeds {A} (m : M A) : Prop :=
  ∀ w, ∃ a w', m w = (Ok a, w').

(** The time to live the staleness path runs with. *)
Definition effective_ttl (E : Env) : Z :=
  if args_devel (args E) then 0 else sync_DevelPkgsExpiration (config E).

(** The AUR version is strictly newer than the installed one. *)
Definition aur_is_newer (E : Env) (aur_pkg : AURPackageInfo) : bool :=
  match local_dict E !! aur_name aur_pkg with
  | Some local_pkg =>
      compare_versions E (lp_version local_pkg) (aur_version aur_pkg) <? 0
  | None => false
  end.

(** The package is flagged and flagged packages are to be skipped. *)
Definition skips_outofdate (E : Env) (aur_pkg : AURPackageInfo) : bool :=
  args_ignore_outofdate (args E)
  && Py.truthy_opt_int (aur_outofdate aur_pkg).

(** What the loop of [find_aur_updates] appends for one package. *)
Definition version_update (E : Env) (aur_pkg : AURPackageInfo)
    : option InstallInfo :=
  match local_dict E !! aur_name aur_pkg with
  | Some local_pkg =>
      if aur_is_newer E aur_pkg && negb (skips_outofdate E aur_pkg)
      then Some (Updates.AURInstallInfo (lp_version local_pkg) aur_pkg)
      else None
  | None => None
  end.

Definition is_up_to_date (E : Env) (aur_pkg : AURPackageInfo) : bool :=
  match local_dict E !! aur_name aur_pkg with
  | Some _ => negb (aur_is_newer E aur_pkg)
  | None => false
  end.

(** The text of the notice of [print_ignoring_outofdate_upgrade]. *)
Definition skip_notice_text (E : Env) (package_info : InstallInfo) : string :=
  format E
    (translate E
       "{name} {version} AUR package marked as 'outofdate' - skipping")
    []
    [("name", name package_info);
     ("version", bold_line E (new_version package_info))].

Definition skip_notice (E : Env) (aur_pkg : AURPackageInfo) : option event :=
  match local_dict E !! aur_name aur_pkg with
  | Some local_pkg =>
      if aur_is_newer E aur_pkg && skips_outofdate E aur_pkg
      then Some (Warning
                   (skip_notice_text E
                      (Updates.AURInstallInfo (lp_version local_pkg) aur_pkg)))
      else None
  | None => None
  end.

(** What the loop of [find_aur_devel_updates] appends for one package. *)
Definition devel_update (E : Env) (package_ttl_days : Z)
    (aur_pkg : AURPackageInfo) : option InstallInfo :=
  if Updates.is_devel_pkg (aur_name aur_pkg) then
    match local_dict E !! aur_name aur_pkg with
    | Some local_pkg =>
        if package_ttl_days <=? Updates.pkg_age_days E local_pkg
        then Some (Updates.devel_install_info local_pkg aur_pkg
                     (Updates.pkg_age_days E local_pkg))
        else None
    | None => None
    end
  else None.

(** Every package the AUR answered about is installed. *)
Definition all_installed (E : Env) (pkgs : list AURPackageInfo) : Prop :=
  ∀ p, p ∈ pkgs → is_Some (local_dict E !! aur_name p).

(** The globs of the warn filter. *)
Definition warn_globs (E : Env) : list string :=
  if Py.truthy_str (ui_WarnAboutPackageUpdates (config E))
  then Py.split ","%char (ui_WarnAboutPackageUpdates (config E))
  else [].

(** The globs a record matches, and whether it matches any. *)
Definition matching_globs (E : Env) (globs : list string)
    (pkg : InstallInfo) : list string :=
  List.filter (fnmatch E (name pkg)) globs.

Definition is_warned (E : Env) (globs : list string) (pkg : InstallInfo)
    : bool :=
  existsb (fnmatch E (name pkg)) globs.

(** No record of the formatter matches more than one glob. *)
Definition at_most_one_glob (E : Env) (self : PrintDepartment.Formatter)
    : Prop :=
  ∀ l p, l ∈ PrintDepartment.all_install_info_lists self → p ∈ l →
         (length (matching_globs E (warn_globs E) p) ≤ 1)%nat.

(** The name is not that of an installed package. *)
Definition not_installed (E : Env) (pkg_name : string) : bool :=
  bool_decide (local_dict E !! pkg_name = None).

(** The environment with another [color_line] and another [bold_line]:
    a result that is the same in both contains no colour code. *)
Definition with_colors (E : Env) (color_line' : string → Z → bool → string)
    (bold_line' : string → string) : Env :=
  {| compare_versions := compare_versions E;
     get_common_version := get_common_version E;
     get_version_diff := get_version_diff E;
     translate := translate E;
     translate_many := translate_many E;
     color_line := color_line';
     bold_line := bold_line';
     format_paragraph := format_paragraph E;
     Colors_green := Colors_green E;
     Colors_yellow := Colors_yellow E;
     Colors_blue := Colors_blue E;
     ColorsHighlight_black := ColorsHighlight_black E;
     ColorsHighlight_red := ColorsHighlight_red E;
     ColorsHighlight_yellow := ColorsHighlight_yellow E;
     ColorsHighlight_blue := ColorsHighlight_blue E;
     ColorsHighlight_cyan := ColorsHighlight_cyan E;
     term_width := term_width E;
     fnmatch := fnmatch E;
     format := format E;
     format_mib := format_mib E;
     format_popularity := format_popularity E;
     format_date := format_date E;
     now := now E;
     fromtimestamp := fromtimestamp E;
     OFFICIAL_REPOS := OFFICIAL_REPOS E;
     syncdbs := syncdbs E;
     local_dict := local_dict E;
     find_packages_not_from_repo := find_packages_not_from_repo E;
     find_upgradeable_packages := find_upgradeable_packages E;
     pacman_IgnorePkg := pacman_IgnorePkg E;
     find_aur_packages := find_aur_packages E;
     aur_sort_key_leb := aur_sort_key_leb E;
     config := config E;
     args := args E |}.

(** What the default template puts in front of the arrow: a space, the
    name and its padding, a space, the current version and its
    padding. *)
Definition before_arrow (F : PrintDepartment.Fields) : string :=
  " " +:+ PrintDepartment.f_pkg_name F +:+ PrintDepartment.f_spacing F
  +:+ " " +:+ PrintDepartment.f_current_version F
  +:+ PrintDepartment.f_spacing2 F.

(** What it puts after it, from the arrow on. *)
Definition from_arrow (F : PrintDepartment.Fields) : string :=
  PrintDepartment.f_version_separator F +:+ PrintDepartment.f_new_version F
  +:+ PrintDepartment.f_spacing3 F +:+ PrintDepartment.f_pkg_size F
  +:+ PrintDepartment.f_days_old F +:+ PrintDepartment.f_out_of_date F
  +:+ PrintDepartment.f_verbose F.

(** The rank of the repository of a package in a search: when the
    results are grouped by repository, the position of the first sync
    database that has the name of the package's repository, and 999
    when there is none; 999 for every package when they are not
    grouped. *)
Definition repo_rank (E : Env) (pkg : AlpmPackage) : Z :=
  if ui_GroupByRepository (config E) then
    match list_find (λ db, db = alpm_db_name pkg) (syncdbs E) with
    | Some (position, _) => Z.of_nat position
    | None => 999
    end
  else 999.

(** The order of the repository packages of a search: by the rank of
    the repository, then by name. *)
Definition repo_key_le (E : Env) (a b : AlpmPackage) : Prop :=
  repo_rank E a < repo_rank E b ∨
  (repo_rank E a = repo_rank E b ∧ String.le (alpm_name a) (alpm_name b)).

(** The lines of one package in the output of a search. *)
Definition lines_per_package (E : Env) : nat :=
  if args_quiet (args E) then 1%nat else 2%nat.

(** Events that are not for stdout. *)
Definition no_stdout (events : list event) : Prop :=
  Forall (λ e, ∀ text, e ≠ Stdout text) events.

(** The updates [print_upgradeable] finds before it filters them: those
    of the AUR unless [--repo] is given, then those of the repositories
    unless [--aur] is given; an error of the first search comes before
    one of the second. *)
Definition found_updates (E : Env) (w : World) : res (list InstallInfo) :=
  match (if args_repo (args E) then Ok []
         else res_bind (value_of (Updates.find_aur_updates E) w)
                (λ found, Ok (fst found))) with
  | Raise e => Raise e
  | Ok aur_updates =>
      match (if args_aur (args E) then Ok []
             else Updates.find_repo_upgradeable E) with
      | Raise e => Raise e
      | Ok repo_updates => Ok (aur_updates ++ repo_updates)
      end
  end.

(** The names [print_upgradeable] ignores among those of [updates]. *)
Definition ignored_names (E : Env) (updates : list InstallInfo)
    : list string :=
  Updates.get_ignored_pkgnames_from_patterns E (map name updates)
    (args_ignore (args E) ++ pacman_IgnorePkg E).

(** [package_name or install_info]: one of the two is given. *)
Definition has_target (package_name : option string)
    (install_info : option InstallInfo) : bool :=
  match package_name with
  | Some n => Py.truthy_str n
  | None => false
  end
  || bool_decide (is_Some install_info).

(** The record is named in the list of ignored names. *)
Definition is_ignored (ignored_pkg_names : list string) (pkg : InstallInfo)
    : bool :=
  bool_decide (name pkg ∈ ignored_pkg_names).

(** A step of the report that, on a formatter without colours, is the
    same whatever the colour functions are, leaves the formatter
    without colours and leaves the colour generator alone. *)
Definition colorless (E : Env) (color_line' : string → Z → bool → string)
    (bold_line' : string → string)
    (step : Env → PrintDepartment.Formatter → M PrintDepartment.Formatter)
    : Prop :=
  ∀ self w,
    PrintDepartment.self_color self = false →
    step (with_colors E color_line' bold_line') self w = step E self w ∧
    color_gen (snd (step E self w)) = color_gen w ∧
    ∀ self', fst (step E self w) = Ok self' →
             PrintDepartment.self_color self' = false.

(** What a run leaves of the state when it only asked the terminal
    [queries] times and printed [events]. *)
Definition world_with (w : World) (queries : nat) (events : list event)
    : World :=
  {| color_gen := color_gen w;
     term_queries := (term_queries w + queries)%nat;
     printed := printed w ++ events |}.

(** A run that returns a value that satisfies [post], having asked the
    terminal [queries] times and printed nothing. *)
Definition asks {A} (m : M A) (w : World) (queries : nat)
    (post : A → Prop) : Prop :=
  ∃ a g, m w = (Ok a, {| color_gen := g;
                         term_queries := (term_queries w + queries)%nat;
                         printed := printed w |}) ∧ post a.

(** A step of the report that returns the formatter with [entries self]
    more entries in its result, having asked the terminal
    [queries self] times and printed nothing. *)
Definition appends (step : PrintDepartment.Formatter
                           → M PrintDepartment.Formatter)
    (queries entries : PrintDepartment.Formatter → nat) : Prop :=
  ∀ self w,
    asks (step self) w (queries self)
      (λ self', ∃ lines,
         self' = PrintDepartment.append_result self lines ∧
         length lines = entries self).

(** A number that does not depend on the result of the formatter. *)
Definition result_free (n : PrintDepartment.Formatter → nat) : Prop :=
  ∀ self lines, n (PrintDepartment.append_result self lines) = n self.

(** The records of the eight lists of a formatter. *)
Definition total_records (self : PrintDepartment.Formatter) : nat :=
  length (concat (PrintDepartment.all_install_info_lists self)).

(** What the warn filter leaves in the eight lists, and what it moves
    to the warned list, when no record matches two globs. *)
Definition unwarned_lists (E : Env) (self : PrintDepartment.Formatter)
    : list (list InstallInfo) :=
  map (List.filter (λ p, negb (is_warned E (warn_globs E) p)))
    (PrintDepartment.all_install_info_lists self).

Definition warned_records (E : Env) (self : PrintDepartment.Formatter)
    : list InstallInfo :=
  concat (map (List.filter (is_warned E (warn_globs E)))
            (PrintDepartment.all_install_info_lists self)).

(** The sections of the report: one for the warned records, if any, and
    one for each list that is not empty. *)
Definition sections (E : Env) (self : PrintDepartment.Formatter) : nat :=
  (Nat.b2n (Py.truthy_list (warned_records E self))
   + length (List.filter Py.truthy_list (unwarned_lists E self)))%nat.

(** A fetcher with nothing to install. *)
Definition empty_fetcher (download_size installed_size : string)
    : PrintDepartment.InstallInfoFetcher :=
  {| PrintDepartment.repo_packages_install_info := [];
     PrintDepartment.thirdparty_repo_packages_install_info := [];
     PrintDepartment.aur_updates_install_info := [];
     PrintDepartment.repo_replacements_install_info := [];
     PrintDepartment.thirdparty_repo_replacements_install_info := [];
     PrintDepartment.new_repo_deps_install_info := [];
     PrintDepartment.new_thirdparty_repo_deps_install_info := [];
     PrintDepartment.aur_deps_install_info := [];
     PrintDepartment.total_download_size := download_size;
     PrintDepartment.total_installed_size := installed_size |}.

(** ** A concrete environment

    A terminal without colours, the untranslated messages, globs with
    [*] and [?], templates with [{}] and [{name}] fields, and versions
    compared as text. *)

Module Demo.

Fixpoint glob_match (pattern s : string) : bool :=
  match pattern with
  | EmptyString => negb (Py.truthy_str s)
  | String p pattern' =>
      if Ascii.eqb p "*" then
        (fix any (s : string) : bool :=
           glob_match pattern' s ||
           match s with
           | EmptyString => false
           | String _ s' => any s'
           end) s
      else
        match s with
        | EmptyString => false
        | String c s' =>
            (Ascii.eqb p "?" || Ascii.eqb p c) && glob_match pattern' s'
        end
  end.

Fixpoint lookup_kw (key : string) (kw : list (string * string)) : string :=
  match kw with
  | [] => ""
  | (k, v) :: kw' => if String.eqb k key then v else lookup_kw key kw'
  end.

Fixpoint format_go (template : string) (field : option string)
    (pos : list string) (kw : list (string * string)) : string :=
  match template with
  | EmptyString => ""
  | String c t =>
      match field with
      | None =>
          if Ascii.eqb c "{" then format_go t (Some "") pos kw
          else String c (format_go t None pos kw)
      | Some f =>
          if Ascii.eqb c "}" then
            if Py.truthy_str f then lookup_kw f kw +:+ format_go t None pos kw
            else match pos with
                 | p :: pos' => p +:+ format_go t None pos' kw
                 | [] => format_go t None [] kw
                 end
          else format_go t (Some (f +:+ String c "")) pos kw
      end
  end.

Definition simple_format (template : string) (pos : list string)
    (kw : list (string * string)) : string :=
  format_go template None pos kw.

Definition text_compare_versions (a b : string) : Z :=
  match String.compare a b with
  | Lt => -1
  | Eq => 0
  | Gt => 1
  end.

Fixpoint common_prefix (a b : string) : string :=
  match a, b with
  | String x a', String y b' =>
      if Ascii.eqb x y then String x (common_prefix a' b') else ""
  | _, _ => ""
  end.

Definition prefix_common_version (a b : string) : string * Z :=
  let c := common_prefix a b in
  (c, Py.len a - Py.len c + (Py.len b - Py.len c)).

Definition prefix_version_diff (full common : string) : string :=
  String.substring (String.length common)
    (String.length full - String.length common) full.

Definition default_config : PikaurConfig :=
  {| sync_DevelPkgsExpiration := -1;
     sync_UpgradeSorting := VERSIONDIFF;
     sync_AlwaysShowPkgOrigin := false;
     sync_ShowDownloadSize := false;
     colors_Version := 10;
     colors_VersionDiffOld := 11;
     colors_VersionDiffNew := 9;
     ui_WarnAboutPackageUpdates := "";
     ui_GroupByRepository := true;
     ui_AurSearchSorting := AUR_HOTTEST;
     ui_ReverseSearchSorting := false;
     ui_DisplayLastUpdated := false |}.

Definition default_args : Args :=
  {| args_ignore_outofdate := false; args_devel := false;
     args_repo := false; args_aur := false; args_quiet := false;
     args_ignore := [] |}.

(** An environment from a configuration, a command line, a terminal, a
    local database and what the AUR answers. *)
Definition env (cfg : PikaurConfig) (a : Args) (term : nat → Z)
    (local : list LocalPackage) (aur : list AURPackageInfo) (clock : Z)
    : Env :=
  {| compare_versions := text_compare_versions;
     get_common_version := prefix_common_version;
     get_version_diff := prefix_version_diff;
     translate := λ s, s;
     translate_many := λ singular plural n,
       if n =? 1 then singular else plural;
     color_line := λ line _ _, line;
     bold_line := λ line, line;
     format_paragraph := λ s, "    " +:+ s;
     Colors_green := 2;
     Colors_yellow := 3;
     Colors_blue := 4;
     ColorsHighlight_black := 8;
     ColorsHighlight_red := 9;
     ColorsHighlight_yellow := 11;
     ColorsHighlight_blue := 12;
     ColorsHighlight_cyan := 14;
     term_width := term;
     fnmatch := λ n pattern, glob_match pattern n;
     format := simple_format;
     format_mib := λ size, Py.str_of_Z (size `div` 1048576) +:+ ".00";
     format_popularity := λ p, p;
     format_date := Py.str_of_Z;
     now := clock;
     fromtimestamp := λ t, t;
     OFFICIAL_REPOS := ["core"; "extra"; "multilib"];
     syncdbs := ["core"; "extra"; "multilib"];
     local_dict := list_to_map (map (λ p, (lp_name p, p)) local);
     find_packages_not_from_repo := map lp_name local;
     find_upgradeable_packages := [];
     pacman_IgnorePkg := [];
     find_aur_packages := λ names,
       (List.filter (λ p, bool_decide (aur_name p ∈ names)) aur,
        List.filter (λ n, negb (bool_decide (n ∈ map aur_name aur))) names);
     aur_sort_key_leb := λ _ x y, String.leb (aur_name x) (aur_name y);
     config := cfg;
     args := a |}.

End Demo.

(** ** Concrete inputs *)

Module Inputs.

Definition config_by_repo : PikaurConfig :=
  {| sync_DevelPkgsExpiration := -1;
     sync_UpgradeSorting := REPO;
     sync_AlwaysShowPkgOrigin := true;
     sync_ShowDownloadSize := false;
     colors_Version := 10;
     colors_VersionDiffOld := 11;
     colors_VersionDiffNew := 9;
     ui_WarnAboutPackageUpdates := "";
     ui_GroupByRepository := true;
     ui_AurSearchSorting := AUR_HOTTEST;
     ui_ReverseSearchSorting := false;
     ui_DisplayLastUpdated := false |}.

(** An 80 column terminal, upgrades grouped by repository. *)
Definition env_by_repo : Env :=
  Demo.env config_by_repo Demo.default_args (λ _, 80) [] [] 0.

(** A terminal that is 100 columns wide at the first query and 50 wide
    from then on. *)
Definition env_resized : Env :=
  Demo.env Demo.default_config Demo.default_args
    (λ k, match k with O => 100 | S _ => 50 end) [] [] 0.

Definition aur_b : AURPackageInfo :=
  {| aur_name := "b"; aur_version := "2"; aur_desc := "";
     aur_maintainer := Some "someone"; aur_outofdate := None;
     aur_numvotes := None; aur_popularity := None;
     aur_lastmodified := None; aur_groups := [] |}.

Definition alpm_a : AlpmPackage :=
  {| alpm_name := "a"; alpm_version := "2"; alpm_desc := "";
     alpm_db_name := "zzzz"; alpm_size := 0; alpm_builddate := None;
     alpm_groups := [] |}.

(** [b 1 -> 2] from the AUR and [a 1 -> 2] from the repository [zzzz]. *)
Definition update_aur_b : InstallInfo := Updates.AURInstallInfo "1" aur_b.

Definition update_zzzz_a : InstallInfo :=
  Updates.RepoInstallInfo
    {| lp_name := "a"; lp_version := "1"; lp_installdate := 0 |} alpm_a.

Definition with_origin : PrintDepartment.Options :=
  {| PrintDepartment.verbose := false;
     PrintDepartment.print_repo := true;
     PrintDepartment.color := true;
     PrintDepartment.template := None |}.

End Inputs.

Module SearchInputs.

Definition config_reversed : PikaurConfig :=
  {| sync_DevelPkgsExpiration := -1;
     sync_UpgradeSorting := VERSIONDIFF;
     sync_AlwaysShowPkgOrigin := false;
     sync_ShowDownloadSize := false;
     colors_Version := 10;
     colors_VersionDiffOld := 11;
     colors_VersionDiffNew := 9;
     ui_WarnAboutPackageUpdates := "";
     ui_GroupByRepository := true;
     ui_AurSearchSorting := AUR_HOTTEST;
     ui_ReverseSearchSorting := true;
     ui_DisplayLastUpdated := false |}.

Definition args_quiet_only : Args :=
  {| args_ignore_outofdate := false; args_devel := false;
     args_repo := false; args_aur := false; args_quiet := true;
     args_ignore := [] |}.

(** Reversed search order, names only. *)
Definition env_reversed : Env :=
  Demo.env config_reversed args_quiet_only (λ _, 80) [] [] 0.

Definition core_aa : AlpmPackage :=
  {| alpm_name := "aa"; alpm_version := "1"; alpm_desc := "";
     alpm_db_name := "core"; alpm_size := 0; alpm_builddate := None;
     alpm_groups := [] |}.

Definition core_bb : AlpmPackage :=
  {| alpm_name := "bb"; alpm_version := "1"; alpm_desc := "";
     alpm_db_name := "core"; alpm_size := 0; alpm_builddate := None;
     alpm_groups := [] |}.

End SearchInputs.

Module ReportInputs.

Definition core_x (n : string) : InstallInfo :=
  Updates.RepoInstallInfo
    {| lp_name := n; lp_version := "1"; lp_installdate := 0 |}
    {| alpm_name := n; alpm_version := "2"; alpm_desc := "";
       alpm_db_name := "core"; alpm_size := 0; alpm_builddate := None;
       alpm_groups := [] |}.

Definition custom_x (n : string) : InstallInfo :=
  Updates.RepoInstallInfo
    {| lp_name := n; lp_version := "1"; lp_installdate := 0 |}
    {| alpm_name := n; alpm_version := "2"; alpm_desc := "";
       alpm_db_name := "custom"; alpm_size := 0; alpm_builddate := None;
       alpm_groups := [] |}.

Definition env_default : Env :=
  Demo.env Demo.default_config Demo.default_args (λ _, 80) [] [] 0.

(** One update from [core], two replacements from a third-party
    repository. *)
Definition fetcher_one_update_two_replacements
    : PrintDepartment.InstallInfoFetcher :=
  {| PrintDepartment.repo_packages_install_info := [core_x "foo"];
     PrintDepartment.thirdparty_repo_packages_install_info := [];
     PrintDepartment.aur_updates_install_info := [];
     PrintDepartment.repo_replacements_install_info := [];
     PrintDepartment.thirdparty_repo_replacements_install_info :=
       [custom_x "bar"; custom_x "baz"];
     PrintDepartment.new_repo_deps_install_info := [];
     PrintDepartment.new_thirdparty_repo_deps_install_info := [];
     PrintDepartment.aur_deps_install_info := [];
     PrintDepartment.total_download_size := "0.0";
     PrintDepartment.total_installed_size := "0.0" |}.

Definition formatter_one_update_two_replacements
    : PrintDepartment.Formatter :=
  PrintDepartment.init fetcher_one_update_two_replacements false false.

End ReportInputs.

Module ClassifierInputs.

Definition day : Z := 86400.

Definition foo_git_local : LocalPackage :=
  {| lp_name := "foo-git"; lp_version := "1.0"; lp_installdate := 0 |}.

Definition foo_git_aur : AURPackageInfo :=
  {| aur_name := "foo-git"; aur_version := "1.0"; aur_desc := "";
     aur_maintainer := Some "someone"; aur_outofdate := None;
     aur_numvotes := None; aur_popularity := None;
     aur_lastmodified := None; aur_groups := [] |}.

Definition config_ttl (ttl : Z) : PikaurConfig :=
  {| sync_DevelPkgsExpiration := ttl;
     sync_UpgradeSorting := VERSIONDIFF;
     sync_AlwaysShowPkgOrigin := false;
     sync_ShowDownloadSize := false;
     colors_Version := 10;
     colors_VersionDiffOld := 11;
     colors_VersionDiffNew := 9;
     ui_WarnAboutPackageUpdates := "";
     ui_GroupByRepository := true;
     ui_AurSearchSorting := AUR_HOTTEST;
     ui_ReverseSearchSorting := false;
     ui_DisplayLastUpdated := false |}.

(** [foo-git 1.0] installed ten days ago, [foo-git 1.0] in the AUR. *)
Definition env_ttl (ttl : Z) : Env :=
  Demo.env (config_ttl ttl) Demo.default_args (λ _, 80)
    [foo_git_local] [foo_git_aur] (10 * day + 100).

Definition args_devel_forced : Args :=
  {| args_ignore_outofdate := false; args_devel := true;
     args_repo := false; args_aur := false; args_quiet := false;
     args_ignore := [] |}.

(** The same system with the default configuration and the development
    check forced. *)
Definition env_devel_forced : Env :=
  Demo.env Demo.default_config args_devel_forced (λ _, 80)
    [foo_git_local] [foo_git_aur] (10 * day + 100).

Definition bar_local : LocalPackage :=
  {| lp_name := "bar"; lp_version := "1.0"; lp_installdate := 0 |}.

Definition baz_local : LocalPackage :=
  {| lp_name := "baz"; lp_version := "1.0"; lp_installdate := 0 |}.

(** [bar 1.1] flagged out of date, [baz 1.1] not flagged. *)
Definition bar_aur : AURPackageInfo :=
  {| aur_name := "bar"; aur_version := "1.1"; aur_desc := "";
     aur_maintainer := Some "someone"; aur_outofdate := Some 1700000000;
     aur_numvotes := None; aur_popularity := None;
     aur_lastmodified := None; aur_groups := [] |}.

Definition baz_aur : AURPackageInfo :=
  {| aur_name := "baz"; aur_version := "1.1"; aur_desc := "";
     aur_maintainer := Some "someone"; aur_outofdate := None;
     aur_numvotes := None; aur_popularity := None;
     aur_lastmodified := None; aur_groups := [] |}.

Definition args_ignore_flagged : Args :=
  {| args_ignore_outofdate := true; args_devel := false;
     args_repo := false; args_aur := false; args_quiet := false;
     args_ignore := [] |}.

Definition env_ignore_flagged : Env :=
  Demo.env Demo.default_config args_ignore_flagged (λ _, 80)
    [bar_local; baz_local] [bar_aur; baz_aur] 0.

End ClassifierInputs.

Module WarnInputs.

Definition config_warn : PikaurConfig :=
  {| sync_DevelPkgsExpiration := -1;
     sync_UpgradeSorting := VERSIONDIFF;
     sync_AlwaysShowPkgOrigin := false;
     sync_ShowDownloadSize := false;
     colors_Version := 10;
     colors_VersionDiffOld := 11;
     colors_VersionDiffNew := 9;
     ui_WarnAboutPackageUpdates := "foo,f*";
     ui_GroupByRepository := true;
     ui_AurSearchSorting := AUR_HOTTEST;
     ui_ReverseSearchSorting := false;
     ui_DisplayLastUpdated := false |}.

(** [WarnAboutPackageUpdates = foo,f*]. *)
Definition env_warn : Env :=
  Demo.env config_warn Demo.default_args (λ _, 80) [] [] 0.

(** Updates of [foo] and [bar] from [core]. *)
Definition fetcher_foo_bar : PrintDepartment.InstallInfoFetcher :=
  {| PrintDepartment.repo_packages_install_info :=
       [ReportInputs.core_x "foo"; ReportInputs.core_x "bar"];
     PrintDepartment.thirdparty_repo_packages_install_info := [];
     PrintDepartment.aur_updates_install_info := [];
     PrintDepartment.repo_replacements_install_info := [];
     PrintDepartment.thirdparty_repo_replacements_install_info := [];
     PrintDepartment.new_repo_deps_install_info := [];
     PrintDepartment.new_thirdparty_repo_deps_install_info := [];
     PrintDepartment.aur_deps_install_info := [];
     PrintDepartment.total_download_size := "0.0";
     PrintDepartment.total_installed_size := "0.0" |}.

End WarnInputs.

Module MoreInputs.

Definition devel_aur (n : string) : AURPackageInfo :=
  {| aur_name := n; aur_version := "1.0"; aur_desc := "";
     aur_maintainer := Some "someone"; aur_outofdate := None;
     aur_numvotes := None; aur_popularity := None;
     aur_lastmodified := None; aur_groups := [] |}.

Definition installed (n : string) : LocalPackage :=
  {| lp_name := n; lp_version := "1.0"; lp_installdate := 0 |}.

(** [zeta-git] and [alpha-git], installed ten days ago and up to date. *)
Definition env_two_devel : Env :=
  Demo.env (ClassifierInputs.config_ttl 5) Demo.default_args (λ _, 80)
    [installed "zeta-git"; installed "alpha-git"]
    [devel_aur "zeta-git"; devel_aur "alpha-git"]
    (10 * ClassifierInputs.day).

(** [foo 1 -> 2] from [core], which replaces [foo-old] and is needed
    by [bar]. *)
Definition foo_replacing : InstallInfo :=
  {| name := "foo"; current_version := "1"; new_version := "2";
     description := None; repository := Some "core"; maintainer := None;
     devel_pkg_age_days := None; package := None;
     required_by := ["bar"]; provided_by := []; members_of := ["base"];
     replaces := ["foo-old"] |}.

(** [foo 1 -> 2] from [core], which replaces [x], and [bar 1 -> 2]
    from [core], which replaces nothing. *)
Definition foo_replaces_x : InstallInfo :=
  {| name := "foo"; current_version := "1"; new_version := "2";
     description := None; repository := Some "core"; maintainer := None;
     devel_pkg_age_days := None; package := None;
     required_by := []; provided_by := []; members_of := [];
     replaces := ["x"] |}.

Definition bar_plain : InstallInfo :=
  {| name := "bar"; current_version := "1"; new_version := "2";
     description := None; repository := Some "core"; maintainer := None;
     devel_pkg_age_days := None; package := None;
     required_by := []; provided_by := []; members_of := [];
     replaces := [] |}.

Definition without_color : PrintDepartment.Options :=
  {| PrintDepartment.verbose := false;
     PrintDepartment.print_repo := true;
     PrintDepartment.color := false;
     PrintDepartment.template := None |}.

Definition config_warn_f : PikaurConfig :=
  {| sync_DevelPkgsExpiration := -1;
     sync_UpgradeSorting := VERSIONDIFF;
     sync_AlwaysShowPkgOrigin := false;
     sync_ShowDownloadSize := false;
     colors_Version := 10;
     colors_VersionDiffOld := 11;
     colors_VersionDiffNew := 9;
     ui_WarnAboutPackageUpdates := "f*";
     ui_GroupByRepository := true;
     ui_AurSearchSorting := AUR_HOTTEST;
     ui_ReverseSearchSorting := false;
     ui_DisplayLastUpdated := false |}.

(** [WarnAboutPackageUpdates = f*]. *)
Definition env_warn_f : Env :=
  Demo.env config_warn_f Demo.default_args (λ _, 80) [] [] 0.

(** The updates of [foo] and [bar] from [core]. *)
Definition formatter_foo_bar : PrintDepartment.Formatter :=
  PrintDepartment.init WarnInputs.fetcher_foo_bar false false.

End MoreInputs.

(** * Properties *)

Import PrintDepartment PrintDepartment.RepoColorGenerator.

(** ** Facts about the built-ins *)

Lemma endswith_unfold (s suffix : string) :
  Py.endswith s suffix =
  String.eqb s suffix ||
  match s with
  | EmptyString => false
  | String _ s' => Py.endswith s' suffix
  end.
Proof. by destruct s. Qed.

Lemma endswith_spec (s suffix : string) :
  Py.endswith s suffix = true ↔ ∃ pre, s = pre +:+ suffix.
Proof.
  induction s as [|c s IH]; rewrite endswith_unfold.
  - rewrite orb_false_r, String.eqb_eq. split.
    + intros <-. by exists "".
    + intros [[|? ?] H]; simpl in H; [done|discriminate].
  - rewrite orb_true_iff, String.eqb_eq, IH. split.
    + intros [<-|[pre ->]]; [by exists ""|by exists (String c pre)].
    + intros [[|c' pre] H]; simpl in H; [by left|].
      injection H as -> ->. right. by exists pre.
Qed.

(** ** Sorting *)

Section SortedFacts.
Context {A : Type} (leb : A → A → bool).

Lemma insert_sorted_perm (x : A) (l : list A) :
  Py.insert_sorted leb x l ≡ₚ x :: l.
Proof.
  induction l as [|y l IH]; simpl; [done|].
  destruct (leb x y); [done|]. rewrite IH. apply Permutation_swap.
Qed.

Lemma sorted_perm (l : list A) : Py.sorted leb l ≡ₚ l.
Proof.
  induction l as [|x l IH]; simpl; [done|].
  by rewrite insert_sorted_perm, IH.
Qed.

Lemma elem_of_sorted (x : A) (l : list A) : x ∈ Py.sorted leb l ↔ x ∈ l.
Proof. by rewrite sorted_perm. Qed.

Hypothesis leb_total : ∀ x y, leb x y = true ∨ leb y x = true.
Hypothesis leb_trans :
  ∀ x y z, leb x y = true → leb y z = true → leb x z = true.

Lemma insert_sorted_StronglySorted (x : A) (l : list A) :
  StronglySorted (λ a b, leb a b = true) l →
  StronglySorted (λ a b, leb a b = true) (Py.insert_sorted leb x l).
Proof.
  induction 1 as [|y l Hs IH Hall]; simpl.
  - repeat constructor.
  - destruct (leb x y) eqn:Exy.
    + constructor; [by constructor|]. constructor; [done|].
      eapply Forall_impl; [exact Hall|]. intros z Hz. by eapply leb_trans.
    + constructor; [done|]. rewrite insert_sorted_perm.
      constructor; [|done]. destruct (leb_total x y); congruence.
Qed.

Lemma sorted_StronglySorted (l : list A) :
  StronglySorted (λ a b, leb a b = true) (Py.sorted leb l).
Proof.
  induction l as [|x l IH]; simpl; [constructor|].
  by apply insert_sorted_StronglySorted.
Qed.

End SortedFacts.

Lemma StronglySorted_weaken {A} (R R' : A → A → Prop) (l : list A) :
  (∀ x y, R x y → R' x y) → StronglySorted R l → StronglySorted R' l.
Proof.
  intros HR. induction 1 as [|x l Hs IH Hall]; constructor; [done|].
  eapply Forall_impl; [exact Hall|]. intros y. apply HR.
Qed.

Lemma insert_sorted_map {A B} (f : A → B) (leb : B → B → bool) (x : A)
    (l : list A) :
  Py.insert_sorted leb (f x) (map f l)
  = map f (Py.insert_sorted (λ a b, leb (f a) (f b)) x l).
Proof.
  induction l as [|y l IH]; simpl; [done|].
  destruct (leb (f x) (f y)); simpl; [done|]. by rewrite IH.
Qed.

Lemma sorted_map {A B} (f : A → B) (leb : B → B → bool) (l : list A) :
  Py.sorted leb (map f l) = map f (Py.sorted (λ a b, leb (f a) (f b)) l).
Proof.
  induction l as [|x l IH]; simpl; [done|].
  by rewrite IH, insert_sorted_map.
Qed.

(** ** The order of the sort keys *)

Lemma str_leb_le (a b : string) : String.leb a b = true ↔ String.le a b.
Proof. unfold String.le. by rewrite Is_true_true. Qed.

Lemma str_ltb_iff (a b : string) :
  String.ltb a b = true ↔ String.le a b ∧ a ≠ b.
Proof.
  rewrite <- str_leb_le. unfold String.ltb, String.leb.
  destruct (String.compare a b) eqn:Ec.
  - apply String.compare_eq_iff in Ec. split; [done|]. by intros [_ ?].
  - split; [|done]. intros _. split; [done|]. intros ->.
    pose proof (String.compare_antisym b b) as H. rewrite Ec in H. done.
  - split; [done|]. by intros [? _].
Qed.

Lemma key_leb_spec (k1 k2 : sort_key) :
  key_leb k1 k2 = true ↔ key_le_spec k1 k2.
Proof.
  destruct k1, k2; simpl; try done.
  - rewrite orb_true_iff, andb_true_iff, Z.ltb_lt, Z.eqb_eq, str_leb_le.
    done.
  - apply str_leb_le.
  - rewrite orb_true_iff, andb_true_iff, str_ltb_iff, String.eqb_eq,
      str_leb_le. done.
Qed.

Lemma key_leb_total (k1 k2 : sort_key) :
  key_leb k1 k2 = true ∨ key_leb k2 k1 = true.
Proof.
  rewrite !key_leb_spec. destruct k1, k2; simpl; auto.
  - destruct (Z.lt_trichotomy neg_diff_weight neg_diff_weight0)
      as [?|[->|?]]; [auto| |auto].
    destruct (total String.le pkg pkg0); auto.
  - apply (total String.le).
  - destruct (decide (repo = repo0)) as [->|Hne].
    + destruct (total String.le pkg pkg0); auto.
    + destruct (total String.le repo repo0); auto.
Qed.

Lemma key_leb_trans (k1 k2 k3 : sort_key) :
  key_leb k1 k2 = true → key_leb k2 k3 = true → key_leb k1 k3 = true.
Proof.
  rewrite !key_leb_spec. destruct k1, k2, k3; simpl; try done.
  - intros [?|[-> ?]] [?|[-> ?]]; [left; lia|by left|by left|].
    right. split; [done|]. by etrans.
  - intros ??. by etrans.
  - intros [[H1 Hn1]|[-> H1]] [[H2 Hn2]|[-> H2]].
    + left. split; [by etrans|]. intros ->. apply Hn1.
      by apply (anti_symm String.le).
    + by left.
    + by left.
    + right. split; [done|]. by etrans.
Qed.

(** ** Development packages *)

Lemma is_devel_pkg_loop_spec (postfixes : list string) (pkg_name : string) :
  Updates.is_devel_pkg_loop postfixes pkg_name false = true ↔
  ∃ suffix, suffix ∈ postfixes ∧ Py.endswith pkg_name suffix = true.
Proof.
  induction postfixes as [|p rest IH]; simpl.
  - split; [done|]. intros (? & H & _). by apply elem_of_nil in H.
  - destruct (Py.endswith pkg_name p) eqn:E.
    + split; [|done]. intros _. exists p. split; [left|done].
    + rewrite IH. split.
      * intros (suf & ? & ?). exists suf. split; [by right|done].
      * intros (suf & [->|?]%elem_of_cons & Hs); [congruence|by exists suf].
Qed.

(** C8: a package name is a development package exactly when it ends
    with one of the suffixes -git, -svn, -bzr, -hg, -cvs, -nightly. *)
Theorem is_devel_pkg_iff_suffix (pkg_name : string) :
  Updates.is_devel_pkg pkg_name = true ↔
  ∃ suffix pre,
    suffix ∈ ["-git"; "-svn"; "-bzr"; "-hg"; "-cvs"; "-nightly"] ∧
    pkg_name = pre +:+ suffix.
Proof.
  unfold Updates.is_devel_pkg. rewrite is_devel_pkg_loop_spec. split.
  - intros (suf & Hin & [pre ->]%endswith_spec). by exists suf, pre.
  - intros (suf & pre & Hin & ->). exists suf. split; [done|].
    apply endswith_spec. by exists pre.
Qed.

(** ** The colour generator *)

Lemma first_seen_from_app (t : string) (h h' : list (string * string))
    (seen : list string) :
  first_seen_from t (h ++ h') seen
  = first_seen_from t h' (first_seen_from t h seen).
Proof.
  revert seen. induction h as [|[t' i] h IH]; intros seen; simpl; [done|].
  apply IH.
Qed.

Lemma first_seen_from_extends (t : string) (h : list (string * string))
    (seen : list string) :
  ∃ ext, first_seen_from t h seen = seen ++ ext.
Proof.
  revert seen. induction h as [|[t' i] h IH]; intros seen; simpl.
  - exists []. by rewrite app_nil_r.
  - destruct (IH (if bool_decide (t' = t) && negb (bool_decide (i ∈ seen))
                  then seen ++ [i] else seen)) as [ext ->].
    destruct (_ && _); [|by eauto].
    exists ([i] ++ ext). by rewrite app_assoc.
Qed.

Lemma first_seen_snoc (t t' i : string) (h : list (string * string)) :
  first_seen t (h ++ [(t', i)])
  = if bool_decide (t' = t) && negb (bool_decide (i ∈ first_seen t h))
    then first_seen t h ++ [i] else first_seen t h.
Proof. unfold first_seen. by rewrite first_seen_from_app. Qed.

Lemma list_index_None (x : string) (l : list string) :
  Py.list_index x l = None ↔ x ∉ l.
Proof.
  induction l as [|y l IH]; simpl.
  - split; [intros _; apply not_elem_of_nil|done].
  - rewrite not_elem_of_cons. destruct (decide (y = x)) as [->|Hne].
    + split; [done|]. intros [? _]. done.
    + destruct (Py.list_index x l) eqn:El; simpl.
      * split; [done|]. intros [_ Hn]. by apply IH in Hn.
      * split; [|done]. intros _. split; [done|]. by apply IH.
Qed.

Lemma list_index_app_l (x : string) (l l' : list string) (k : nat) :
  Py.list_index x l = Some k → Py.list_index x (l ++ l') = Some k.
Proof.
  revert k. induction l as [|y l IH]; intros k; simpl; [done|].
  destruct (decide (y = x)); [done|].
  destruct (Py.list_index x l) eqn:El; simpl; [|done].
  intros [= <-]. by rewrite (IH n0).
Qed.

Lemma list_index_snoc_new (x : string) (l : list string) :
  x ∉ l → Py.list_index x (l ++ [x]) = Some (length l).
Proof.
  induction l as [|y l IH]; simpl.
  - intros _. by rewrite decide_True.
  - intros [Hne Hn]%not_elem_of_cons. rewrite decide_False by done.
    by rewrite IH.
Qed.

Lemma list_index_snoc_ne (x y : string) (l : list string) :
  x ≠ y → Py.list_index x (l ++ [y]) = Py.list_index x l.
Proof.
  intros Hne. induction l as [|z l IH]; simpl.
  - by rewrite decide_False.
  - destruct (decide (z = x)); [done|]. by rewrite IH.
Qed.

Lemma palette_color_bounds (k : nat) : 10 ≤ palette_color k ≤ 15.
Proof.
  unfold palette_color.
  pose proof (Z.mod_pos_bound (Z.of_nat k) 6 ltac:(lia)). lia.
Qed.

Lemma palette_color_truthy (k : nat) : Py.truthy_int (palette_color k) = true.
Proof.
  unfold Py.truthy_int. pose proof (palette_color_bounds k).
  destruct (Z.eqb_spec (palette_color k) 0); [lia|done].
Qed.

Lemma palette_color_next (n : nat) :
  (if (15 <=? palette_color n) then 10 else palette_color n + 1)
  = palette_color (S n).
Proof.
  unfold palette_color. rewrite Nat2Z.inj_succ.
  destruct (Z.leb_spec 15 (10 + Z.of_nat n `mod` 6));
    Z.div_mod_to_equations; lia.
Qed.

Lemma get_next_body_step (h : list (string * string)) (g : ColorGen)
    (t i : string) :
  color_inv h g →
  fst (get_next_body t i g) = color_of (h ++ [(t, i)]) (t, i) ∧
  color_inv (h ++ [(t, i)]) (snd (get_next_body t i g)).
Proof.
  intros [Hdone Hst Hca]. unfold get_next_body, color_of. simpl.
  rewrite Hca, first_seen_snoc, bool_decide_eq_true_2 by done. simpl.
  destruct (Py.list_index i (first_seen t h)) as [k|] eqn:Ei; simpl.
  - assert (Hin : i ∈ first_seen t h).
    { destruct (decide (i ∈ first_seen t h)) as [|Hn]; [done|].
      apply list_index_None in Hn. congruence. }
    rewrite palette_color_truthy, (bool_decide_eq_true_2 _ Hin). simpl.
    rewrite Ei. split; [done|]. split; [done|..].
    + intros t'. rewrite first_seen_snoc, (Hst t').
      destruct (bool_decide (t = t')) eqn:Et; simpl; [|done].
      apply bool_decide_eq_true_1 in Et as <-.
      by rewrite (bool_decide_eq_true_2 _ Hin).
    + intros t' i'. rewrite first_seen_snoc, (Hca t' i').
      destruct (bool_decide (t = t')) eqn:Et; simpl; [|done].
      apply bool_decide_eq_true_1 in Et as <-.
      by rewrite (bool_decide_eq_true_2 _ Hin).
  - assert (Hn : i ∉ first_seen t h) by by apply list_index_None.
    rewrite (bool_decide_eq_false_2 _ Hn). simpl.
    rewrite (list_index_snoc_new _ _ Hn).
    assert (Hc : (if negb (Py.truthy_opt_int (_type_storage g !! t))
                     || (_MAX_COLOR <=? default 0 (_type_storage g !! t))
                  then 10 else default 0 (_type_storage g !! t) + 1)
                 = palette_color (length (first_seen t h))).
    { rewrite (Hst t). destruct (first_seen t h) as [|x l]; simpl; [done|].
      rewrite palette_color_truthy. simpl. apply palette_color_next. }
    unfold assign_next. rewrite Hc. simpl. split; [done|].
    split; simpl; [done|..].
    + intros t'. rewrite first_seen_snoc.
      destruct (decide (t = t')) as [<-|Hne].
      * rewrite lookup_insert_eq, bool_decide_eq_true_2 by done.
        rewrite (bool_decide_eq_false_2 _ Hn). simpl.
        destruct (first_seen t h) as [|x l]; simpl; [done|].
        by rewrite length_app, Nat.add_1_r.
      * rewrite lookup_insert_ne, (bool_decide_eq_false_2 _ Hne) by done.
        apply Hst.
    + intros t' i'. rewrite first_seen_snoc.
      destruct (decide (t = t')) as [<-|Hne].
      * rewrite lookup_insert_eq, bool_decide_eq_true_2 by done.
        rewrite (bool_decide_eq_false_2 _ Hn). simpl.
        destruct (decide (i = i')) as [<-|Hi].
        -- by rewrite lookup_insert_eq, (list_index_snoc_new _ _ Hn).
        -- rewrite lookup_insert_ne, Hca by done.
           by rewrite list_index_snoc_ne.
      * rewrite lookup_insert_ne, (bool_decide_eq_false_2 _ Hne) by done.
        apply Hca.
Qed.

Lemma color_of_stable (h h' : list (string * string)) (t i : string) :
  color_of ((h ++ [(t, i)]) ++ h') (t, i) = color_of (h ++ [(t, i)]) (t, i).
Proof.
  unfold color_of, first_seen. simpl. rewrite first_seen_from_app.
  destruct (first_seen_from_extends t h'
              (first_seen_from t (h ++ [(t, i)]) [])) as [ext ->].
  fold (first_seen t (h ++ [(t, i)])).
  destruct (Py.list_index i (first_seen t (h ++ [(t, i)]))) as [k|] eqn:Ei.
  - by rewrite (list_index_app_l _ _ _ _ Ei).
  - apply list_index_None in Ei. exfalso. apply Ei.
    rewrite first_seen_snoc, bool_decide_eq_true_2 by done. simpl.
    destruct (bool_decide (i ∈ first_seen t h)) eqn:Eb; simpl.
    + by apply bool_decide_eq_true_1 in Eb.
    + apply elem_of_app. right. by left.
Qed.

Lemma init_fold_inv (h : list (string * string)) (g : ColorGen)
    (repos : list string) :
  color_inv h g →
  color_inv (h ++ map (λ r, ("repo", r)) repos)
    (foldl (λ acc r, snd (get_next_body "repo" r acc)) g repos).
Proof.
  revert h g. induction repos as [|r repos IH]; intros h g Hinv; simpl.
  - by rewrite app_nil_r.
  - rewrite cons_middle, (assoc_L (++)). apply IH.
    by apply get_next_body_step.
Qed.

Lemma do_init_initial (E : Env) :
  color_inv (init_requests E) (do_init E initial_color_gen).
Proof.
  unfold do_init, init_requests. simpl. rewrite map_app.
  apply init_fold_inv.
  apply (init_fold_inv [] _ (OFFICIAL_REPOS E)).
  split; simpl; [done|..].
  - intros t. by rewrite lookup_empty.
  - intros t i. by rewrite lookup_empty.
Qed.

Lemma do_init_done (E : Env) (g : ColorGen) :
  _init_done g = true → do_init E g = g.
Proof. intros H. unfold do_init. by rewrite H. Qed.

Lemma run_requests_inv (E : Env) (requests : list (string * string))
    (h : list (string * string)) (g : ColorGen) :
  color_inv h g →
  fst (run_requests E requests g) = map (color_of (h ++ requests)) requests.
Proof.
  revert h g. induction requests as [|[t i] rest IH]; intros h g Hinv;
    simpl; [done|].
  unfold get_next. rewrite (do_init_done E g) by apply Hinv.
  destruct (get_next_body_step h g t i Hinv) as [Hc Hinv'].
  destruct (get_next_body t i g) as [c g'] eqn:Eg. simpl in Hc, Hinv'.
  specialize (IH _ _ Hinv').
  destruct (run_requests E rest g') as [cs g'']. simpl in *.
  rewrite Hc, IH. rewrite <- (color_of_stable h rest t i).
  by rewrite <- !(assoc_L (++)).
Qed.

Lemma run_requests_initial (E : Env) (requests : list (string * string)) :
  fst (run_requests E requests initial_color_gen)
  = map (color_of (init_requests E ++ requests)) requests.
Proof.
  destruct requests as [|[t i] rest]; [done|].
  rewrite <- (run_requests_inv E _ _ (do_init E initial_color_gen))
    by apply do_init_initial.
  simpl. unfold get_next.
  by rewrite (do_init_done E (do_init E initial_color_gen))
    by apply do_init_initial.
Qed.

Lemma first_seen_from_NoDup (t : string) (h : list (string * string))
    (seen : list string) :
  NoDup seen → NoDup (first_seen_from t h seen).
Proof.
  revert seen. induction h as [|[t' i] h IH]; intros seen Hnd; simpl; [done|].
  apply IH. destruct (bool_decide (t' = t)); simpl; [|done].
  destruct (bool_decide (i ∈ seen)) eqn:Ei; simpl; [done|].
  apply bool_decide_eq_false_1 in Ei.
  apply NoDup_app. split; [done|]. split; [|apply NoDup_singleton].
  intros x Hx ->%list_elem_of_singleton. done.
Qed.

Lemma list_index_lookup (x : string) (l : list string) (k : nat) :
  NoDup l → l !! k = Some x → Py.list_index x l = Some k.
Proof.
  revert k. induction l as [|y l IH]; intros k Hnd Hk; [done|].
  apply NoDup_cons in Hnd as [Hy Hnd]. simpl.
  destruct k as [|k]; simpl in Hk.
  - injection Hk as ->. by rewrite decide_True.
  - rewrite decide_False.
    + by rewrite (IH k).
    + intros ->. apply Hy. by eapply list_elem_of_lookup_2.
Qed.

(** C9: whatever the sequence of colour requests, a request is answered
    by the rank of its identifier among those first seen of its type,
    taken in the palette 10..15 in turn; so equal requests get equal
    colours, and the k-th identifier first seen gets the k-th colour of
    the cycle. *)
Theorem repo_color_idempotent_first_seen (E : Env)
    (requests : list (string * string)) :
  let history := init_requests E ++ requests in
  let colors := fst (run_requests E requests initial_color_gen) in
  colors = map (color_of history) requests ∧
  (∀ i j r, requests !! i = Some r → requests !! j = Some r →
            colors !! i = colors !! j ∧ is_Some (colors !! i)) ∧
  (∀ t k _id, first_seen t history !! k = Some _id →
              color_of history (t, _id) = 10 + Z.of_nat k `mod` 6) ∧
  (∀ r, r ∈ requests → 10 ≤ color_of history r ≤ 15).
Proof.
  intros history colors.
  assert (Hc : colors = map (color_of history) requests)
    by apply run_requests_initial.
  split; [done|]. split; [|split].
  - intros i j r Hi Hj. rewrite Hc, !list_lookup_fmap, Hi, Hj. simpl. eauto.
  - intros t k i Hk. unfold color_of. simpl.
    rewrite (list_index_lookup i _ k); [done| |done].
    apply first_seen_from_NoDup, NoDup_nil_2.
  - intros [t i] Hin. apply list_elem_of_split in Hin as (l1 & l2 & Hreq).
    unfold history. rewrite Hreq, cons_middle, !(assoc_L (++)).
    rewrite color_of_stable.
    unfold color_of. simpl.
    destruct (Py.list_index i _) as [k|] eqn:Ei;
      [apply palette_color_bounds|].
    apply list_index_None in Ei. exfalso. apply Ei.
    rewrite first_seen_snoc, bool_decide_eq_true_2 by done. simpl.
    destruct (bool_decide (i ∈ _)) eqn:Eb; simpl.
    + by apply bool_decide_eq_true_1 in Eb.
    + apply elem_of_app. right. by left.
Qed.

(** ** The upgrade listing *)

Lemma colors_only_ret {A} (a : A) : colors_only (ret a).
Proof. intros [g q p]. by exists a, g. Qed.

Lemma colors_only_bind {A B} (m : M A) (k : A → M B) :
  colors_only m → (∀ a, colors_only (k a)) → colors_only (bind m k).
Proof.
  intros Hm Hk w. unfold bind. destruct (Hm w) as (a & g & ->).
  destruct (Hk a {| color_gen := g; term_queries := term_queries w;
                    printed := printed w |}) as (b & g' & ->).
  by exists b, g'.
Qed.

Lemma colors_only_with_color_gen {A} (f : ColorGen → A * ColorGen) :
  colors_only (with_color_gen f).
Proof.
  intros w. unfold with_color_gen. destruct (f (color_gen w)) as [a g].
  by exists a, g.
Qed.

Lemma pretty_format_repo_name_colors_only (E : Env) (repo : string)
    (color : bool) :
  colors_only (pretty_format_repo_name E repo color).
Proof.
  unfold pretty_format_repo_name. destruct color; simpl.
  - apply colors_only_bind; [apply colors_only_with_color_gen|].
    intros c. apply colors_only_ret.
  - apply colors_only_ret.
Qed.

Lemma pkg_name_colors_only (E : Env) (o : Options) (p : InstallInfo) :
  colors_only (pkg_name E o p).
Proof.
  unfold pkg_name. apply colors_only_bind.
  - destruct (_ && _).
    + apply colors_only_bind; [apply pretty_format_repo_name_colors_only|].
      intros r. apply colors_only_ret.
    + destruct (print_repo o); apply colors_only_ret.
  - intros n1. apply colors_only_ret.
Qed.

(** One record formatted: the terminal is asked once, the key is
    [sort_by], and the three paddings are as computed from the width
    answered to that query. *)
Lemma pretty_format_fields_run (E : Env) (o : Options) (p : InstallInfo)
    (w : World) :
  let cw := column_width (term_width E (term_queries w)) in
  let L := pkg_len E o p in
  ∃ F g,
    pretty_format_fields E o p w
    = (Ok (F, sort_by E p),
       {| color_gen := g; term_queries := S (term_queries w);
          printed := printed w |}) ∧
    f_spacing F = Py.spaces (Z.max 1 (cw - L)) ∧
    f_spacing2 F =
      Py.spaces (Z.max 1 (cw - 18 - Py.len (current_version p)
                          - Z.max (-1) (L - cw))) ∧
    f_pkg_size F = pkg_size E p ∧
    f_spacing3 F =
      if Py.truthy_str (pkg_size E p)
      then Py.spaces (Z.max 1 (cw - 18 - Py.len (new_version p)
                               - Z.max (-1) (L - cw)))
      else "".
Proof.
  intros cw L. unfold pretty_format_fields, bind, get_term_width. simpl.
  destruct (pkg_name_colors_only E o p
              {| color_gen := color_gen w;
                 term_queries := S (term_queries w);
                 printed := printed w |}) as (s & g & ->). simpl.
  eexists _, g. split; [reflexivity|]. done.
Qed.

Lemma pretty_format_run (E : Env) (o : Options) (p : InstallInfo) (w : World) :
  ∃ line g,
    pretty_format E o p w
    = (Ok (line, sort_by E p),
       {| color_gen := g; term_queries := S (term_queries w);
          printed := printed w |}).
Proof.
  unfold pretty_format, bind.
  destruct (pretty_format_fields_run E o p w) as (F & g & -> & _).
  by eexists _, g.
Qed.

Lemma mapM_pretty_format_run (E : Env) (o : Options) (l : list InstallInfo)
    (w : World) :
  ∃ lines g,
    mapM (pretty_format E o) l w
    = (Ok lines,
       {| color_gen := g; term_queries := (term_queries w + length l)%nat;
          printed := printed w |}) ∧
    map snd lines = map (sort_by E) l.
Proof.
  revert w. induction l as [|p l IH]; intros w; simpl.
  - exists [], (color_gen w). rewrite Nat.add_0_r. by destruct w.
  - unfold bind. destruct (pretty_format_run E o p w) as (line & g & ->).
    destruct (IH {| color_gen := g; term_queries := S (term_queries w);
                    printed := printed w |}) as (lines & g' & -> & Hk).
    simpl. exists ((line, sort_by E p) :: lines), g'. simpl.
    rewrite Hk. split; [|done]. do 3 f_equal. lia.
Qed.

Lemma ranked_upgradeable_run (E : Env) (o : Options) (l : list InstallInfo)
    (w : World) :
  ∃ formatted g,
    mapM (pretty_format E o) l w
    = (Ok formatted,
       {| color_gen := g; term_queries := (term_queries w + length l)%nat;
          printed := printed w |}) ∧
    map snd formatted = map (sort_by E) l ∧
    ranked_upgradeable E o l w
    = (Ok (Py.sorted (λ x y, key_leb (snd x) (snd y)) formatted),
       {| color_gen := g; term_queries := (term_queries w + length l)%nat;
          printed := printed w |}).
Proof.
  unfold ranked_upgradeable, bind.
  destruct (mapM_pretty_format_run E o l w) as (lines & g & Hrun & Hk).
  exists lines, g. by rewrite Hrun.
Qed.

Lemma pretty_format_upgradeable_run (E : Env) (o : Options)
    (l : list InstallInfo) (w : World) :
  ∃ text g,
    pretty_format_upgradeable E o l w
    = (Ok text,
       {| color_gen := g; term_queries := (term_queries w + length l)%nat;
          printed := printed w |}).
Proof.
  unfold pretty_format_upgradeable, bind.
  destruct (ranked_upgradeable_run E o l w) as (formatted & g & _ & _ & ->).
  by eexists _, g.
Qed.

Lemma len_spaces (n : Z) : Py.len (Py.spaces n) = Z.max 0 n.
Proof.
  unfold Py.len, Py.spaces.
  assert (H : ∀ k, String.length (Py.spaces_nat k) = k).
  { induction k as [|k IH]; simpl; [done|]. by rewrite IH. }
  rewrite H. lia.
Qed.

(** C5 (amended): the listing is the formatted records sorted by their
    key; the key is (minus diff weight, name) by default, the name in
    the name mode, and (repository or "zzz_(aur)", name) in the
    repository mode, where every record of a repository whose name
    compares below "zzz_(aur)" is ranked strictly before every AUR
    record. *)
Theorem upgrade_ranking_keys (E : Env) (o : Options)
    (updates : list InstallInfo) (w : World) :
  ∃ formatted ranked,
    value_of (mapM (pretty_format E o) updates) w = Ok formatted ∧
    map snd formatted = map (sort_by E) updates ∧
    value_of (ranked_upgradeable E o updates) w = Ok ranked ∧
    value_of (pretty_format_upgradeable E o updates) w
    = Ok (Py.join Py.nl (map fst ranked)) ∧
    ranked = Py.sorted (λ x y, key_leb (snd x) (snd y)) formatted ∧
    ranked ≡ₚ formatted ∧
    StronglySorted key_le_spec (map snd ranked) ∧
    (∀ p, sort_by E p =
          match sync_UpgradeSorting (config E) with
          | VERSIONDIFF =>
              KeyDiff (- snd (get_common_version E (current_version p)
                                (new_version p))) (name p)
          | PKGNAME => KeyName (name p)
          | REPO =>
              KeyRepo match repository p with
                      | Some (String c r) => String c r
                      | _ => "zzz_(aur)"
                      end (name p)
          end) ∧
    (∀ a r rn,
       sync_UpgradeSorting (config E) = REPO →
       repository a = None → repository r = Some rn → rn ≠ "" →
       String.ltb rn "zzz_(aur)" = true →
       key_le_spec (sort_by E r) (sort_by E a) ∧
       ¬ key_le_spec (sort_by E a) (sort_by E r)).
Proof.
  destruct (ranked_upgradeable_run E o updates w)
    as (formatted & g & Hf & Hk & Hr).
  exists formatted, (Py.sorted (λ x y, key_leb (snd x) (snd y)) formatted).
  unfold value_of. split; [by rewrite Hf|]. split; [done|].
  split; [by rewrite Hr|].
  split; [unfold pretty_format_upgradeable, bind; by rewrite Hr|].
  split; [done|]. split; [apply sorted_perm|].
  split.
  { rewrite <- sorted_map.
    eapply StronglySorted_weaken;
      [|apply (sorted_StronglySorted key_leb key_leb_total key_leb_trans)].
    intros k1 k2. apply key_leb_spec. }
  split.
  { intros p. unfold sort_by.
    destruct (sync_UpgradeSorting (config E)); [done..|].
    by destruct (repository p) as [[|]|]. }
  intros a r rn Hmode Ha Hr' Hrn Hlt. unfold sort_by.
  rewrite Hmode, Ha, Hr'. simpl.
  destruct rn as [|c rn]; [done|]. simpl.
  apply str_ltb_iff in Hlt as [Hle Hne]. split; [by left|].
  intros [[Hle' _]|[Heq _]]; [|done].
  apply Hne. by apply (anti_symm String.le).
Qed.

(** C5, as stated, fails: with the upgrades grouped by repository, the
    AUR record [b] is listed before the record [a] of the repository
    named [zzzz]. *)
Lemma aur_listed_before_repo_zzzz :
  sync_UpgradeSorting (config Inputs.env_by_repo) = REPO ∧
  repository Inputs.update_zzzz_a = Some "zzzz" ∧
  repository Inputs.update_aur_b = None ∧
  value_of (ranked_upgradeable Inputs.env_by_repo Inputs.with_origin
              [Inputs.update_zzzz_a; Inputs.update_aur_b]) initial_world
  = Ok [(" aur/b                            1               -> 2",
         KeyRepo "zzz_(aur)" "b");
        (" zzzz/a                           1               -> 2",
         KeyRepo "zzzz" "a")].
Proof. repeat split; by vm_compute. Qed.

(** C6 (amended): for every record the terminal is asked once and
    [column_width] is [min(int(width / 2.5), 37)] of that answer; the
    paddings before the current version and before the arrow are
    [max(1, ...)] wide, so at least 1; the padding before the size is the
    same formula when a size is shown and is empty when none is. *)
Theorem padding_widths (E : Env) (o : Options) (p : InstallInfo)
    (w : World) :
  let term := term_width E (term_queries w) in
  let cw := Z.min (Z.quot (2 * term) 5) 37 in
  let L := pkg_len E o p in
  ∃ F,
    value_of (pretty_format_fields E o p) w = Ok (F, sort_by E p) ∧
    term_queries (world_after (pretty_format_fields E o p) w)
    = S (term_queries w) ∧
    Py.len (f_spacing F) = Z.max 1 (cw - L) ∧
    Py.len (f_spacing2 F)
    = Z.max 1 (cw - 18 - Py.len (current_version p) - Z.max (-1) (L - cw)) ∧
    Py.len (f_spacing3 F)
    = (if Py.truthy_str (f_pkg_size F)
       then Z.max 1 (cw - 18 - Py.len (new_version p) - Z.max (-1) (L - cw))
       else 0) ∧
    1 ≤ Py.len (f_spacing F) ∧ 1 ≤ Py.len (f_spacing2 F) ∧
    (if Py.truthy_str (f_pkg_size F) then 1 ≤ Py.len (f_spacing3 F)
     else f_spacing3 F = "").
Proof.
  intros term cw L.
  destruct (pretty_format_fields_run E o p w)
    as (F & g & Hrun & Hs1 & Hs2 & Hsz & Hs3).
  exists F. unfold value_of, world_after. rewrite Hrun. simpl.
  rewrite Hs1, Hs2, Hs3, Hsz, !len_spaces.
  fold term. change (column_width term) with cw. fold L.
  split; [done|]. split; [done|]. split; [lia|]. split; [lia|].
  destruct (Py.truthy_str (pkg_size E p)).
  - rewrite len_spaces. repeat split; lia.
  - repeat split; lia.
Qed.

(** ** The search listing *)

Lemma enumerate_fst {A} (start : nat) (l : list A) :
  map fst (enumerate start l) = seq start (length l).
Proof.
  revert start. induction l as [|x l IH]; intros start; simpl; [done|].
  by rewrite IH.
Qed.

Lemma elem_of_enumerate {A} (start k : nat) (x : A) (l : list A) :
  (k, x) ∈ enumerate start l ↔ (start ≤ k)%nat ∧ l !! (k - start)%nat = Some x.
Proof.
  revert start. induction l as [|y l IH]; intros start; simpl.
  - rewrite elem_of_nil. split; [done|]. by intros [_ ?].
  - rewrite elem_of_cons, IH. split.
    + intros [[= -> ->]|[Hle Hl]].
      * by rewrite Nat.sub_diag.
      * split; [lia|]. by replace (k - start)%nat with (S (k - S start)) by lia.
    + intros [Hle Hl]. destruct (decide (k = start)) as [->|Hne].
      * rewrite Nat.sub_diag in Hl. left. simpl in Hl. congruence.
      * right. split; [lia|].
        by replace (k - start)%nat with (S (k - S start)) in Hl by lia.
Qed.

Lemma elem_of_rev {A} (x : A) (l : list A) : x ∈ rev l ↔ x ∈ l.
Proof. by rewrite !list_elem_of_In, <- in_rev. Qed.

Lemma succeeds_ret {A} (a : A) : succeeds (ret a).
Proof. intros w. by exists a, w. Qed.

Lemma succeeds_bind {A B} (m : M A) (k : A → M B) :
  succeeds m → (∀ a, succeeds (k a)) → succeeds (bind m k).
Proof.
  intros Hm Hk w. unfold bind. destruct (Hm w) as (a & w' & ->).
  apply Hk.
Qed.

Lemma succeeds_print (e : event) : succeeds (print e).
Proof. intros w. by eexists _, _. Qed.

Lemma succeeds_mapM {A B} (f : A → M B) (l : list A) :
  (∀ x, succeeds (f x)) → succeeds (mapM f l).
Proof.
  intros Hf. induction l as [|x l IH]; simpl; [apply succeeds_ret|].
  apply succeeds_bind; [done|]. intros y.
  apply succeeds_bind; [done|]. intros ys. apply succeeds_ret.
Qed.

Lemma colors_only_succeeds {A} (m : M A) : colors_only m → succeeds m.
Proof. intros H w. destruct (H w) as (a & g & ->). by eexists _, _. Qed.

Lemma succeeds_pretty_format_repo_name (E : Env) (repo : string)
    (color : bool) :
  succeeds (pretty_format_repo_name E repo color).
Proof.
  apply colors_only_succeeds, pretty_format_repo_name_colors_only.
Qed.

Create HintDb effects.
#[local] Hint Resolve succeeds_ret succeeds_print
  succeeds_pretty_format_repo_name : effects.
#[local] Hint Extern 2 (succeeds (bind _ _)) =>
  apply succeeds_bind; [|intros ?] : effects.
#[local] Hint Extern 1 (succeeds (print_stdout _)) =>
  apply succeeds_print : effects.

Lemma succeeds_print_search_entry (E : Env)
    (local_pkgs_versions : gmap string string) (enumerated : bool)
    (entry : nat * AnyPackage) :
  succeeds (print_search_entry E local_pkgs_versions enumerated entry).
Proof.
  destruct entry as [k [pkg|pkg]]; unfold print_search_entry;
    destruct (args_quiet (args E)); simpl;
    try destruct (aur_outofdate pkg); auto 6 with effects.
Qed.

Lemma mapM_print_output {A} (f : A → M unit) (line : A → event)
    (l : list A) (w : World) :
  (∀ x, f x = print (line x)) →
  printed (world_after (mapM f l) w) = printed w ++ map line l.
Proof.
  intros Hf. unfold world_after. revert w.
  induction l as [|x l IH]; intros w; simpl.
  - by rewrite app_nil_r.
  - unfold bind at 1. rewrite Hf. unfold print at 1.
    specialize (IH {| color_gen := color_gen w;
                      term_queries := term_queries w;
                      printed := printed w ++ [line x] |}).
    unfold bind.
    destruct (mapM f l _) as [[ys|e] w']; simpl in *;
      rewrite IH; by rewrite <- (assoc_L (++)).
Qed.

(** In quiet mode a line is the number followed by the name. *)
Lemma quiet_search_output (E : Env) (local_pkgs_versions : gmap string string)
    (enumerated : bool) (entries : list (nat * AnyPackage)) (w : World) :
  args_quiet (args E) = true →
  printed (world_after
             (mapM (print_search_entry E local_pkgs_versions enumerated)
                entries) w)
  = printed w
    ++ map (λ e, Stdout (idx_text E enumerated (fst e)
                         +:+ package_name (snd e))) entries.
Proof.
  intros Hq. apply mapM_print_output. intros [k p].
  unfold print_search_entry. by rewrite Hq.
Qed.

(** One entry of a search: what is printed starts with the number of
    the entry, in both modes. *)
Lemma print_search_entry_lines (E : Env)
    (local_pkgs_versions : gmap string string) (enumerated : bool)
    (k : nat) (p : AnyPackage) (w : World) :
  ∃ g lines,
    print_search_entry E local_pkgs_versions enumerated (k, p) w
    = (Ok tt, {| color_gen := g; term_queries := term_queries w;
                 printed := printed w ++ lines |}) ∧
    search_entry_lines E enumerated k p lines.
Proof.
  unfold print_search_entry, search_entry_lines, idx_text, number_text.
  rewrite Nat.add_1_r.
  destruct (args_quiet (args E)).
  - by eexists (color_gen w), [_].
  - assert (Hrepo : ∃ text g,
              (match p with
               | RepoPkg pkg =>
                   pretty_format_repo_name E (alpm_db_name pkg) true
               | AurPkg _ =>
                   ret (color_line E "aur/" (ColorsHighlight_red E) true)
               end) w
              = (Ok text, {| color_gen := g; term_queries := term_queries w;
                             printed := printed w |})).
    { destruct p as [pkg|pkg];
        [apply pretty_format_repo_name_colors_only|].
      exists (color_line E "aur/" (ColorsHighlight_red E) true), (color_gen w).
      unfold ret. by destruct w. }
    destruct Hrepo as (text & g & Hrepo).
    unfold bind at 1. rewrite Hrepo.
    match goal with
    | |- context [let '(v, c) := ?x in _] => destruct x as [v c]
    end.
    unfold bind, print_stdout, print. cbn [color_gen term_queries printed].
    eexists g, [_; _]. rewrite <- (assoc_L (++)). split; [reflexivity|].
    by eexists _, _.
Qed.

Lemma mapM_print_search_entry_lines (E : Env)
    (local_pkgs_versions : gmap string string) (enumerated : bool)
    (entries : list (nat * AnyPackage)) (w : World) :
  ∃ units g lines,
    mapM (print_search_entry E local_pkgs_versions enumerated) entries w
    = (Ok units, {| color_gen := g; term_queries := term_queries w;
                    printed := printed w ++ concat lines |}) ∧
    Forall2 (λ e l, search_entry_lines E enumerated (fst e) (snd e) l)
      entries lines.
Proof.
  revert w. induction entries as [|[k p] entries IH]; intros w.
  - exists [], (color_gen w), []. cbn. rewrite app_nil_r.
    split; [by destruct w|constructor].
  - cbn [mapM]. unfold bind at 1.
    destruct (print_search_entry_lines E local_pkgs_versions enumerated
                k p w) as (g1 & l1 & -> & Hl1).
    unfold bind at 1.
    destruct (IH {| color_gen := g1; term_queries := term_queries w;
                    printed := printed w ++ l1 |})
      as (units & g2 & ls & -> & Hls).
    cbn [term_queries printed]. unfold ret.
    exists (tt :: units), g2, (l1 :: ls). cbn [concat].
    rewrite (assoc_L (++)). split; [done|]. by constructor.
Qed.

Lemma enumerate_lookup {A} (start : nat) (l : list A) :
  Forall (λ e, l !! (fst e - start)%nat = Some (snd e)) (enumerate start l).
Proof.
  apply Forall_forall. intros [k x] Hin.
  apply elem_of_enumerate in Hin as [Hk Hx]. done.
Qed.

Lemma Forall2_positions {A B} (P : nat → A → B → Prop) (l : list A)
    (es : list (nat * A)) (ls : list B) :
  Forall (λ e, l !! fst e = Some (snd e)) es →
  Forall2 (λ e b, P (fst e) (snd e) b) es ls →
  Forall2 (λ k b, ∃ x, l !! k = Some x ∧ P k x b) (map fst es) ls.
Proof.
  intros Hl H2. induction H2 as [|e b es ls He H2 IH]; [constructor|].
  apply Forall_cons in Hl as [Hle Hl]. cbn [map].
  constructor; [by exists (snd e)|by apply IH].
Qed.

(** C1 (amended): the numbers are given to the packages in the sorted
    order that is returned, before the reverse flag is applied: the line
    of the package at position k of the returned list carries k+1; the
    numbers printed are 1..n in ascending order without the reverse
    flag and n..1 in descending order with it.  What is printed is, for
    the positions of the returned list taken in ascending order, or in
    descending order with the reverse flag, the lines of the package at
    that position, the first of which starts with the bold text
    "k+1) " when the lines are numbered, in quiet mode and otherwise. *)
Theorem search_numbers_before_reversal (E : Env)
    (repo_packages : list AlpmPackage) (aur_packages : list AURPackageInfo)
    (local_pkgs_versions : gmap string string) (enumerated : bool)
    (w : World) :
  let returned := sorted_packages E repo_packages aur_packages in
  let n := length returned in
  value_of (print_package_search_results E repo_packages aur_packages
              local_pkgs_versions enumerated) w = Ok returned ∧
  (∀ k p, (k, p) ∈ enumerated_packages E repo_packages aur_packages
          ↔ returned !! k = Some p) ∧
  printed_indices E repo_packages aur_packages
  = (if ui_ReverseSearchSorting (config E) then rev (seq 1 n) else seq 1 n) ∧
  (args_quiet (args E) = true →
   printed (world_after
              (print_package_search_results E repo_packages aur_packages
                 local_pkgs_versions enumerated) w)
   = printed w
     ++ map (λ e, Stdout (idx_text E enumerated (fst e)
                          +:+ package_name (snd e)))
          (enumerated_packages E repo_packages aur_packages)) ∧
  (∃ lines,
     printed (world_after
                (print_package_search_results E repo_packages aur_packages
                   local_pkgs_versions enumerated) w)
     = printed w ++ concat lines ∧
     Forall2 (λ k l, ∃ p, returned !! k = Some p ∧
                          search_entry_lines E enumerated k p l)
       (printing_order E n) lines).
Proof.
  intros returned n. split; [|split; [|split; [|split]]].
  - unfold value_of, print_package_search_results, bind.
    destruct (succeeds_mapM
                (print_search_entry E local_pkgs_versions enumerated)
                (enumerated_packages E repo_packages aur_packages)
                (succeeds_print_search_entry E local_pkgs_versions
                   enumerated) w) as (a & w' & ->).
    done.
  - intros k p. unfold enumerated_packages. fold returned.
    destruct (ui_ReverseSearchSorting (config E));
      rewrite ?elem_of_rev, elem_of_enumerate, Nat.sub_0_r;
      split; [by intros [_ ?]|split; [lia|done]
             |by intros [_ ?]|split; [lia|done]].
  - unfold printed_indices, enumerated_packages. fold returned.
    assert (Hs : map (λ entry : nat * AnyPackage, (fst entry + 1)%nat)
                   (enumerate 0 returned) = seq 1 n).
    { rewrite <- (map_map fst (λ k, (k + 1)%nat)), enumerate_fst.
      rewrite (map_ext (λ k, (k + 1)%nat) S) by (intros; lia).
      apply seq_shift. }
    destruct (ui_ReverseSearchSorting (config E)); [|done].
    by rewrite map_rev, Hs.
  - intros Hq. unfold world_after, print_package_search_results, bind.
    pose proof (quiet_search_output E local_pkgs_versions enumerated
                  (enumerated_packages E repo_packages aur_packages) w Hq)
      as Hout.
    unfold world_after in Hout.
    destruct (mapM _ _ w) as [[ys|e] w']; simpl in *; done.
  - unfold world_after, print_package_search_results, bind.
    destruct (mapM_print_search_entry_lines E local_pkgs_versions enumerated
                (enumerated_packages E repo_packages aur_packages) w)
      as (units & g & lines & -> & Hlines).
    exists lines. split; [done|].
    assert (Horder : map fst (enumerated_packages E repo_packages
                                aur_packages) = printing_order E n).
    { unfold enumerated_packages, printing_order. fold returned.
      destruct (ui_ReverseSearchSorting (config E));
        by rewrite ?map_rev, enumerate_fst. }
    rewrite <- Horder.
    apply (Forall2_positions (search_entry_lines E enumerated) returned);
      [|exact Hlines].
    unfold enumerated_packages. fold returned.
    pose proof (enumerate_lookup 0 returned) as Hl.
    assert (Hl' : Forall (λ e : nat * AnyPackage,
                            returned !! fst e = Some (snd e))
                    (enumerate 0 returned)).
    { eapply Forall_impl; [exact Hl|]. intros e He. rewrite <- He.
      f_equal. lia. }
    destruct (ui_ReverseSearchSorting (config E)); [|done].
    apply Forall_forall. intros e He. rewrite elem_of_rev in He.
    rewrite Forall_forall in Hl'. by apply Hl'.
Qed.

(** C1, as stated, fails: with the reverse flag set the two lines
    printed carry the numbers 2 and 1, in that order. *)
Lemma reversed_search_numbers_descend :
  printed (world_after
             (print_package_search_results SearchInputs.env_reversed
                [SearchInputs.core_aa; SearchInputs.core_bb] [] ∅ true)
             initial_world)
  = [Stdout "2) bb"; Stdout "1) aa"] ∧
  printed_indices SearchInputs.env_reversed
    [SearchInputs.core_aa; SearchInputs.core_bb] [] ≠ seq 1 2.
Proof. split; [by vm_compute|]. vm_compute. discriminate. Qed.

(** ** The sysupgrade report *)

Lemma self_pretty_format_upgradeable_run (E : Env) (self : Formatter)
    (l : list InstallInfo) (print_repo : option bool) (w : World) :
  ∃ text w',
    self_pretty_format_upgradeable E self l print_repo w = (Ok text, w').
Proof.
  unfold self_pretty_format_upgradeable.
  destruct (pretty_format_upgradeable_run E
              {| verbose := self_verbose self;
                 print_repo :=
                   default (sync_AlwaysShowPkgOrigin (config E)) print_repo;
                 color := self_color self; template := None |} l w)
    as (text & g & ->).
  by eexists _, _.
Qed.

(** A section appends its header, numbered by [counted], and the listing
    of [listed]. *)
Lemma section_run (E : Env) (self : Formatter) (mark_color : Z)
    (singular plural : string) (counted listed : list InstallInfo)
    (print_repo : option bool) (w : World) :
  ∃ listing w',
    section E self mark_color singular plural counted listed print_repo w
    = (Ok (append_result self
             [Py.nl +:+ self__color_line E self "::" mark_color
              +:+ " " +:+ self__bold_line E self
                            (translate_many E singular plural
                               (Z.of_nat (length counted)));
              listing]), w') ∧
    self_pretty_format_upgradeable E self listed print_repo w
    = (Ok listing, w').
Proof.
  unfold section, bind.
  destruct (self_pretty_format_upgradeable_run E self listed print_repo w)
    as (text & w' & ->).
  by exists text, w'.
Qed.

(** C10: when the third-party replacements section is emitted, the
    number that selects the singular or the plural of its header is the
    number of repository updates, not the number of third-party
    replacements listed under it; so with one update and several
    replacements the header is the singular one, and with several
    updates and one replacement it is the plural one. *)
Theorem thirdparty_replacements_header_counts_repo_updates (E : Env)
    (self : Formatter) (w : World) :
  thirdparty_repo_replacements self ≠ [] →
  (∀ singular plural n,
     translate_many E singular plural n
     = if n =? 1 then singular else plural) →
  let updates := length (repo_packages_updates self) in
  let listed := length (thirdparty_repo_replacements self) in
  let header (message : string) :=
    Py.nl +:+ self__color_line E self "::" (ColorsHighlight_blue E)
    +:+ " " +:+ self__bold_line E self message in
  ∃ self' earlier listing w1,
    value_of (pformat_replacements E self) w = Ok self' ∧
    thirdparty_repo_replacements self' = thirdparty_repo_replacements self ∧
    value_of (self_pretty_format_upgradeable E self
                (thirdparty_repo_replacements self) None) w1 = Ok listing ∧
    result self' =
      earlier
      ++ [header (translate_many E
                    "Third-party repository package suggested as a replacement:"
                    "Third-party repository packages suggested as a replacement:"
                    (Z.of_nat updates));
          listing] ∧
    (updates = 1%nat → (1 < listed)%nat →
     result self' =
       earlier
       ++ [header "Third-party repository package suggested as a replacement:";
           listing]) ∧
    (listed = 1%nat → updates ≠ 1%nat →
     result self' =
       earlier
       ++ [header "Third-party repository packages suggested as a replacement:";
           listing]).
Proof.
  intros Hne Hrule updates listed header.
  assert (Htp : Py.truthy_list (thirdparty_repo_replacements self) = true)
    by by destruct (thirdparty_repo_replacements self).
  unfold value_of, pformat_replacements, bind.
  destruct (Py.truthy_list (repo_replacements self)).
  - destruct (section_run E self (ColorsHighlight_blue E)
                "Repository package suggested as a replacement:"
                "Repository packages suggested as a replacement:"
                (repo_replacements self) (repo_replacements self) None w)
      as (l0 & w0 & -> & _).
    set (self0 := append_result self _).
    change (thirdparty_repo_replacements self0)
      with (thirdparty_repo_replacements self).
    rewrite Htp.
    destruct (section_run E self0 (ColorsHighlight_blue E)
                "Third-party repository package suggested as a replacement:"
                "Third-party repository packages suggested as a replacement:"
                (repo_packages_updates self0)
                (thirdparty_repo_replacements self) None w0)
      as (l1 & w1 & -> & Hl1).
    exists (append_result self0
              [Py.nl +:+ self__color_line E self0 "::" (ColorsHighlight_blue E)
               +:+ " " +:+ self__bold_line E self0
                 (translate_many E
                    "Third-party repository package suggested as a replacement:"
                    "Third-party repository packages suggested as a replacement:"
                    (Z.of_nat (length (repo_packages_updates self0))));
               l1]),
      (result self0), l1, w0.
    split; [done|]. split; [done|]. split; [exact (f_equal fst Hl1)|].
    split; [done|]. simpl. rewrite !Hrule. split.
    + intros Hu _. change (length (repo_packages_updates self)) with updates.
      by rewrite Hu.
    + intros _ Hu. change (length (repo_packages_updates self)) with updates.
      destruct (Z.eqb_spec (Z.of_nat updates) 1); [lia|done].
  - simpl. rewrite Htp.
    destruct (section_run E self (ColorsHighlight_blue E)
                "Third-party repository package suggested as a replacement:"
                "Third-party repository packages suggested as a replacement:"
                (repo_packages_updates self)
                (thirdparty_repo_replacements self) None w)
      as (l1 & w1 & -> & Hl1).
    exists (append_result self
              [Py.nl +:+ self__color_line E self "::" (ColorsHighlight_blue E)
               +:+ " " +:+ self__bold_line E self
                 (translate_many E
                    "Third-party repository package suggested as a replacement:"
                    "Third-party repository packages suggested as a replacement:"
                    (Z.of_nat (length (repo_packages_updates self))));
               l1]),
      (result self), l1, w.
    split; [done|]. split; [done|]. split; [exact (f_equal fst Hl1)|].
    split; [done|]. simpl. rewrite !Hrule. split.
    + intros Hu _. change (length (repo_packages_updates self)) with updates.
      by rewrite Hu.
    + intros _ Hu. change (length (repo_packages_updates self)) with updates.
      destruct (Z.eqb_spec (Z.of_nat updates) 1); [lia|done].
Qed.

(** ** The update classifier *)

Lemma all_installed_cons (E : Env) (p : AURPackageInfo)
    (pkgs : list AURPackageInfo) :
  all_installed E (p :: pkgs) →
  is_Some (local_dict E !! aur_name p) ∧ all_installed E pkgs.
Proof.
  intros H. split; [apply H; left|]. intros q Hq. apply H. by right.
Qed.

(** The loop of [find_aur_updates], package by package. *)
Lemma find_aur_updates_loop_run (E : Env) (pkgs : list AURPackageInfo)
    (aur_updates : list InstallInfo)
    (aur_pkgs_up_to_date : list AURPackageInfo) (w : World) :
  all_installed E pkgs →
  Updates.find_aur_updates_loop E pkgs aur_updates aur_pkgs_up_to_date w
  = (Ok (aur_updates ++ omap (version_update E) pkgs,
         aur_pkgs_up_to_date ++ List.filter (is_up_to_date E) pkgs),
     {| color_gen := color_gen w; term_queries := term_queries w;
        printed := printed w ++ omap (skip_notice E) pkgs |}).
Proof.
  revert aur_updates aur_pkgs_up_to_date w.
  induction pkgs as [|p pkgs IH]; intros ups utd w Hall.
  - simpl. rewrite !app_nil_r. by destruct w.
  - apply all_installed_cons in Hall as [[lp Hlp] Hall].
    assert (Hn : aur_is_newer E p
                 = (compare_versions E (lp_version lp) (aur_version p) <? 0))
      by (unfold aur_is_newer; by rewrite Hlp).
    assert (Hv : version_update E p
                 = if aur_is_newer E p && negb (skips_outofdate E p)
                   then Some (Updates.AURInstallInfo (lp_version lp) p)
                   else None)
      by (unfold version_update; by rewrite Hlp).
    assert (Hu : is_up_to_date E p = negb (aur_is_newer E p))
      by (unfold is_up_to_date; by rewrite Hlp).
    assert (Hs : skip_notice E p
                 = if aur_is_newer E p && skips_outofdate E p
                   then Some (Warning
                                (skip_notice_text E
                                   (Updates.AURInstallInfo (lp_version lp) p)))
                   else None)
      by (unfold skip_notice; by rewrite Hlp).
    cbn [Updates.find_aur_updates_loop omap list_omap List.filter].
    rewrite Hv, Hu, Hs, Hn. unfold Updates.local_lookup. rewrite Hlp.
    unfold bind at 1, lift at 1. cbn iota beta.
    fold (skips_outofdate E p).
    destruct (compare_versions E (lp_version lp) (aur_version p) <? 0);
      cbn [andb negb].
    + destruct (skips_outofdate E p); cbn [andb negb].
      * unfold bind at 1, print_ignoring_outofdate_upgrade, print_warning,
          print at 1. cbn iota beta. rewrite IH by done.
        cbn [color_gen term_queries printed].
        fold (skip_notice_text E (Updates.AURInstallInfo (lp_version lp) p)).
        by rewrite <- (assoc_L (++)).
      * rewrite IH by done. by rewrite <- (assoc_L (++)).
    + rewrite IH by done. by rewrite <- (assoc_L (++)).
Qed.

(** The loop of [find_aur_devel_updates], package by package. *)
Lemma find_aur_devel_updates_loop_run (E : Env) (pkgs : list AURPackageInfo)
    (ttl : Z) (aur_updates : list InstallInfo) :
  all_installed E pkgs →
  Updates.find_aur_devel_updates_loop E pkgs ttl aur_updates
  = Ok (aur_updates ++ omap (devel_update E ttl) pkgs).
Proof.
  revert aur_updates. induction pkgs as [|p pkgs IH]; intros ups Hall.
  - simpl. by rewrite app_nil_r.
  - apply all_installed_cons in Hall as [[lp Hlp] Hall].
    cbn [Updates.find_aur_devel_updates_loop omap list_omap].
    unfold devel_update, Updates.local_lookup.
    destruct (Updates.is_devel_pkg (aur_name p)); cbn; [|by apply IH].
    rewrite Hlp. cbn.
    destruct (ttl <=? Updates.pkg_age_days E lp).
    + rewrite IH by done. by rewrite <- (assoc_L (++)).
    + by apply IH.
Qed.

Lemma find_aur_devel_updates_run (E : Env) (pkgs : list AURPackageInfo)
    (ttl : Z) :
  all_installed E pkgs →
  Updates.find_aur_devel_updates E pkgs ttl
  = Ok (omap (devel_update E ttl)
          (Py.sorted (λ x y, String.leb (aur_name x) (aur_name y)) pkgs)).
Proof.
  intros Hall. unfold Updates.find_aur_devel_updates.
  rewrite find_aur_devel_updates_loop_run; [done|].
  intros p Hp. apply Hall. by apply elem_of_sorted in Hp.
Qed.

(** The staleness path, lines 146-155. *)
Lemma devel_updates_of_run (E : Env) (pkgs : list AURPackageInfo) :
  all_installed E pkgs →
  Updates.devel_updates_of E pkgs
  = Ok (if -1 <? effective_ttl E
        then omap (devel_update E (effective_ttl E))
               (Py.sorted (λ x y, String.leb (aur_name x) (aur_name y)) pkgs)
        else []).
Proof.
  intros Hall. unfold Updates.devel_updates_of. fold (effective_ttl E).
  destruct pkgs as [|p pkgs]; simpl; [by destruct (_ <? _)|].
  destruct (-1 <? effective_ttl E); [|done].
  by rewrite find_aur_devel_updates_run.
Qed.

Lemma elem_of_List_filter {A} (f : A → bool) (x : A) (l : list A) :
  x ∈ List.filter f l ↔ x ∈ l ∧ f x = true.
Proof. by rewrite !list_elem_of_In, filter_In. Qed.

Lemma all_installed_up_to_date (E : Env) (pkgs : list AURPackageInfo) :
  all_installed E pkgs → all_installed E (List.filter (is_up_to_date E) pkgs).
Proof. intros Hall p [Hp _]%elem_of_List_filter. by apply Hall. Qed.

(** [find_aur_updates] returns; its updates are those of the version
    comparison followed by those of the staleness path. *)
Lemma find_aur_updates_run (E : Env) (w : World) :
  let pkgs := fst (find_aur_packages E (find_packages_not_from_repo E)) in
  all_installed E pkgs →
  Updates.find_aur_updates E w
  = (Ok (omap (version_update E) pkgs
         ++ (if -1 <? effective_ttl E
             then omap (devel_update E (effective_ttl E))
                    (Py.sorted (λ x y, String.leb (aur_name x) (aur_name y))
                       (List.filter (is_up_to_date E) pkgs))
             else []),
         snd (find_aur_packages E (find_packages_not_from_repo E))),
     {| color_gen := color_gen w; term_queries := term_queries w;
        printed :=
          (printed w
           ++ [Stderr (translate_many E "Reading AUR package info..."
                         "Reading AUR packages info..."
                         (Z.of_nat (length (find_packages_not_from_repo E))))])
          ++ omap (skip_notice E) pkgs |}).
Proof.
  intros pkgs Hall. unfold Updates.find_aur_updates.
  unfold bind at 1, print_stderr, print at 1. cbn.
  subst pkgs.
  destruct (find_aur_packages E (find_packages_not_from_repo E))
    as [pkgs nf]. simpl in Hall |- *.
  unfold bind at 1. rewrite find_aur_updates_loop_run by done. cbn.
  unfold bind, lift.
  rewrite devel_updates_of_run by by apply all_installed_up_to_date.
  done.
Qed.

Lemma version_update_Some (E : Env) (q : AURPackageInfo) (r : InstallInfo) :
  version_update E q = Some r →
  ∃ lq, local_dict E !! aur_name q = Some lq ∧
        aur_is_newer E q = true ∧ skips_outofdate E q = false ∧
        r = Updates.AURInstallInfo (lp_version lq) q.
Proof.
  unfold version_update. destruct (local_dict E !! aur_name q) as [lq|];
    [|done].
  destruct (aur_is_newer E q); [|done].
  destruct (skips_outofdate E q); [done|].
  intros [= <-]. by exists lq.
Qed.

Lemma devel_update_Some (E : Env) (ttl : Z) (q : AURPackageInfo)
    (r : InstallInfo) :
  devel_update E ttl q = Some r ↔
  ∃ lq, local_dict E !! aur_name q = Some lq ∧
        Updates.is_devel_pkg (aur_name q) = true ∧
        ttl ≤ Updates.pkg_age_days E lq ∧
        r = Updates.devel_install_info lq q (Updates.pkg_age_days E lq).
Proof.
  unfold devel_update. destruct (Updates.is_devel_pkg (aur_name q));
    [|split; [done|by intros (? & _ & ? & _)]].
  destruct (local_dict E !! aur_name q) as [lq|];
    [|split; [done|by intros (? & ? & _)]].
  destruct (Z.leb_spec ttl (Updates.pkg_age_days E lq)).
  - split.
    + intros [= <-]. by exists lq.
    + intros (? & [= <-] & _ & _ & ->). done.
  - split; [done|]. intros (? & [= <-] & _ & ? & _). lia.
Qed.

(** C7: a package whose AUR version is strictly newer is left out of
    the updates, with a notice printed and no error raised, when flagged
    packages are to be skipped and its out-of-date flag is set (a
    timestamp other than 0, as the code tests it); every other strictly
    newer package is among the updates. *)
Theorem flagged_updates_are_skipped (E : Env) (w : World) :
  let pkgs := fst (find_aur_packages E (find_packages_not_from_repo E)) in
  all_installed E pkgs →
  ∃ updates not_found,
    value_of (Updates.find_aur_updates E) w = Ok (updates, not_found) ∧
    ∀ p lp,
      p ∈ pkgs → local_dict E !! aur_name p = Some lp →
      compare_versions E (lp_version lp) (aur_version p) < 0 →
      let record := Updates.AURInstallInfo (lp_version lp) p in
      if args_ignore_outofdate (args E)
         && Py.truthy_opt_int (aur_outofdate p)
      then Warning (skip_notice_text E record)
             ∈ printed (world_after (Updates.find_aur_updates E) w) ∧
           record ∉ updates
      else record ∈ updates.
Proof.
  intros pkgs Hall. unfold value_of, world_after.
  rewrite (find_aur_updates_run E w Hall). fold pkgs. cbn [fst snd printed].
  eexists _, _. split; [reflexivity|].
  intros p lp Hp Hlp Hlt.
  set (record := Updates.AURInstallInfo (lp_version lp) p).
  assert (Hn : aur_is_newer E p = true).
  { unfold aur_is_newer. rewrite Hlp. by apply Z.ltb_lt. }
  fold (skips_outofdate E p).
  destruct (skips_outofdate E p) eqn:Hskip.
  - split.
    + apply elem_of_app. right. apply list_elem_of_omap. exists p.
      split; [done|]. unfold skip_notice. by rewrite Hlp, Hn, Hskip.
    + intros [Hin|Hin]%elem_of_app.
      * apply list_elem_of_omap in Hin as (q & Hq & Hv).
        apply version_update_Some in Hv as (lq & _ & _ & Hsq & Heq).
        apply (f_equal package) in Heq. simpl in Heq.
        injection Heq as ->. congruence.
      * destruct (-1 <? effective_ttl E); [|by apply elem_of_nil in Hin].
        apply list_elem_of_omap in Hin as (q & _ & Hd).
        apply devel_update_Some in Hd as (lq & _ & _ & _ & Heq).
        apply (f_equal devel_pkg_age_days) in Heq. discriminate.
  - apply elem_of_app. left. apply list_elem_of_omap. exists p.
    split; [done|]. unfold version_update. by rewrite Hlp, Hn, Hskip.
Qed.

(** C3 (amended): for a package whose installed version compares equal
    to its AUR version the version comparison produces no record; a
    record for it comes from the staleness path only: it has the new
    version "devel" and the age in days, and the package is a
    development package whose age has reached a time to live of 0 or
    more. *)
Theorem equal_versions_only_devel_record (E : Env) (w : World) :
  let pkgs := fst (find_aur_packages E (find_packages_not_from_repo E)) in
  all_installed E pkgs →
  ∃ updates not_found,
    value_of (Updates.find_aur_updates E) w = Ok (updates, not_found) ∧
    ∀ p lp r,
      local_dict E !! aur_name p = Some lp →
      compare_versions E (lp_version lp) (aur_version p) = 0 →
      r ∈ updates → package r = Some (AurPkg p) →
      r = Updates.devel_install_info lp p (Updates.pkg_age_days E lp) ∧
      new_version r = "devel" ∧
      devel_pkg_age_days r = Some (Updates.pkg_age_days E lp) ∧
      Updates.is_devel_pkg (aur_name p) = true ∧
      0 ≤ effective_ttl E ≤ Updates.pkg_age_days E lp.
Proof.
  intros pkgs Hall. unfold value_of.
  rewrite (find_aur_updates_run E w Hall). fold pkgs. cbn [fst].
  eexists _, _. split; [reflexivity|].
  intros p lp r Hlp Heq [Hin|Hin]%elem_of_app Hpkg.
  - apply list_elem_of_omap in Hin as (q & _ & Hv).
    apply version_update_Some in Hv as (lq & Hlq & Hn & _ & ->).
    simpl in Hpkg. injection Hpkg as ->.
    unfold aur_is_newer in Hn. rewrite Hlp in Hn.
    apply Z.ltb_lt in Hn. lia.
  - destruct (Z.ltb_spec (-1) (effective_ttl E));
      [|by apply elem_of_nil in Hin].
    apply list_elem_of_omap in Hin as (q & _ & Hd).
    apply devel_update_Some in Hd as (lq & Hlq & Hdev & Hage & ->).
    simpl in Hpkg. injection Hpkg as ->.
    rewrite Hlp in Hlq. injection Hlq as <-.
    repeat split; [done|lia|done].
Qed.

(** C3, as stated, fails: [foo-git 1.0] is installed and is 1.0 in the
    AUR, the two versions compare equal, and with the development check
    forced a record is produced for it. *)
Lemma equal_versions_devel_record_produced :
  compare_versions ClassifierInputs.env_devel_forced "1.0" "1.0" = 0 ∧
  value_of (Updates.find_aur_updates ClassifierInputs.env_devel_forced)
    initial_world
  = Ok ([Updates.devel_install_info ClassifierInputs.foo_git_local
           ClassifierInputs.foo_git_aur 10], []).
Proof. split; by vm_compute. Qed.

(** C4: for the up-to-date packages the staleness path returns; a
    development package among them gets its synthesized record exactly
    when the time to live is 0 or more and the age in whole days has
    reached it; every record it yields has the new version "devel" and
    that age; below zero it yields nothing. *)
Theorem devel_staleness_path (E : Env)
    (aur_pkgs_up_to_date : list AURPackageInfo) :
  all_installed E aur_pkgs_up_to_date →
  ∃ updates,
    Updates.devel_updates_of E aur_pkgs_up_to_date = Ok updates ∧
    (∀ p lp,
       p ∈ aur_pkgs_up_to_date →
       Updates.is_devel_pkg (aur_name p) = true →
       local_dict E !! aur_name p = Some lp →
       let age := (now E - fromtimestamp E (lp_installdate lp)) `div` 86400 in
       Updates.devel_install_info lp p age ∈ updates
       ↔ 0 ≤ effective_ttl E ≤ age) ∧
    (∀ r, r ∈ updates →
          new_version r = "devel" ∧
          ∃ p lp,
            p ∈ aur_pkgs_up_to_date ∧
            Updates.is_devel_pkg (aur_name p) = true ∧
            local_dict E !! aur_name p = Some lp ∧
            devel_pkg_age_days r
            = Some ((now E - fromtimestamp E (lp_installdate lp))
                    `div` 86400) ∧
            r = Updates.devel_install_info lp p
                  (Updates.pkg_age_days E lp)) ∧
    (effective_ttl E < 0 → updates = []).
Proof.
  intros Hall. rewrite (devel_updates_of_run E _ Hall).
  eexists. split; [reflexivity|].
  destruct (Z.ltb_spec (-1) (effective_ttl E)) as [Hpos|Hneg].
  - split; [|split; [|lia]].
    + intros p lp Hp Hdev Hlp age. rewrite list_elem_of_omap. split.
      * intros (q & _ & Hd).
        apply devel_update_Some in Hd as (lq & Hlq & _ & Hage & Heq).
        pose proof (f_equal package Heq) as Hq. simpl in Hq.
        injection Hq as <-.
        rewrite Hlp in Hlq. injection Hlq as <-.
        fold (Updates.pkg_age_days E lp) in age. lia.
      * intros [_ Hage]. exists p. split; [by apply elem_of_sorted|].
        apply devel_update_Some. exists lp. done.
    + intros r (q & Hq%elem_of_sorted & Hd)%list_elem_of_omap.
      apply devel_update_Some in Hd as (lq & Hlq & Hdev & Hage & ->).
      split; [done|]. by exists q, lq.
  - split; [|split; [|done]].
    + intros p lp _ _ _ age. rewrite elem_of_nil. split; [done|lia].
    + intros r Hr. by apply elem_of_nil in Hr.
Qed.

(** ** The warn filter *)

Lemma list_remove_middle (x : InstallInfo) (kept rest : list InstallInfo) :
  x ∉ kept → Py.list_remove x (kept ++ x :: rest) = Ok (kept ++ rest).
Proof.
  induction kept as [|y kept IH]; simpl.
  - intros _. by rewrite decide_True.
  - intros [Hne Hn]%not_elem_of_cons. rewrite decide_False by done.
    by rewrite IH.
Qed.

Lemma is_warned_matching (E : Env) (globs : list string) (pkg : InstallInfo) :
  is_warned E globs pkg = false ↔ matching_globs E globs pkg = [].
Proof.
  unfold is_warned, matching_globs.
  induction globs as [|g globs IH]; simpl; [done|].
  destruct (fnmatch E (name pkg) g); simpl; [done|apply IH].
Qed.

Lemma remove_globs_of_pkg_unmatched (E : Env) (globs : list string)
    (pkg : InstallInfo) (st : list InstallInfo * list InstallInfo) :
  matching_globs E globs pkg = [] →
  remove_globs_of_pkg E globs pkg st = Ok st.
Proof.
  unfold matching_globs. induction globs as [|g globs IH]; simpl; [done|].
  destruct (fnmatch E (name pkg) g); [done|apply IH].
Qed.

(** A record that matches at most one glob is removed at most once. *)
Lemma remove_globs_of_pkg_run (E : Env) (globs : list string)
    (pkg : InstallInfo) (l warn : list InstallInfo) :
  (length (matching_globs E globs pkg) ≤ 1)%nat →
  remove_globs_of_pkg E globs pkg (l, warn)
  = if is_warned E globs pkg
    then res_bind (Py.list_remove pkg l) (λ l', Ok (l', warn ++ [pkg]))
    else Ok (l, warn).
Proof.
  unfold matching_globs, is_warned.
  induction globs as [|g globs IH]; simpl; [done|].
  destruct (fnmatch E (name pkg) g); simpl; [|apply IH].
  intros Hlen. destruct (Py.list_remove pkg l) as [l'|e]; simpl; [|done].
  apply remove_globs_of_pkg_unmatched. unfold matching_globs.
  destruct (List.filter _ globs); [done|simpl in Hlen; lia].
Qed.

(** The loop over a list whose records match at most one glob each: the
    records that match none stay, in order, and the others are moved,
    in order. *)
Lemma remove_globs_loop_run (E : Env) (globs : list string)
    (copy kept warn : list InstallInfo) :
  (∀ p, p ∈ copy → (length (matching_globs E globs p) ≤ 1)%nat) →
  (∀ p, p ∈ kept → is_warned E globs p = false) →
  remove_globs_loop E globs copy (kept ++ copy, warn)
  = Ok (kept ++ List.filter (λ p, negb (is_warned E globs p)) copy,
        warn ++ List.filter (is_warned E globs) copy).
Proof.
  revert kept warn. induction copy as [|x copy IH]; intros kept warn Hone Hk.
  - simpl. by rewrite !app_nil_r.
  - cbn [remove_globs_loop List.filter].
    rewrite remove_globs_of_pkg_run by (apply Hone; left).
    destruct (is_warned E globs x) eqn:Hx; cbn [negb res_bind].
    + rewrite list_remove_middle.
      * cbn [res_bind]. rewrite IH; [|intros; apply Hone; by right|done].
        by rewrite <- (assoc_L (++)).
      * intros Hin. apply Hk in Hin. congruence.
    + rewrite (cons_middle x kept copy), (assoc_L (++)).
      rewrite IH; [|intros; apply Hone; by right|].
      * by rewrite <- (assoc_L (++)).
      * intros p [Hp| ->%list_elem_of_singleton]%elem_of_app;
          [by apply Hk|done].
Qed.

Lemma remove_globs_from_lists_run (E : Env) (globs : list string)
    (lists : list (list InstallInfo)) (warn : list InstallInfo) :
  (∀ l p, l ∈ lists → p ∈ l →
          (length (matching_globs E globs p) ≤ 1)%nat) →
  remove_globs_from_lists E globs lists warn
  = Ok (map (List.filter (λ p, negb (is_warned E globs p))) lists,
        warn ++ concat (map (List.filter (is_warned E globs)) lists)).
Proof.
  revert warn. induction lists as [|l lists IH]; intros warn Hone.
  - simpl. by rewrite app_nil_r.
  - cbn [remove_globs_from_lists map concat].
    unfold remove_globs_from_pkg_list.
    change (l, warn) with ([] ++ l, warn).
    rewrite (remove_globs_loop_run E globs l [] warn);
      [|intros p Hp; apply (Hone l); [left|done]
       |intros p Hp; by apply elem_of_nil in Hp].
    cbn [res_bind fst snd app]. rewrite IH.
    + cbn [res_bind fst snd]. by rewrite <- (assoc_L (++)).
    + intros l' p Hl'. apply Hone. by right.
Qed.

Lemma filter_unwarned_twice (E : Env) (globs : list string)
    (l : list InstallInfo) :
  List.filter (λ p, negb (is_warned E globs p))
    (List.filter (λ p, negb (is_warned E globs p)) l)
  = List.filter (λ p, negb (is_warned E globs p)) l ∧
  List.filter (is_warned E globs)
    (List.filter (λ p, negb (is_warned E globs p)) l) = [].
Proof.
  induction l as [|x l [IH1 IH2]]; simpl; [done|].
  destruct (is_warned E globs x) eqn:Hx; simpl; [done|].
  by rewrite Hx, IH1, IH2.
Qed.

Lemma filter_no_globs (E : Env) (l : list InstallInfo) :
  List.filter (λ p, negb (is_warned E [] p)) l = l ∧
  List.filter (is_warned E []) l = [].
Proof.
  induction l as [|x l [IH1 IH2]]; [done|]. cbn [List.filter].
  change (is_warned E [] x) with false. cbn [negb]. by rewrite IH1.
Qed.

(** The warn filter on a formatter whose records match at most one glob
    each: every list keeps, in order, its records that match no glob,
    the warned list is made of the others, list after list, and a
    second pass moves nothing. *)
Lemma warn_filter_at_most_one_glob (E : Env) (self : Formatter) :
  at_most_one_glob E self →
  ∃ self',
    warn_filter E self
    = Ok (self',
          concat (map (List.filter (is_warned E (warn_globs E)))
                    (all_install_info_lists self))) ∧
    all_install_info_lists self'
    = map (List.filter (λ p, negb (is_warned E (warn_globs E) p)))
        (all_install_info_lists self) ∧
    result self' = result self ∧
    warn_filter E self' = Ok (self', []).
Proof.
  intros Hone. unfold at_most_one_glob, warn_globs in Hone.
  unfold warn_filter, warn_globs.
  destruct (Py.truthy_str (ui_WarnAboutPackageUpdates (config E))).
  - set (globs := Py.split "," (ui_WarnAboutPackageUpdates (config E))) in *.
    rewrite (remove_globs_from_lists_run E globs _ [] Hone).
    cbn [res_bind fst snd app]. eexists. split; [reflexivity|].
    split; [done|]. split; [done|].
    rewrite remove_globs_from_lists_run.
    + cbn [res_bind fst snd app all_install_info_lists
             set_install_info_lists map concat repo_packages_updates
             thirdparty_repo_packages_updates aur_updates repo_replacements
             thirdparty_repo_replacements new_repo_deps
             new_thirdparty_repo_deps new_aur_deps].
      by rewrite !(proj1 (filter_unwarned_twice E globs _)),
        !(proj2 (filter_unwarned_twice E globs _)).
    + intros l p Hl Hp.
      assert (Hw : is_warned E globs p = false).
      { change (l ∈ map (List.filter (λ p, negb (is_warned E globs p)))
                      (all_install_info_lists self)) in Hl.
        apply list_elem_of_fmap in Hl as (l0 & Hl0 & _). subst l.
        apply elem_of_List_filter in Hp as [_ Hp].
        by apply negb_true_iff in Hp. }
      apply is_warned_matching in Hw. rewrite Hw. simpl. lia.
  - exists self. cbn [all_install_info_lists map concat].
    rewrite !(proj1 (filter_no_globs E _)), !(proj2 (filter_no_globs E _)).
    done.
Qed.

(** The ignore loop of [print_upgradeable] tests each record once: it
    never raises, the ignored records are removed once each and the
    others stay, in order. *)
Lemma succeeds_print_ignored_package (E : Env) (pkg : InstallInfo) :
  succeeds (print_ignored_package E None (Some pkg) None).
Proof.
  unfold print_ignored_package.
  rewrite bool_decide_eq_true_2 by by eexists. cbn [orb negb default].
  apply succeeds_bind; [|intros text; apply succeeds_print].
  destruct (_ && _);
    (apply succeeds_bind; [|intros l; apply succeeds_ret]);
    intros w;
    match goal with
    | |- context [pretty_format_upgradeable E ?o ?l w] =>
        destruct (pretty_format_upgradeable_run E o l w) as (t & g & ->)
    end; by eexists _, _.
Qed.

Lemma remove_ignored_run (E : Env) (ignored_pkg_names : list string)
    (copy kept : list InstallInfo) (w : World) :
  (∀ p, p ∈ kept → name p ∉ ignored_pkg_names) →
  ∃ w',
    Updates.remove_ignored E ignored_pkg_names copy (kept ++ copy) w
    = (Ok (kept
           ++ List.filter
                (λ p, negb (bool_decide (name p ∈ ignored_pkg_names))) copy),
       w').
Proof.
  revert kept w. induction copy as [|x copy IH]; intros kept w Hk.
  - exists w. simpl. by rewrite app_nil_r.
  - cbn [Updates.remove_ignored List.filter].
    destruct (bool_decide (name x ∈ ignored_pkg_names)) eqn:Hx; cbn [negb].
    + apply bool_decide_eq_true_1 in Hx.
      unfold bind at 1, lift at 1. rewrite list_remove_middle.
      * unfold bind at 1.
        destruct (succeeds_print_ignored_package E x w) as ([] & w1 & ->).
        apply IH, Hk.
      * intros Hin. by apply Hk in Hin.
    + apply bool_decide_eq_false_1 in Hx.
      rewrite (cons_middle x kept copy), (assoc_L (++)).
      destruct (IH (kept ++ [x]) w) as (w' & ->).
      * intros p [Hp| ->%list_elem_of_singleton]%elem_of_app;
          [by apply Hk|done].
      * exists w'. by rewrite <- (assoc_L (++)).
Qed.

(** C2, at the failing input: with the globs [foo] and [f*] the update
    of [foo] is removed from its list at the first glob and looked for
    again at the second, and the report ends in a [ValueError]. *)
Theorem warned_by_two_globs_raises :
  matching_globs WarnInputs.env_warn (warn_globs WarnInputs.env_warn)
    (ReportInputs.core_x "foo") = ["foo"; "f*"] ∧
  warn_filter WarnInputs.env_warn
    (init WarnInputs.fetcher_foo_bar false false) = Raise ValueError ∧
  value_of (pretty_format_sysupgrade WarnInputs.env_warn
              WarnInputs.fetcher_foo_bar false false) initial_world
  = Raise ValueError.
Proof. repeat split; by vm_compute. Qed.

(** ** The claims at concrete inputs *)

Lemma all_installed_foo_git (ttl : Z) :
  all_installed (ClassifierInputs.env_ttl ttl) [ClassifierInputs.foo_git_aur].
Proof.
  intros p ->%list_elem_of_singleton. by exists ClassifierInputs.foo_git_local.
Qed.

(** C6, as stated, fails: the padding before the size is empty when no
    size is shown, and two records of one call are laid out for two
    different widths when the terminal is resized in between. *)
Lemma empty_padding_and_width_per_record :
  padding_widths_of Inputs.env_by_repo Inputs.with_origin
    [Inputs.update_aur_b] initial_world = [(27, 14, 0)] ∧
  padding_widths_of Inputs.env_resized Inputs.with_origin
    [Inputs.update_aur_b; Inputs.update_aur_b] initial_world
  = [(32, 19, 0); (15, 2, 0)] ∧
  term_queries
    (world_after
       (pretty_format_upgradeable Inputs.env_resized Inputs.with_origin
          [Inputs.update_aur_b; Inputs.update_aur_b]) initial_world)
  = 2%nat.
Proof. repeat split; by vm_compute. Qed.

(** C4 at [foo-git], installed 10 days ago: with a time to live of 5 days
    the record with new version "devel" and age 10 is yielded; with -1
    nothing is. *)
Lemma devel_staleness_path_foo_git :
  (all_installed (ClassifierInputs.env_ttl 5) [ClassifierInputs.foo_git_aur] ∧
   ∃ updates,
     Updates.devel_updates_of (ClassifierInputs.env_ttl 5)
       [ClassifierInputs.foo_git_aur] = Ok updates ∧
     Updates.devel_install_info ClassifierInputs.foo_git_local
       ClassifierInputs.foo_git_aur 10 ∈ updates) ∧
  (all_installed (ClassifierInputs.env_ttl (-1))
     [ClassifierInputs.foo_git_aur] ∧
   Updates.devel_updates_of (ClassifierInputs.env_ttl (-1))
     [ClassifierInputs.foo_git_aur] = Ok []).
Proof.
  split; (split; [apply all_installed_foo_git|]).
  - destruct (devel_staleness_path (ClassifierInputs.env_ttl 5)
                [ClassifierInputs.foo_git_aur] (all_installed_foo_git 5))
      as (updates & Hrun & Hiff & _ & _).
    exists updates. split; [exact Hrun|].
    apply (Hiff ClassifierInputs.foo_git_aur ClassifierInputs.foo_git_local).
    + apply list_elem_of_singleton. reflexivity.
    + vm_compute. reflexivity.
    + vm_compute. reflexivity.
    + vm_compute. split; discriminate.
  - destruct (devel_staleness_path (ClassifierInputs.env_ttl (-1))
                [ClassifierInputs.foo_git_aur] (all_installed_foo_git (-1)))
      as (updates & Hrun & _ & _ & Hoff).
    rewrite Hrun. f_equal. apply Hoff. vm_compute. reflexivity.
Defined.

Lemma all_installed_devel_forced :
  all_installed ClassifierInputs.env_devel_forced
    (fst (find_aur_packages ClassifierInputs.env_devel_forced
            (find_packages_not_from_repo ClassifierInputs.env_devel_forced))).
Proof.
  change (all_installed ClassifierInputs.env_devel_forced
            [ClassifierInputs.foo_git_aur]).
  intros p ->%list_elem_of_singleton. by exists ClassifierInputs.foo_git_local.
Qed.

(** C3 (amended) at [foo-git 1.0], installed and in the AUR, with the
    development check forced: every record for it is the "devel" one. *)
Lemma equal_versions_only_devel_record_foo_git :
  all_installed ClassifierInputs.env_devel_forced
    (fst (find_aur_packages ClassifierInputs.env_devel_forced
            (find_packages_not_from_repo
               ClassifierInputs.env_devel_forced))) ∧
  ∃ updates not_found,
    value_of (Updates.find_aur_updates ClassifierInputs.env_devel_forced)
      initial_world = Ok (updates, not_found) ∧
    ∀ r, r ∈ updates →
         package r = Some (AurPkg ClassifierInputs.foo_git_aur) →
         new_version r = "devel" ∧ devel_pkg_age_days r = Some 10.
Proof.
  split; [apply all_installed_devel_forced|].
  destruct (equal_versions_only_devel_record
              ClassifierInputs.env_devel_forced initial_world
              all_installed_devel_forced) as (updates & nf & Hrun & Hrec).
  exists updates, nf. split; [exact Hrun|].
  intros r Hr Hpkg.
  destruct (Hrec ClassifierInputs.foo_git_aur ClassifierInputs.foo_git_local
              r eq_refl eq_refl Hr Hpkg) as (_ & Hnew & Hage & _).
  split; [exact Hnew|exact Hage].
Defined.

Lemma all_installed_ignore_flagged :
  all_installed ClassifierInputs.env_ignore_flagged
    (fst (find_aur_packages ClassifierInputs.env_ignore_flagged
            (find_packages_not_from_repo
               ClassifierInputs.env_ignore_flagged))).
Proof.
  change (all_installed ClassifierInputs.env_ignore_flagged
            [ClassifierInputs.bar_aur; ClassifierInputs.baz_aur]).
  intros p [->| ->%list_elem_of_singleton]%elem_of_cons.
  - by exists ClassifierInputs.bar_local.
  - by exists ClassifierInputs.baz_local.
Qed.

(** C7 at [bar 1.0 -> 1.1], flagged, and [baz 1.0 -> 1.1], not flagged,
    with flagged packages skipped: [bar] is left out with a notice and
    [baz] is among the updates. *)
Lemma flagged_updates_are_skipped_bar_baz :
  all_installed ClassifierInputs.env_ignore_flagged
    (fst (find_aur_packages ClassifierInputs.env_ignore_flagged
            (find_packages_not_from_repo
               ClassifierInputs.env_ignore_flagged))) ∧
  ∃ updates not_found,
    value_of (Updates.find_aur_updates ClassifierInputs.env_ignore_flagged)
      initial_world = Ok (updates, not_found) ∧
    Updates.AURInstallInfo "1.0" ClassifierInputs.baz_aur ∈ updates ∧
    (Updates.AURInstallInfo "1.0" ClassifierInputs.bar_aur ∉ updates) ∧
    (Warning "bar 1.1 AUR package marked as 'outofdate' - skipping")
      ∈ printed
          (world_after
             (Updates.find_aur_updates ClassifierInputs.env_ignore_flagged)
             initial_world).
Proof.
  split; [apply all_installed_ignore_flagged|].
  destruct (flagged_updates_are_skipped ClassifierInputs.env_ignore_flagged
              initial_world all_installed_ignore_flagged)
    as (updates & nf & Hrun & Hrec).
  exists updates, nf. split; [exact Hrun|].
  assert (Hin_bar : ClassifierInputs.bar_aur
                    ∈ [ClassifierInputs.bar_aur; ClassifierInputs.baz_aur])
    by left.
  assert (Hin_baz : ClassifierInputs.baz_aur
                    ∈ [ClassifierInputs.bar_aur; ClassifierInputs.baz_aur])
    by (right; left).
  assert (Hbar := Hrec ClassifierInputs.bar_aur ClassifierInputs.bar_local
                    Hin_bar eq_refl eq_refl).
  assert (Hbaz := Hrec ClassifierInputs.baz_aur ClassifierInputs.baz_local
                    Hin_baz eq_refl eq_refl).
  cbv zeta in Hbar, Hbaz.
  destruct Hbar as [Hnotice Hout].
  split; [exact Hbaz|]. split; [exact Hout|exact Hnotice].
Defined.

(** C10 at one update from [core] and two third-party replacements: the
    header of the two replacements is the singular one. *)
Lemma thirdparty_replacements_header_one_update :
  thirdparty_repo_replacements
    ReportInputs.formatter_one_update_two_replacements ≠ [] ∧
  (∀ singular plural n,
     translate_many ReportInputs.env_default singular plural n
     = if n =? 1 then singular else plural) ∧
  ∃ self' earlier listing,
    value_of (pformat_replacements ReportInputs.env_default
                ReportInputs.formatter_one_update_two_replacements)
      initial_world = Ok self' ∧
    length (thirdparty_repo_replacements self') = 2%nat ∧
    result self' =
      earlier
      ++ [(Py.nl
           +:+ ":: Third-party repository package suggested as a replacement:");
          listing].
Proof.
  split; [discriminate|]. split; [reflexivity|].
  destruct (thirdparty_replacements_header_counts_repo_updates
              ReportInputs.env_default
              ReportInputs.formatter_one_update_two_replacements
              initial_world ltac:(discriminate) ltac:(reflexivity))
    as (self' & earlier & listing & w1 & Hrun & Hlisted & _ & _ & Hone & _).
  exists self', earlier, listing. split; [exact Hrun|].
  split; [rewrite Hlisted; reflexivity|].
  apply Hone; [reflexivity|]. simpl. lia.
Defined.

(** * Further properties *)

(** ** The update classifier, errors and order *)

Lemma find_repo_upgradeable_loop_run (E : Env) (upgradeable : list AlpmPackage)
    (acc : list InstallInfo) :
  match List.find (not_installed E) (map alpm_name upgradeable) with
  | Some n =>
      Updates.find_repo_upgradeable_loop E upgradeable acc
      = Raise (KeyError n)
  | None =>
      ∃ records,
        Updates.find_repo_upgradeable_loop E upgradeable acc
        = Ok (acc ++ records) ∧
        Forall2 (λ repo_pkg r,
                   ∃ local_pkg,
                     local_dict E !! alpm_name repo_pkg = Some local_pkg ∧
                     r = Updates.RepoInstallInfo local_pkg repo_pkg)
                upgradeable records
  end.
Proof.
  revert acc. induction upgradeable as [|p ups IH]; intros acc.
  - simpl. exists []. by rewrite app_nil_r.
  - cbn [map List.find Updates.find_repo_upgradeable_loop].
    unfold not_installed at 1, Updates.local_lookup.
    destruct (local_dict E !! alpm_name p) as [lp|] eqn:Hlp; simpl; [|done].
    specialize (IH (acc ++ [Updates.RepoInstallInfo lp p])).
    destruct (List.find _ _); [done|].
    destruct IH as (records & -> & Hall).
    exists (Updates.RepoInstallInfo lp p :: records).
    rewrite <- (assoc_L (++)). split; [done|].
    constructor; [by exists lp|done].
Qed.

(** X1: [find_repo_upgradeable] raises [KeyError] for the first
    upgradeable package that is not in the local database; when all are
    installed it returns one record per upgradeable package, in the same
    order, built from the local and the repository package. *)
Theorem find_repo_upgradeable_records_or_key_error (E : Env) :
  match List.find (not_installed E)
          (map alpm_name (find_upgradeable_packages E)) with
  | Some n => Updates.find_repo_upgradeable E = Raise (KeyError n)
  | None =>
      ∃ records,
        Updates.find_repo_upgradeable E = Ok records ∧
        length records = length (find_upgradeable_packages E) ∧
        Forall2 (λ repo_pkg r,
                   ∃ local_pkg,
                     local_dict E !! alpm_name repo_pkg = Some local_pkg ∧
                     name r = lp_name local_pkg ∧
                     current_version r = lp_version local_pkg ∧
                     new_version r = alpm_version repo_pkg ∧
                     repository r = Some (alpm_db_name repo_pkg) ∧
                     package r = Some (RepoPkg repo_pkg))
                (find_upgradeable_packages E) records
  end.
Proof.
  unfold Updates.find_repo_upgradeable.
  pose proof (find_repo_upgradeable_loop_run E (find_upgradeable_packages E) [])
    as H.
  destruct (List.find _ _); [done|].
  destruct H as (records & -> & Hall). exists records.
  split; [done|]. split; [symmetry; by eapply Forall2_length|].
  eapply Forall2_impl; [exact Hall|].
  intros p r (lp & Hlp & ->). by exists lp.
Qed.

Lemma find_aur_devel_updates_loop_general (E : Env)
    (pkgs : list AURPackageInfo) (ttl : Z) (acc : list InstallInfo) :
  Updates.find_aur_devel_updates_loop E pkgs ttl acc
  = match List.find (λ n, Updates.is_devel_pkg n && not_installed E n)
            (map aur_name pkgs) with
    | Some n => Raise (KeyError n)
    | None => Ok (acc ++ omap (devel_update E ttl) pkgs)
    end.
Proof.
  revert acc. induction pkgs as [|p pkgs IH]; intros acc.
  - simpl. by rewrite app_nil_r.
  - cbn [map List.find Updates.find_aur_devel_updates_loop omap list_omap].
    destruct (Updates.is_devel_pkg (aur_name p)) eqn:Hd.
    + unfold Updates.local_lookup.
      destruct (local_dict E !! aur_name p) as [lp|] eqn:Hlp.
      * assert (Hni : not_installed E (aur_name p) = false)
          by (unfold not_installed; by rewrite Hlp).
        assert (Hdu : devel_update E ttl p
                      = if ttl <=? Updates.pkg_age_days E lp
                        then Some (Updates.devel_install_info lp p
                                     (Updates.pkg_age_days E lp))
                        else None)
          by (unfold devel_update; by rewrite Hd, Hlp).
        rewrite Hni, Hdu. cbn [negb andb res_bind].
        destruct (ttl <=? Updates.pkg_age_days E lp); rewrite IH;
          destruct (List.find _ _); by rewrite <- ?(assoc_L (++)).
      * assert (Hni : not_installed E (aur_name p) = true)
          by (unfold not_installed; by rewrite Hlp).
        by rewrite Hni.
    + assert (Hdu : devel_update E ttl p = None)
        by (unfold devel_update; by rewrite Hd).
      rewrite Hdu. cbn [negb andb]. apply IH.
Qed.

(** X2: [find_aur_devel_updates] looks up the development packages
    only, in the order of their names: it raises [KeyError] for the
    first development package in name order that is not installed,
    whatever the time to live, and never for a package that is not a
    development package. *)
Theorem find_aur_devel_updates_key_error (E : Env)
    (aur_pkgs_info : list AURPackageInfo) (package_ttl_days : Z) :
  let by_name :=
    Py.sorted (λ x y, String.leb (aur_name x) (aur_name y)) aur_pkgs_info in
  Updates.find_aur_devel_updates E aur_pkgs_info package_ttl_days
  = match List.find (λ n, Updates.is_devel_pkg n && not_installed E n)
            (map aur_name by_name) with
    | Some n => Raise (KeyError n)
    | None => Ok (omap (devel_update E package_ttl_days) by_name)
    end.
Proof.
  intros by_name. unfold Updates.find_aur_devel_updates.
  apply find_aur_devel_updates_loop_general.
Qed.

Lemma str_leb_total (a b : string) :
  String.leb a b = true ∨ String.leb b a = true.
Proof. apply String.leb_total. Qed.

Lemma str_leb_trans (a b c : string) :
  String.leb a b = true → String.leb b c = true → String.leb a c = true.
Proof. rewrite !str_leb_le. intros ??. by etrans. Qed.

Lemma omap_StronglySorted {A B} (R : A → A → Prop) (R' : B → B → Prop)
    (f : A → option B) (l : list A) :
  (∀ x y x' y', R x y → f x = Some x' → f y = Some y' → R' x' y') →
  StronglySorted R l → StronglySorted R' (omap f l).
Proof.
  intros HR. induction 1 as [|x l Hs IH Hall]; simpl; [constructor|].
  destruct (f x) as [x'|] eqn:Hx; [|done].
  constructor; [done|]. apply Forall_forall.
  intros y' (y & Hy & Hfy)%list_elem_of_omap.
  rewrite Forall_forall in Hall. eapply HR; eauto.
Qed.

Lemma omap_length_le {A B} (f : A → option B) (l : list A) :
  (length (omap f l) ≤ length l)%nat.
Proof.
  unfold omap. induction l as [|x l IH]; simpl; [done|].
  destruct (f x); simpl; lia.
Qed.

(** X3: the records [find_aur_devel_updates] returns are in ascending
    order of package name, whatever the order of its input; each is a
    development package with new version "devel", no repository and an
    age of at least the time to live, and there are no more of them
    than packages given. *)
Theorem find_aur_devel_updates_sorted (E : Env)
    (aur_pkgs_info : list AURPackageInfo) (package_ttl_days : Z)
    (aur_updates : list InstallInfo) :
  Updates.find_aur_devel_updates E aur_pkgs_info package_ttl_days
  = Ok aur_updates →
  StronglySorted (λ a b, String.le (name a) (name b)) aur_updates ∧
  Forall (λ r, Updates.is_devel_pkg (name r) = true ∧
               new_version r = "devel" ∧ repository r = None ∧
               ∃ age, devel_pkg_age_days r = Some age ∧
                      package_ttl_days ≤ age)
         aur_updates ∧
  (length aur_updates ≤ length aur_pkgs_info)%nat.
Proof.
  unfold Updates.find_aur_devel_updates.
  rewrite find_aur_devel_updates_loop_general. cbn [app].
  destruct (List.find _ _); [done|]. intros [= <-].
  split; [|split].
  - eapply omap_StronglySorted;
      [|apply (sorted_StronglySorted _
                 (λ x y, str_leb_total (aur_name x) (aur_name y))
                 (λ x y z, str_leb_trans (aur_name x) (aur_name y)
                             (aur_name z)))].
    intros x y x' y' Hxy (lx & _ & _ & _ & ->)%devel_update_Some
      (ly & _ & _ & _ & ->)%devel_update_Some.
    simpl. by apply str_leb_le.
  - apply Forall_forall.
    intros r (p & _ & (lp & _ & Hdev & Hage & ->)%devel_update_Some)
      %list_elem_of_omap.
    simpl. repeat split; [done|]. by eexists.
  - rewrite <- (Permutation_length (sorted_perm
                   (λ x y, String.leb (aur_name x) (aur_name y))
                   aur_pkgs_info)).
    apply omap_length_le.
Qed.

(** X3 at [zeta-git] and [alpha-git], given in that order: the record of
    [alpha-git] comes first. *)
Lemma find_aur_devel_updates_sorted_two :
  Updates.find_aur_devel_updates MoreInputs.env_two_devel
    [MoreInputs.devel_aur "zeta-git"; MoreInputs.devel_aur "alpha-git"] 5
  = Ok [Updates.devel_install_info (MoreInputs.installed "alpha-git")
          (MoreInputs.devel_aur "alpha-git") 10;
        Updates.devel_install_info (MoreInputs.installed "zeta-git")
          (MoreInputs.devel_aur "zeta-git") 10] ∧
  StronglySorted (λ a b, String.le (name a) (name b))
    [Updates.devel_install_info (MoreInputs.installed "alpha-git")
       (MoreInputs.devel_aur "alpha-git") 10;
     Updates.devel_install_info (MoreInputs.installed "zeta-git")
       (MoreInputs.devel_aur "zeta-git") 10].
Proof.
  assert (Hrun : Updates.find_aur_devel_updates MoreInputs.env_two_devel
                   [MoreInputs.devel_aur "zeta-git";
                    MoreInputs.devel_aur "alpha-git"] 5
                 = Ok [Updates.devel_install_info
                         (MoreInputs.installed "alpha-git")
                         (MoreInputs.devel_aur "alpha-git") 10;
                       Updates.devel_install_info
                         (MoreInputs.installed "zeta-git")
                         (MoreInputs.devel_aur "zeta-git") 10])
    by (vm_compute; reflexivity).
  split; [exact Hrun|].
  exact (proj1 (find_aur_devel_updates_sorted _ _ _ _ Hrun)).
Defined.

(** The loop of [find_aur_updates] without any assumption: it stops at
    the first package that is not installed, and all it prints are
    warnings. *)
Lemma find_aur_updates_loop_general (E : Env) (pkgs : list AURPackageInfo)
    (aur_updates : list InstallInfo)
    (aur_pkgs_up_to_date : list AURPackageInfo) (w : World) :
  ∃ notices,
    Forall (λ e, ∃ text, e = Warning text) notices ∧
    Updates.find_aur_updates_loop E pkgs aur_updates aur_pkgs_up_to_date w
    = (match List.find (not_installed E) (map aur_name pkgs) with
       | Some n => Raise (KeyError n)
       | None =>
           Ok (aur_updates ++ omap (version_update E) pkgs,
               aur_pkgs_up_to_date ++ List.filter (is_up_to_date E) pkgs)
       end,
       {| color_gen := color_gen w; term_queries := term_queries w;
          printed := printed w ++ notices |}).
Proof.
  revert aur_updates aur_pkgs_up_to_date w.
  induction pkgs as [|p pkgs IH]; intros ups utd w.
  - exists []. split; [constructor|]. simpl. rewrite !app_nil_r.
    by destruct w.
  - cbn [map List.find Updates.find_aur_updates_loop omap list_omap
           List.filter].
    unfold Updates.local_lookup.
    destruct (local_dict E !! aur_name p) as [lp|] eqn:Hlp.
    + assert (Hni : not_installed E (aur_name p) = false)
        by (unfold not_installed; by rewrite Hlp).
      assert (Hn : aur_is_newer E p
                   = (compare_versions E (lp_version lp) (aur_version p)
                      <? 0))
        by (unfold aur_is_newer; by rewrite Hlp).
      assert (Hv : version_update E p
                   = if aur_is_newer E p && negb (skips_outofdate E p)
                     then Some (Updates.AURInstallInfo (lp_version lp) p)
                     else None)
        by (unfold version_update; by rewrite Hlp).
      assert (Hu : is_up_to_date E p = negb (aur_is_newer E p))
        by (unfold is_up_to_date; by rewrite Hlp).
      rewrite Hni, Hv, Hu, Hn. unfold bind at 1, lift at 1. cbn iota beta.
      fold (skips_outofdate E p).
      destruct (compare_versions E (lp_version lp) (aur_version p) <? 0);
        cbn [andb negb].
      * destruct (skips_outofdate E p); cbn [andb negb].
        -- unfold bind at 1, print_ignoring_outofdate_upgrade,
             print_warning, print at 1. cbn iota beta.
           match goal with
           | |- context [Updates.find_aur_updates_loop E pkgs ups utd ?w1] =>
               destruct (IH ups utd w1) as (notices & Hall & ->)
           end.
           cbn [color_gen term_queries printed].
           eexists (Warning _ :: notices).
           split; [constructor; [by eexists|done]|].
           rewrite <- (assoc_L (++)). by destruct (List.find _ _).
        -- destruct (IH (ups ++ [Updates.AURInstallInfo (lp_version lp) p])
                       utd w) as (notices & Hall & ->).
           exists notices. split; [done|].
           destruct (List.find _ _); by rewrite <- ?(assoc_L (++)).
      * destruct (IH ups (utd ++ [p]) w) as (notices & Hall & ->).
        exists notices. split; [done|].
        destruct (List.find _ _); by rewrite <- ?(assoc_L (++)).
    + assert (Hni : not_installed E (aur_name p) = true)
        by (unfold not_installed; by rewrite Hlp).
      rewrite Hni. exists []. split; [constructor|].
      unfold bind, lift. rewrite app_nil_r. by destruct w.
Qed.

Lemma find_not_installed_None (E : Env) (pkgs : list AURPackageInfo) :
  List.find (not_installed E) (map aur_name pkgs) = None →
  all_installed E pkgs.
Proof.
  intros Hf p Hp.
  pose proof (find_none _ _ Hf (aur_name p)) as Hn.
  unfold not_installed in Hn.
  destruct (local_dict E !! aur_name p) as [lp|] eqn:Hlp; [by eexists|].
  exfalso. rewrite bool_decide_eq_true_2 in Hn by done.
  assert (true = false); [|done]. apply Hn.
  apply in_map. by apply list_elem_of_In.
Qed.

(** The whole of [find_aur_updates], for any local database. *)
Lemma find_aur_updates_general (E : Env) (w : World) :
  ∃ notices,
    Forall (λ e, ∃ text, e = Warning text) notices ∧
    Updates.find_aur_updates E w
    = (match List.find (not_installed E)
               (map aur_name
                  (find_aur_packages E (find_packages_not_from_repo E)).1)
       with
       | Some n => Raise (KeyError n)
       | None =>
           let answer :=
             find_aur_packages E (find_packages_not_from_repo E) in
           Ok (omap (version_update E) answer.1
               ++ (if -1 <? effective_ttl E
                   then omap (devel_update E (effective_ttl E))
                          (Py.sorted
                             (λ x y, String.leb (aur_name x) (aur_name y))
                             (List.filter (is_up_to_date E) answer.1))
                   else []),
               answer.2)
       end,
       {| color_gen := color_gen w; term_queries := term_queries w;
          printed :=
            printed w
            ++ Stderr (translate_many E "Reading AUR package info..."
                         "Reading AUR packages info..."
                         (Z.of_nat
                            (length (find_packages_not_from_repo E))))
               :: notices |}).
Proof.
  unfold Updates.find_aur_updates.
  destruct (find_aur_packages E (find_packages_not_from_repo E))
    as [pkgs nf] eqn:Hans.
  cbn [fst snd].
  unfold bind at 1, print_stderr, print at 1. cbn iota beta.
  unfold bind at 1.
  match goal with
  | |- context [Updates.find_aur_updates_loop E pkgs [] [] ?w1] =>
      destruct (find_aur_updates_loop_general E pkgs [] [] w1)
        as (notices & Hall & ->)
  end.
  cbn [color_gen term_queries printed].
  exists notices. split; [done|].
  rewrite <- (assoc_L (++)). cbn [app].
  destruct (List.find _ _) eqn:Hf; [done|].
  apply find_not_installed_None in Hf.
  unfold bind, lift. cbn [app].
  rewrite devel_updates_of_run by by apply all_installed_up_to_date.
  done.
Qed.

(** X4: [find_aur_updates] raises [KeyError] for the first package of
    the AUR answer that is not installed, and otherwise returns with the
    not-found names of the AUR answer unchanged; either way it writes
    the "Reading AUR package(s) info..." line to stderr, then warnings
    only, and neither asks the terminal nor touches the colours. *)
Theorem find_aur_updates_key_error_and_output (E : Env) (w : World) :
  let answer := find_aur_packages E (find_packages_not_from_repo E) in
  (match List.find (not_installed E) (map aur_name (fst answer)) with
   | Some n => value_of (Updates.find_aur_updates E) w = Raise (KeyError n)
   | None =>
       ∃ aur_updates,
         value_of (Updates.find_aur_updates E) w
         = Ok (aur_updates, snd answer)
   end) ∧
  ∃ notices,
    Forall (λ e, ∃ text, e = Warning text) notices ∧
    world_after (Updates.find_aur_updates E) w
    = {| color_gen := color_gen w; term_queries := term_queries w;
         printed :=
           printed w
           ++ Stderr (translate_many E "Reading AUR package info..."
                        "Reading AUR packages info..."
                        (Z.of_nat (length (find_packages_not_from_repo E))))
              :: notices |}.
Proof.
  intros answer. unfold value_of, world_after.
  destruct (find_aur_updates_general E w) as (notices & Hall & ->).
  fold answer. cbn [fst snd]. split.
  - destruct (List.find _ _); [done|by eexists].
  - by exists notices.
Qed.

(** ** Listings without colours *)

Lemma world_with_0_nil (w : World) : world_with w 0 [] = w.
Proof.
  unfold world_with. rewrite Nat.add_0_r, app_nil_r. by destruct w.
Qed.

(** Without colours, or with neither the repository shown nor the
    verbose mode, the displayed name needs no colour of the generator. *)
Lemma pkg_name_pure (E : Env) (o : Options) (p : InstallInfo) :
  color o = false ∨ (print_repo o = false ∧ verbose o = false) →
  ∃ s, ∀ w, pkg_name E o p w = (Ok s, w).
Proof.
  intros Ho. unfold pkg_name, pretty_format_repo_name.
  destruct Ho as [-> | [-> ->]]; cbn [negb orb andb].
  - destruct (_ && _); [|destruct (print_repo o)]; by eexists.
  - by eexists.
Qed.

Lemma pretty_format_pure (E : Env) (o : Options) (p : InstallInfo)
    (w : World) :
  color o = false ∨ (print_repo o = false ∧ verbose o = false) →
  ∃ line,
    pretty_format E o p w
    = (Ok (line, sort_by E p),
       {| color_gen := color_gen w; term_queries := S (term_queries w);
          printed := printed w |}).
Proof.
  intros Ho. destruct (pkg_name_pure E o p Ho) as (s & Hs).
  unfold pretty_format, pretty_format_fields, bind, get_term_width.
  rewrite Hs. by eexists.
Qed.

Lemma mapM_pretty_format_pure (E : Env) (o : Options) (l : list InstallInfo)
    (w : World) :
  color o = false ∨ (print_repo o = false ∧ verbose o = false) →
  ∃ lines,
    mapM (pretty_format E o) l w = (Ok lines, world_with w (length l) []).
Proof.
  intros Ho. revert w. induction l as [|p l IH]; intros w.
  - exists []. by rewrite world_with_0_nil.
  - cbn [mapM]. unfold bind at 1.
    destruct (pretty_format_pure E o p w Ho) as (line & ->).
    unfold bind at 1.
    destruct (IH {| color_gen := color_gen w;
                    term_queries := S (term_queries w);
                    printed := printed w |}) as (lines & ->).
    eexists. unfold ret, world_with. cbn. do 3 f_equal. lia.
Qed.

Lemma pretty_format_upgradeable_pure (E : Env) (o : Options)
    (l : list InstallInfo) (w : World) :
  color o = false ∨ (print_repo o = false ∧ verbose o = false) →
  ∃ text,
    pretty_format_upgradeable E o l w
    = (Ok text, world_with w (length l) []).
Proof.
  intros Ho. unfold pretty_format_upgradeable, ranked_upgradeable, bind.
  destruct (mapM_pretty_format_pure E o l w Ho) as (lines & ->).
  by eexists.
Qed.

Lemma pretty_format_plain (E : Env) (cl : string → Z → bool → string)
    (bl : string → string) (o : Options) (p : InstallInfo) :
  color o = false →
  pretty_format (with_colors E cl bl) o p = pretty_format E o p.
Proof. destruct o as [v pr c t]. simpl. by intros ->. Qed.

Lemma mapM_ext {A B} (f g : A → M B) (l : list A) :
  (∀ a, f a = g a) → mapM f l = mapM g l.
Proof.
  intros Hfg. induction l as [|a l IH]; [done|].
  cbn [mapM]. by rewrite Hfg, IH.
Qed.

Lemma pretty_format_upgradeable_plain (E : Env)
    (cl : string → Z → bool → string) (bl : string → string) (o : Options)
    (l : list InstallInfo) :
  color o = false →
  pretty_format_upgradeable (with_colors E cl bl) o l
  = pretty_format_upgradeable E o l.
Proof.
  intros Ho. unfold pretty_format_upgradeable, ranked_upgradeable.
  by rewrite (mapM_ext _ _ _ (λ p, pretty_format_plain E cl bl o p Ho)).
Qed.

(** X5: a listing made without colours contains no colour code and
    leaves the colour generator alone: it is the same whatever
    [color_line] and [bold_line] are, it returns, and all it does to
    the state is to ask the terminal width once per record. *)
Theorem listing_without_colors (E : Env) (cl : string → Z → bool → string)
    (bl : string → string) (v pr : bool) (t : option (Fields → string))
    (updates : list InstallInfo) (w : World) :
  let o := {| verbose := v; print_repo := pr; color := false;
              template := t |} in
  pretty_format_upgradeable (with_colors E cl bl) o updates w
  = pretty_format_upgradeable E o updates w ∧
  ∃ text,
    pretty_format_upgradeable E o updates w
    = (Ok text, world_with w (length updates) []).
Proof.
  intros o. split.
  - by rewrite pretty_format_upgradeable_plain.
  - apply pretty_format_upgradeable_pure. by left.
Qed.

(** ** The sysupgrade report, section by section *)

Lemma append_result_app (self : Formatter) (l1 l2 : list string) :
  append_result (append_result self l1) l2 = append_result self (l1 ++ l2).
Proof. unfold append_result. cbn. by rewrite <- (assoc_L (++)). Qed.

Lemma append_result_nil (self : Formatter) : append_result self [] = self.
Proof. destruct self. unfold append_result. cbn. by rewrite app_nil_r. Qed.

Lemma asks_ret {A} (a : A) (w : World) (post : A → Prop) :
  post a → asks (ret a) w 0 post.
Proof.
  intros Ha. exists a, (color_gen w). split; [|done].
  unfold ret. rewrite Nat.add_0_r. by destruct w.
Qed.

Lemma asks_bind {A B} (m : M A) (k : A → M B) (w : World) (n1 n2 : nat)
    (P : A → Prop) (Q : B → Prop) :
  asks m w n1 P →
  (∀ a w1, P a → term_queries w1 = (term_queries w + n1)%nat →
           printed w1 = printed w → asks (k a) w1 n2 Q) →
  asks (let* x := m in k x) w (n1 + n2) Q.
Proof.
  intros (a & g & Hm & Ha) Hk. unfold asks, bind. rewrite Hm.
  destruct (Hk a {| color_gen := g;
                    term_queries := (term_queries w + n1)%nat;
                    printed := printed w |} Ha eq_refl eq_refl)
    as (b & g' & -> & Hb).
  exists b, g'. split; [|done]. cbn. by rewrite Nat.add_assoc.
Qed.

Lemma asks_weaken {A} (m : M A) (w : World) (n n' : nat)
    (P Q : A → Prop) :
  n = n' → (∀ a, P a → Q a) → asks m w n P → asks m w n' Q.
Proof. intros <- HPQ (a & g & Hm & Ha). exists a, g. auto. Qed.

Lemma self_pretty_format_upgradeable_asks (E : Env) (self : Formatter)
    (l : list InstallInfo) (print_repo : option bool) (w : World) :
  asks (self_pretty_format_upgradeable E self l print_repo) w (length l)
    (λ _, True).
Proof.
  unfold self_pretty_format_upgradeable.
  match goal with
  | |- context [pretty_format_upgradeable E ?o l] =>
      destruct (pretty_format_upgradeable_run E o l w) as (text & g & H)
  end.
  by exists text, g.
Qed.

(** A section that is skipped when its list is empty: two entries are
    appended to the result otherwise. *)
Lemma opt_section_asks (E : Env) (self : Formatter) (mark_color : Z)
    (singular plural : string) (counted listed : list InstallInfo)
    (print_repo : option bool) (w : World) :
  asks (if Py.truthy_list listed
        then section E self mark_color singular plural counted listed
               print_repo
        else ret self) w (length listed)
    (λ self', ∃ lines,
       self' = append_result self lines ∧
       length lines = (2 * Nat.b2n (Py.truthy_list listed))%nat).
Proof.
  destruct listed as [|p listed].
  - cbn [Py.truthy_list length]. apply asks_ret.
    exists []. by rewrite append_result_nil.
  - cbn [Py.truthy_list]. unfold section.
    rewrite <- (Nat.add_0_r (length (p :: listed))).
    eapply asks_bind;
      [apply self_pretty_format_upgradeable_asks|].
    intros text w1 _ _ _. apply asks_ret. by eexists [_; text].
Qed.

(** Two such sections in a row, the second reading its lists from the
    formatter the first one left. *)
Lemma two_sections_asks (E : Env) (self : Formatter) (w : World)
    (mc1 mc2 : Z) (s1 p1 s2 p2 : string)
    (c1 l1 : list InstallInfo) (pr1 pr2 : option bool)
    (c2 l2 : Formatter → list InstallInfo) :
  (∀ lines, l2 (append_result self lines) = l2 self) →
  asks (let* self :=
          if Py.truthy_list l1
          then section E self mc1 s1 p1 c1 l1 pr1
          else ret self in
        if Py.truthy_list (l2 self)
        then section E self mc2 s2 p2 (c2 self) (l2 self) pr2
        else ret self) w (length l1 + length (l2 self))
    (λ self', ∃ lines,
       self' = append_result self lines ∧
       length lines
       = (2 * Nat.b2n (Py.truthy_list l1)
          + 2 * Nat.b2n (Py.truthy_list (l2 self)))%nat).
Proof.
  intros Hl2. eapply asks_bind; [apply opt_section_asks|].
  intros self1 w1 (lines1 & -> & Hlen1) _ _. cbn beta.
  rewrite Hl2.
  eapply asks_weaken; [reflexivity| |apply opt_section_asks].
  intros self2 (lines2 & -> & Hlen2). exists (lines1 ++ lines2).
  rewrite append_result_app, length_app. split; [done|lia].
Qed.

Lemma appends_bind (f g : Formatter → M Formatter)
    (n1 k1 n2 k2 : Formatter → nat) :
  appends f n1 k1 → appends g n2 k2 → result_free n2 → result_free k2 →
  appends (λ self, let* s := f self in g s)
    (λ self, (n1 self + n2 self)%nat) (λ self, (k1 self + k2 self)%nat).
Proof.
  intros Hf Hg Hn2 Hk2 self w. cbn beta.
  eapply asks_bind; [apply Hf|].
  intros s w1 (lines1 & -> & Hlen1) _ _.
  eapply asks_weaken; [apply Hn2| |apply Hg].
  intros s2 (lines2 & -> & Hlen2). exists (lines1 ++ lines2).
  rewrite append_result_app, length_app, Hlen1, Hlen2, Hk2. done.
Qed.

Lemma pformat_replacements_appends (E : Env) :
  appends (pformat_replacements E)
    (λ self, (length (repo_replacements self)
              + length (thirdparty_repo_replacements self))%nat)
    (λ self, (2 * Nat.b2n (Py.truthy_list (repo_replacements self))
              + 2 * Nat.b2n (Py.truthy_list
                               (thirdparty_repo_replacements self)))%nat).
Proof.
  intros self w. unfold pformat_replacements.
  by apply (two_sections_asks E self w _ _ _ _ _ _ _ _ _ _
              repo_packages_updates thirdparty_repo_replacements).
Qed.

Lemma pformat_repo_appends (E : Env) :
  appends (pformat_repo E)
    (λ self, (length (repo_packages_updates self)
              + length (new_repo_deps self))%nat)
    (λ self, (2 * Nat.b2n (Py.truthy_list (repo_packages_updates self))
              + 2 * Nat.b2n (Py.truthy_list (new_repo_deps self)))%nat).
Proof.
  intros self w. unfold pformat_repo.
  by apply (two_sections_asks E self w _ _ _ _ _ _ _ _ _ _
              new_repo_deps new_repo_deps).
Qed.

Lemma pformat_thirdaprty_repo_appends (E : Env) :
  appends (pformat_thirdaprty_repo E)
    (λ self, (length (thirdparty_repo_packages_updates self)
              + length (new_thirdparty_repo_deps self))%nat)
    (λ self, (2 * Nat.b2n (Py.truthy_list
                             (thirdparty_repo_packages_updates self))
              + 2 * Nat.b2n (Py.truthy_list
                               (new_thirdparty_repo_deps self)))%nat).
Proof.
  intros self w. unfold pformat_thirdaprty_repo.
  by apply (two_sections_asks E self w _ _ _ _ _ _ _ _ _ _
              new_thirdparty_repo_deps new_thirdparty_repo_deps).
Qed.

Lemma pformat_aur_appends (E : Env) :
  appends (pformat_aur E)
    (λ self, (length (aur_updates self) + length (new_aur_deps self))%nat)
    (λ self, (2 * Nat.b2n (Py.truthy_list (aur_updates self))
              + 2 * Nat.b2n (Py.truthy_list (new_aur_deps self)))%nat).
Proof.
  intros self w. unfold pformat_aur.
  by apply (two_sections_asks E self w _ _ _ _ _ _ _ _ _ _
              new_aur_deps new_aur_deps).
Qed.

Lemma pformat_total_size_appends (E : Env) :
  appends (λ self, ret (pformat_total_size E self)) (λ _, 0%nat)
    (λ _, 1%nat).
Proof.
  intros self w. apply asks_ret. unfold pformat_total_size.
  destruct (sync_ShowDownloadSize (config E)); by eexists [_].
Qed.

(** The sections after the warned one. *)
Lemma sections_appends (E : Env) :
  appends
    (λ self,
       let* self := pformat_replacements E self in
       let* self := pformat_repo E self in
       let* self := pformat_thirdaprty_repo E self in
       let* self := pformat_aur E self in
       ret (pformat_total_size E self))
    (λ self,
       (length (repo_replacements self)
        + length (thirdparty_repo_replacements self)
        + (length (repo_packages_updates self)
           + length (new_repo_deps self)
           + (length (thirdparty_repo_packages_updates self)
              + length (new_thirdparty_repo_deps self)
              + (length (aur_updates self) + length (new_aur_deps self)
                 + 0))))%nat)
    (λ self,
       (2 * Nat.b2n (Py.truthy_list (repo_replacements self))
        + 2 * Nat.b2n (Py.truthy_list (thirdparty_repo_replacements self))
        + (2 * Nat.b2n (Py.truthy_list (repo_packages_updates self))
           + 2 * Nat.b2n (Py.truthy_list (new_repo_deps self))
           + (2 * Nat.b2n (Py.truthy_list
                             (thirdparty_repo_packages_updates self))
              + 2 * Nat.b2n (Py.truthy_list
                               (new_thirdparty_repo_deps self))
              + (2 * Nat.b2n (Py.truthy_list (aur_updates self))
                 + 2 * Nat.b2n (Py.truthy_list (new_aur_deps self))
                 + 1))))%nat).
Proof.
  apply (appends_bind (pformat_replacements E)); [|
    apply (appends_bind (pformat_repo E)); [|
      apply (appends_bind (pformat_thirdaprty_repo E)); [|
        apply (appends_bind (pformat_aur E)); [|
          apply pformat_total_size_appends|..]|..]|..]|..];
    first [apply pformat_replacements_appends
          |apply pformat_repo_appends
          |apply pformat_thirdaprty_repo_appends
          |apply pformat_aur_appends
          |by intros self lines].
Qed.

Lemma filter_partition_length {A} (f : A → bool) (l : list A) :
  (length (List.filter f l) + length (List.filter (λ x, negb (f x)) l)
   = length l)%nat.
Proof.
  induction l as [|x l IH]; [done|]. cbn [List.filter].
  destruct (f x); cbn [negb length]; lia.
Qed.

Lemma concat_filter_partition_length {A} (f : A → bool)
    (ls : list (list A)) :
  (length (concat (map (List.filter f) ls))
   + length (concat (map (List.filter (λ x, negb (f x))) ls))
   = length (concat ls))%nat.
Proof.
  induction ls as [|l ls IH]; [done|]. cbn [map concat].
  rewrite !length_app. pose proof (filter_partition_length f l). lia.
Qed.

Lemma filter_cons_length {A} (f : A → bool) (x : A) (l : list A) :
  length (List.filter f (x :: l))
  = (Nat.b2n (f x) + length (List.filter f l))%nat.
Proof. cbn [List.filter]. by destruct (f x). Qed.

(** The warned section, when the warn filter returns. *)
Lemma pformat_warned_packages_asks (E : Env) (self self1 : Formatter)
    (warned : list InstallInfo) (w : World) :
  warn_filter E self = Ok (self1, warned) →
  asks (pformat_warned_packages E self) w (length warned)
    (λ self', ∃ lines,
       self' = append_result self1 lines ∧
       length lines = (2 * Nat.b2n (Py.truthy_list warned))%nat).
Proof.
  intros Hf. unfold pformat_warned_packages.
  rewrite <- (Nat.add_0_l (length warned)).
  eapply (asks_bind _ _ _ _ _ (λ x, x = (self1, warned))).
  { exists (self1, warned), (color_gen w).
    split; [|reflexivity]. unfold lift. rewrite Hf, Nat.add_0_r.
    by destruct w. }
  intros x w1 -> _ _. clear Hf.
  destruct warned as [|p wl].
  - cbn [Py.truthy_list length]. apply asks_ret.
    exists []. by rewrite append_result_nil.
  - cbn [Py.truthy_list]. rewrite <- (Nat.add_0_r (length (p :: wl))).
    eapply asks_bind; [apply self_pretty_format_upgradeable_asks|].
    intros text w2 _ _ _. apply asks_ret. by eexists [_; text].
Qed.

Lemma call_via_call_steps (E : Env) (self : Formatter) (w : World) :
  call E self w
  = (let* self := call_steps E self in ret (Py.join Py.nl (result self))) w.
Proof.
  unfold call, call_steps, bind, ret.
  destruct (pformat_warned_packages E self w) as [[s1|e] w1]; [|done].
  destruct (pformat_replacements E s1 w1) as [[s2|e] w2]; [|done].
  destruct (pformat_repo E s2 w2) as [[s3|e] w3]; [|done].
  destruct (pformat_thirdaprty_repo E s3 w3) as [[s4|e] w4]; [|done].
  by destruct (pformat_aur E s4 w4) as [[s5|e] w5].
Qed.

(** The whole report, when the warn filter returns: one query per
    record left in the lists or warned about, one entry for the totals
    and two for each section. *)
Lemma call_steps_asks (E : Env) (self self1 : Formatter)
    (warned : list InstallInfo) (w : World) :
  warn_filter E self = Ok (self1, warned) →
  asks (call_steps E self) w
    (length warned + length (concat (all_install_info_lists self1)))
    (λ self', length (result self')
              = (length (result self1)
                 + 2 * (Nat.b2n (Py.truthy_list warned)
                        + length (List.filter Py.truthy_list
                                    (all_install_info_lists self1)))
                 + 1)%nat).
Proof.
  intros Hf.
  destruct (pformat_warned_packages_asks E self self1 warned w Hf)
    as (s0 & g0 & Hrun0 & lines0 & -> & Hlen0).
  destruct (sections_appends E (append_result self1 lines0)
              {| color_gen := g0;
                 term_queries := (term_queries w + length warned)%nat;
                 printed := printed w |})
    as (s1 & g1 & Hrun1 & lines1 & -> & Hlen1).
  cbn beta in Hrun1, Hlen1.
  cbn [term_queries printed repo_replacements thirdparty_repo_replacements
         repo_packages_updates new_repo_deps
         thirdparty_repo_packages_updates new_thirdparty_repo_deps
         aur_updates new_aur_deps append_result] in Hrun1, Hlen1.
  eexists _, g1. split.
  - unfold call_steps, bind at 1. rewrite Hrun0. cbn iota beta.
    rewrite Hrun1. do 2 f_equal.
    cbn [all_install_info_lists concat]. rewrite !length_app.
    cbn [length]. lia.
  - cbn [result append_result]. rewrite !length_app, Hlen0, Hlen1.
    unfold all_install_info_lists. rewrite !filter_cons_length.
    cbn [List.filter length]. lia.
Qed.

Lemma at_most_one_glob_check (E : Env) (self : Formatter) :
  forallb (forallb (λ p, (length (matching_globs E (warn_globs E) p)
                          <=? 1)%nat))
    (all_install_info_lists self) = true →
  at_most_one_glob E self.
Proof.
  intros Hall l p Hl Hp.
  rewrite forallb_forall in Hall.
  apply list_elem_of_In, Hall in Hl. rewrite forallb_forall in Hl.
  apply list_elem_of_In, Hl in Hp. by apply Nat.leb_le in Hp.
Qed.

(** X6: when no record matches more than one of the warn globs, the
    sysupgrade report returns and prints nothing; it formats each
    record of the eight lists exactly once (one terminal query per
    record), and its result gets two entries, a header and a listing,
    for the warned records if there are any and for each list that is
    left non-empty, and one entry for the totals. *)
Theorem report_formats_each_record_once (E : Env) (self : Formatter)
    (w : World) :
  at_most_one_glob E self →
  ∃ self' g,
    call_steps E self w
    = (Ok self',
       {| color_gen := g;
          term_queries := (term_queries w + total_records self)%nat;
          printed := printed w |}) ∧
    call E self w
    = (Ok (Py.join Py.nl (result self')),
       {| color_gen := g;
          term_queries := (term_queries w + total_records self)%nat;
          printed := printed w |}) ∧
    length (result self')
    = (length (result self) + 2 * sections E self + 1)%nat.
Proof.
  intros Hone.
  destruct (warn_filter_at_most_one_glob E self Hone)
    as (self1 & Hf & Hlists & Hres & _).
  destruct (call_steps_asks E self self1 _ w Hf)
    as (self' & g & Hrun & Hlen).
  assert (Hn : (length (concat
                          (map (List.filter (is_warned E (warn_globs E)))
                             (all_install_info_lists self)))
                + length (concat (all_install_info_lists self1)))%nat
               = total_records self).
  { rewrite Hlists. apply concat_filter_partition_length. }
  rewrite Hn in Hrun. exists self', g. split; [exact Hrun|]. split.
  - rewrite call_via_call_steps. unfold bind. by rewrite Hrun.
  - rewrite Hlen, Hres, Hlists. done.
Qed.

(** X6 at the updates of [foo] and [bar] with the glob [f*]: two
    records, a warned section and a repository section. *)
Lemma report_formats_each_record_once_foo_bar :
  at_most_one_glob MoreInputs.env_warn_f MoreInputs.formatter_foo_bar ∧
  total_records MoreInputs.formatter_foo_bar = 2%nat ∧
  sections MoreInputs.env_warn_f MoreInputs.formatter_foo_bar = 2%nat ∧
  ∃ self' g,
    call_steps MoreInputs.env_warn_f MoreInputs.formatter_foo_bar
      initial_world
    = (Ok self',
       {| color_gen := g;
          term_queries :=
            (0 + total_records MoreInputs.formatter_foo_bar)%nat;
          printed := [] |}) ∧
    call MoreInputs.env_warn_f MoreInputs.formatter_foo_bar initial_world
    = (Ok (Py.join Py.nl (result self')),
       {| color_gen := g;
          term_queries :=
            (0 + total_records MoreInputs.formatter_foo_bar)%nat;
          printed := [] |}) ∧
    length (result self')
    = (0 + 2 * sections MoreInputs.env_warn_f MoreInputs.formatter_foo_bar
       + 1)%nat.
Proof.
  assert (Hone : at_most_one_glob MoreInputs.env_warn_f
                   MoreInputs.formatter_foo_bar)
    by (apply at_most_one_glob_check; vm_compute; reflexivity).
  split; [exact Hone|]. split; [vm_compute; reflexivity|].
  split; [vm_compute; reflexivity|].
  exact (report_formats_each_record_once MoreInputs.env_warn_f
           MoreInputs.formatter_foo_bar initial_world Hone).
Defined.

(** X7: with nothing to install the report is the totals alone, the
    empty text when the sizes are not shown, whatever the warn globs
    are; the state is left as it was. *)
Theorem empty_report_is_totals (E : Env) (download_size installed_size : string)
    (verbose manual_package_selection : bool) (w : World) :
  pretty_format_sysupgrade E (empty_fetcher download_size installed_size)
    verbose manual_package_selection w
  = (Ok (if sync_ShowDownloadSize (config E)
         then Py.nl
              +:+ (if manual_package_selection
                   then translate E "Total Download Size:"
                   else bold_line E (translate E "Total Download Size:"))
              +:+ Py.rjust download_size 10 +:+ " MiB" +:+ Py.nl
              +:+ (if manual_package_selection
                   then translate E "Total Installed Size:"
                   else bold_line E (translate E "Total Installed Size:"))
              +:+ Py.rjust installed_size 9 +:+ " MiB" +:+ Py.nl
         else ""), w).
Proof.
  unfold pretty_format_sysupgrade, call, pformat_warned_packages,
    warn_filter, init, empty_fetcher.
  destruct manual_package_selection;
    destruct (Py.truthy_str (ui_WarnAboutPackageUpdates (config E)));
    cbn; unfold pformat_total_size;
    destruct (sync_ShowDownloadSize (config E)); reflexivity.
Qed.

(** ** The report of a manual package selection *)

Lemma bind_ret_run {A B} (m' m : M A) (f' f : A → B) (w : World) :
  m' w = m w →
  (∀ a w', m w = (Ok a, w') → f' a = f a) →
  (let* s := m' in ret (f' s)) w = (let* s := m in ret (f s)) w ∧
  snd ((let* s := m in ret (f s)) w) = snd (m w).
Proof.
  intros Hm Hf. unfold bind. rewrite Hm.
  destruct (m w) as [[a|e] w'] eqn:Hr; [|done].
  unfold ret. by rewrite (Hf a w' eq_refl).
Qed.

Section Colorless.
Context (E : Env) (cl : string → Z → bool → string) (bl : string → string).

Lemma colorless_bind (f g : Env → Formatter → M Formatter) :
  colorless E cl bl f → colorless E cl bl g →
  colorless E cl bl (λ E self, let* s := f E self in g E s).
Proof.
  intros Hf Hg self w Hc. destruct (Hf self w Hc) as (Heq & Hgen & Hs).
  unfold bind. rewrite Heq.
  destruct (f E self w) as [[s1|e] w1]; cbn [fst snd] in *; [|done].
  destruct (Hg s1 w1 (Hs s1 eq_refl)) as (Heq2 & Hgen2 & Hs2).
  rewrite Heq2. split; [done|]. split; [congruence|done].
Qed.

Lemma section_colorless (self : Formatter) (mark_color : Z)
    (singular plural : string) (counted listed : list InstallInfo)
    (print_repo : option bool) (w : World) :
  self_color self = false →
  section (with_colors E cl bl) self mark_color singular plural counted
    listed print_repo w
  = section E self mark_color singular plural counted listed print_repo w ∧
  ∃ lines,
    section E self mark_color singular plural counted listed print_repo w
    = (Ok (append_result self lines), world_with w (length listed) []).
Proof.
  intros Hc.
  unfold section, self__color_line, self__bold_line,
    self_pretty_format_upgradeable.
  rewrite Hc. cbn [with_colors translate_many config].
  rewrite pretty_format_upgradeable_plain by done.
  split; [done|]. unfold bind.
  match goal with
  | |- context [pretty_format_upgradeable E ?o listed w] =>
      destruct (pretty_format_upgradeable_pure E o listed w
                  (or_introl eq_refl)) as (text & ->)
  end.
  by eexists.
Qed.

Lemma opt_section_colorless (mark_color : Env → Z)
    (singular plural : string) (counted listed : Formatter → list InstallInfo)
    (print_repo : option bool) :
  mark_color (with_colors E cl bl) = mark_color E →
  colorless E cl bl
    (λ E self,
       if Py.truthy_list (listed self)
       then section E self (mark_color E) singular plural (counted self)
              (listed self) print_repo
       else ret self).
Proof.
  intros Hmc self w Hc. cbn beta. rewrite Hmc.
  destruct (Py.truthy_list (listed self));
    [|split; [done|]; split; [done|]; by intros self' [= <-]].
  destruct (section_colorless self (mark_color E) singular plural
              (counted self) (listed self) print_repo w Hc)
    as (-> & lines & ->).
  cbn [fst snd world_with color_gen]. split; [done|]. split; [done|].
  by intros self' [= <-].
Qed.

Lemma pformat_replacements_colorless :
  colorless E cl bl pformat_replacements.
Proof.
  exact (colorless_bind _ _
           (opt_section_colorless ColorsHighlight_blue _ _
              repo_replacements repo_replacements None eq_refl)
           (opt_section_colorless ColorsHighlight_blue _ _
              repo_packages_updates thirdparty_repo_replacements None
              eq_refl)).
Qed.

Lemma pformat_repo_colorless : colorless E cl bl pformat_repo.
Proof.
  exact (colorless_bind _ _
           (opt_section_colorless ColorsHighlight_blue _ _
              repo_packages_updates repo_packages_updates None eq_refl)
           (opt_section_colorless ColorsHighlight_yellow _ _
              new_repo_deps new_repo_deps None eq_refl)).
Qed.

Lemma pformat_thirdaprty_repo_colorless :
  colorless E cl bl pformat_thirdaprty_repo.
Proof.
  exact (colorless_bind _ _
           (opt_section_colorless ColorsHighlight_blue _ _
              thirdparty_repo_packages_updates
              thirdparty_repo_packages_updates (Some true) eq_refl)
           (opt_section_colorless ColorsHighlight_yellow _ _
              new_thirdparty_repo_deps new_thirdparty_repo_deps None
              eq_refl)).
Qed.

Lemma pformat_aur_colorless : colorless E cl bl pformat_aur.
Proof.
  exact (colorless_bind _ _
           (opt_section_colorless ColorsHighlight_cyan _ _
              aur_updates aur_updates (Some false) eq_refl)
           (opt_section_colorless ColorsHighlight_yellow _ _
              new_aur_deps new_aur_deps (Some false) eq_refl)).
Qed.

Lemma remove_globs_of_pkg_colors (globs : list string) (pkg : InstallInfo)
    (st : list InstallInfo * list InstallInfo) :
  remove_globs_of_pkg (with_colors E cl bl) globs pkg st
  = remove_globs_of_pkg E globs pkg st.
Proof.
  revert st. induction globs as [|g globs IH]; intros st; [done|].
  cbn [remove_globs_of_pkg with_colors fnmatch].
  destruct (fnmatch E (name pkg) g); [|apply IH].
  destruct (Py.list_remove pkg st.1); cbn [res_bind]; [apply IH|done].
Qed.

Lemma remove_globs_loop_colors (globs : list string)
    (copy : list InstallInfo) (st : list InstallInfo * list InstallInfo) :
  remove_globs_loop (with_colors E cl bl) globs copy st
  = remove_globs_loop E globs copy st.
Proof.
  revert st. induction copy as [|p copy IH]; intros st; [done|].
  cbn [remove_globs_loop]. rewrite remove_globs_of_pkg_colors.
  destruct (remove_globs_of_pkg E globs p st); cbn [res_bind];
    [apply IH|done].
Qed.

Lemma remove_globs_from_lists_colors (globs : list string)
    (lists : list (list InstallInfo)) (warn : list InstallInfo) :
  remove_globs_from_lists (with_colors E cl bl) globs lists warn
  = remove_globs_from_lists E globs lists warn.
Proof.
  revert warn. induction lists as [|l lists IH]; intros warn; [done|].
  cbn [remove_globs_from_lists]. unfold remove_globs_from_pkg_list.
  rewrite remove_globs_loop_colors.
  destruct (remove_globs_loop E globs l (l, warn)); cbn [res_bind];
    [|done].
  by rewrite IH.
Qed.

Lemma warn_filter_colors (self : Formatter) :
  warn_filter (with_colors E cl bl) self = warn_filter E self.
Proof.
  unfold warn_filter. cbn [with_colors config].
  destruct (Py.truthy_str _); [|done].
  by rewrite remove_globs_from_lists_colors.
Qed.

Lemma warn_filter_self_color (self self1 : Formatter)
    (warned : list InstallInfo) :
  warn_filter E self = Ok (self1, warned) →
  self_color self1 = self_color self.
Proof.
  unfold warn_filter. destruct (Py.truthy_str _); [|by intros [= <- _]].
  destruct (remove_globs_from_lists _ _ _ _) as [[ls wl]|e];
    cbn [res_bind fst snd]; [|done].
  intros [= <- _]. unfold set_install_info_lists.
  by repeat (destruct ls as [|? ls]; try done).
Qed.

Lemma pformat_warned_packages_colorless :
  colorless E cl bl pformat_warned_packages.
Proof.
  intros self w Hc. unfold pformat_warned_packages, bind, lift.
  rewrite warn_filter_colors.
  destruct (warn_filter E self) as [[self1 warned]|e] eqn:Hf; [|done].
  apply warn_filter_self_color in Hf. rewrite Hc in Hf.
  destruct (Py.truthy_list warned);
    [|split; [done|]; split; [done|]; by intros self' [= <-]].
  unfold self__color_line, self_pretty_format_upgradeable.
  rewrite Hf. cbn [with_colors translate_many config].
  rewrite pretty_format_upgradeable_plain by done.
  match goal with
  | |- context [pretty_format_upgradeable E ?o warned w] =>
      destruct (pretty_format_upgradeable_pure E o warned w
                  (or_introl eq_refl)) as (text & ->)
  end.
  cbn [fst snd world_with color_gen]. split; [done|]. split; [done|].
  by intros self' [= <-].
Qed.

Lemma pformat_total_size_colors (self : Formatter) :
  self_color self = false →
  pformat_total_size (with_colors E cl bl) self = pformat_total_size E self.
Proof.
  intros Hc. unfold pformat_total_size, self__bold_line. by rewrite Hc.
Qed.

Lemma call_colorless (self : Formatter) (w : World) :
  self_color self = false →
  call (with_colors E cl bl) self w = call E self w ∧
  color_gen (snd (call E self w)) = color_gen w.
Proof.
  intros Hc.
  destruct (colorless_bind _ _ pformat_warned_packages_colorless
              (colorless_bind _ _ pformat_replacements_colorless
                 (colorless_bind _ _ pformat_repo_colorless
                    (colorless_bind _ _ pformat_thirdaprty_repo_colorless
                       pformat_aur_colorless))) self w Hc)
    as (Heq & Hgen & Hs).
  cbn beta in Heq, Hgen, Hs.
  assert (Hassoc : ∀ E0,
    call E0 self w
    = (let* s := (let* s := pformat_warned_packages E0 self in
                  let* s0 := pformat_replacements E0 s in
                  let* s1 := pformat_repo E0 s0 in
                  let* s2 := pformat_thirdaprty_repo E0 s1 in
                  pformat_aur E0 s2) in
       ret (Py.join Py.nl (result (pformat_total_size E0 s)))) w).
  { intros E0. unfold call, bind, ret.
    destruct (pformat_warned_packages E0 self w) as [[s1|e] w1]; [|done].
    destruct (pformat_replacements E0 s1 w1) as [[s2|e] w2]; [|done].
    destruct (pformat_repo E0 s2 w2) as [[s3|e] w3]; [|done].
    destruct (pformat_thirdaprty_repo E0 s3 w3) as [[s4|e] w4]; [|done].
    by destruct (pformat_aur E0 s4 w4) as [[s5|e] w5]. }
  rewrite !Hassoc.
  destruct (bind_ret_run _ _
              (λ s, Py.join Py.nl
                      (result (pformat_total_size (with_colors E cl bl) s)))
              (λ s, Py.join Py.nl (result (pformat_total_size E s)))
              w Heq) as [H1 H2].
  { intros s w' Hrun. rewrite pformat_total_size_colors; [done|].
    apply Hs. by rewrite Hrun. }
  split; [exact H1|]. by rewrite H2.
Qed.

End Colorless.

(** X8: the report of a manual package selection contains no colour
    code and leaves the colour generator alone: it is the same
    whatever [color_line] and [bold_line] are, and the generator is
    after it what it was before. *)
Theorem manual_selection_without_colors (E : Env)
    (cl : string → Z → bool → string) (bl : string → string)
    (install_info : InstallInfoFetcher) (verbose : bool) (w : World) :
  pretty_format_sysupgrade (with_colors E cl bl) install_info verbose true w
  = pretty_format_sysupgrade E install_info verbose true w ∧
  color_gen (world_after (pretty_format_sysupgrade E install_info verbose
                            true) w)
  = color_gen w.
Proof.
  unfold pretty_format_sysupgrade, world_after.
  by apply call_colorless.
Qed.

(** ** Notices *)

(** X9: [print_ignored_package] raises [TypeError], leaving the state
    as it was, exactly when neither a non-empty package name nor a
    record is given; otherwise it returns, having written one line to
    stderr and asked the terminal width once, without touching the
    colour generator. *)
Theorem print_ignored_package_needs_a_target (E : Env)
    (package_name : option string) (install_info : option InstallInfo)
    (ignored_from : option string) (w : World) :
  ∃ message,
    print_ignored_package E package_name install_info ignored_from w
    = if has_target package_name install_info
      then (Ok tt, world_with w 1 [Stderr message])
      else (Raise
              (TypeError
                 (format E
                    (translate E "Either `{prop1}` or `{prop2}` should be set")
                    []
                    [("prop1", "package_name");
                     ("prop2", "install_info")])), w).
Proof.
  unfold print_ignored_package. fold (has_target package_name install_info).
  destruct (has_target package_name install_info); cbn [negb];
    [|by exists ""].
  unfold bind at 1.
  destruct (_ && _); unfold bind at 1;
    match goal with
    | |- context [pretty_format_upgradeable E ?o ?l w] =>
        destruct (pretty_format_upgradeable_pure E o l w
                    (or_intror (conj eq_refl eq_refl))) as (text & ->)
    end;
    unfold ret, print_stderr, print, world_with;
    cbn [color_gen term_queries printed];
    rewrite app_nil_r; by eexists.
Qed.

Lemma print_ignored_package_run (E : Env) (pkg : InstallInfo) (w : World) :
  ∃ message,
    print_ignored_package E None (Some pkg) None w
    = (Ok tt, world_with w 1 [Stderr message]).
Proof.
  unfold print_ignored_package.
  rewrite bool_decide_eq_true_2 by by eexists. cbn [orb negb default].
  unfold bind at 1.
  destruct (_ && _); unfold bind at 1;
    match goal with
    | |- context [pretty_format_upgradeable E ?o ?l w] =>
        destruct (pretty_format_upgradeable_pure E o l w
                    (or_intror (conj eq_refl eq_refl))) as (text & ->)
    end;
    unfold ret, print_stderr, print, world_with;
    cbn [color_gen term_queries printed];
    rewrite app_nil_r; by eexists.
Qed.

Lemma world_with_twice (w : World) (n1 n2 : nat) (e1 e2 : list event) :
  world_with (world_with w n1 e1) n2 e2
  = world_with w (n1 + n2) (e1 ++ e2).
Proof.
  unfold world_with. cbn. by rewrite Nat.add_assoc, (assoc_L (++)).
Qed.

Lemma remove_ignored_general (E : Env) (ignored_pkg_names : list string)
    (copy kept : list InstallInfo) (w : World) :
  (∀ p, p ∈ kept → name p ∉ ignored_pkg_names) →
  ∃ notices,
    Updates.remove_ignored E ignored_pkg_names copy (kept ++ copy) w
    = (Ok (kept
           ++ List.filter (λ p, negb (is_ignored ignored_pkg_names p)) copy),
       world_with w
         (length (List.filter (is_ignored ignored_pkg_names) copy))
         notices) ∧
    length notices
    = length (List.filter (is_ignored ignored_pkg_names) copy) ∧
    Forall (λ e, ∃ text, e = Stderr text) notices.
Proof.
  revert kept w. induction copy as [|x copy IH]; intros kept w Hk.
  - exists []. cbn. rewrite world_with_0_nil, app_nil_r. done.
  - cbn [Updates.remove_ignored List.filter].
    change (bool_decide (name x ∈ ignored_pkg_names))
      with (is_ignored ignored_pkg_names x).
    destruct (is_ignored ignored_pkg_names x) eqn:Hx; cbn [negb];
      unfold is_ignored in Hx.
    + apply bool_decide_eq_true_1 in Hx.
      unfold bind at 1, lift at 1. rewrite list_remove_middle.
      * unfold bind at 1.
        destruct (print_ignored_package_run E x w) as (message & ->).
        destruct (IH kept (world_with w 1 [Stderr message]) Hk)
          as (notices & -> & Hlen & Hall).
        exists (Stderr message :: notices). rewrite world_with_twice.
        split; [done|]. split; [cbn; by rewrite Hlen|].
        constructor; [by eexists|done].
      * intros Hin. by apply Hk in Hin.
    + apply bool_decide_eq_false_1 in Hx.
      rewrite (cons_middle x kept copy), (assoc_L (++)).
      destruct (IH (kept ++ [x]) w) as (notices & -> & Hlen & Hall).
      * intros p [Hp| ->%list_elem_of_singleton]%elem_of_app;
          [by apply Hk|done].
      * exists notices. by rewrite <- (assoc_L (++)).
Qed.

(** X10: the ignore loop of [print_upgradeable] never raises: it
    returns the updates whose name is not in the list of ignored names,
    in their order, and for each update it removes it writes one line
    to stderr and asks the terminal width once; the colour generator
    is left alone. *)
Theorem ignore_loop_removes_named_updates (E : Env)
    (ignored_pkg_names : list string) (updates : list InstallInfo)
    (w : World) :
  ∃ notices,
    Updates.remove_ignored E ignored_pkg_names updates updates w
    = (Ok (List.filter (λ p, negb (is_ignored ignored_pkg_names p)) updates),
       world_with w
         (length (List.filter (is_ignored ignored_pkg_names) updates))
         notices) ∧
    length notices
    = length (List.filter (is_ignored ignored_pkg_names) updates) ∧
    Forall (λ e, ∃ text, e = Stderr text) notices.
Proof.
  apply (remove_ignored_general E ignored_pkg_names updates []).
  intros p Hp. by apply elem_of_nil in Hp.
Qed.

(** X11: the three notices that show the installed version raise
    [KeyError] for a package that is not installed, and then nothing is
    printed; for an installed package each of them returns, having
    printed exactly one warning. *)
Theorem local_version_notices (E : Env) (package_name other : string)
    (w : World) :
  match local_dict E !! package_name with
  | None =>
      print_package_uptodate E package_name other w
      = (Raise (KeyError package_name), w) ∧
      print_local_package_newer E package_name other w
      = (Raise (KeyError package_name), w) ∧
      print_package_downgrading E package_name other w
      = (Raise (KeyError package_name), w)
  | Some _ =>
      ∃ t1 t2 t3,
        print_package_uptodate E package_name other w
        = (Ok tt, world_with w 0 [Warning t1]) ∧
        print_local_package_newer E package_name other w
        = (Ok tt, world_with w 0 [Warning t2]) ∧
        print_package_downgrading E package_name other w
        = (Ok tt, world_with w 0 [Warning t3])
  end.
Proof.
  unfold print_package_uptodate, print_local_package_newer,
    print_package_downgrading, _get_local_version, bind, lift,
    print_warning, print, world_with.
  destruct (local_dict E !! package_name) as [lp|]; [|done].
  rewrite Nat.add_0_r. by eexists _, _, _.
Qed.

(** ** Search results *)

Lemma list_index_list_find (x : string) (l : list string) :
  Py.list_index x l = fst <$> list_find (λ y, y = x) l.
Proof.
  induction l as [|y l IH]; [done|]. cbn [Py.list_index list_find].
  destruct (decide (y = x)); [done|]. rewrite IH.
  by destruct (list_find _ l) as [[k z]|].
Qed.

(** The first component of the key of the code is the rank. *)
Lemma get_repo_sort_key_rank (E : Env) (pkg : AlpmPackage) :
  get_repo_sort_key E pkg = (repo_rank E pkg, alpm_name pkg).
Proof.
  unfold get_repo_sort_key, repo_rank. rewrite list_index_list_find.
  destruct (list_find _ _) as [[k z]|]; cbn [fmap option_fmap option_map fst];
    by destruct (ui_GroupByRepository (config E)).
Qed.

Lemma repo_sort_key_leb_spec (E : Env) (a b : AlpmPackage) :
  repo_sort_key_leb (get_repo_sort_key E a) (get_repo_sort_key E b) = true
  ↔ repo_key_le E a b.
Proof.
  rewrite !get_repo_sort_key_rank. unfold repo_sort_key_leb, repo_key_le.
  cbn [fst snd].
  rewrite orb_true_iff, andb_true_iff, Z.ltb_lt, Z.eqb_eq, str_leb_le.
  done.
Qed.

Lemma repo_key_le_total (E : Env) (a b : AlpmPackage) :
  repo_key_le E a b ∨ repo_key_le E b a.
Proof.
  unfold repo_key_le.
  destruct (Z.lt_trichotomy (repo_rank E a) (repo_rank E b))
    as [?|[Heq|?]]; [auto| |auto].
  destruct (total String.le (alpm_name a) (alpm_name b)); auto.
Qed.

Lemma repo_key_le_trans (E : Env) (a b c : AlpmPackage) :
  repo_key_le E a b → repo_key_le E b c → repo_key_le E a c.
Proof.
  unfold repo_key_le.
  intros [?|[Hab ?]] [?|[Hbc ?]]; [left; lia|left; lia|left; lia|].
  right. split; [lia|]. by etrans.
Qed.

(** X12: a search returns every package given to it exactly once, the
    repository packages before the AUR packages, and the repository
    packages in the order of the rank of their repository and then of
    their name.  When the results are grouped by repository the rank of
    a package is the position of the first sync database that has the
    name of its repository, so the packages of a database listed
    earlier come first, and it is 999 for a repository that is not
    among the sync databases; when they are not grouped every rank is
    999, so the repository packages are in the order of their names. *)
Theorem search_results_order (E : Env) (repo_packages : list AlpmPackage)
    (aur_packages : list AURPackageInfo)
    (local_pkgs_versions : gmap string string) (enumerated : bool)
    (w : World) :
  ∃ repo_part aur_part,
    value_of (print_package_search_results E repo_packages aur_packages
                local_pkgs_versions enumerated) w
    = Ok (map RepoPkg repo_part ++ map AurPkg aur_part) ∧
    repo_part ≡ₚ repo_packages ∧
    aur_part ≡ₚ aur_packages ∧
    StronglySorted
      (λ a b, repo_rank E a < repo_rank E b ∨
              (repo_rank E a = repo_rank E b ∧
               String.le (alpm_name a) (alpm_name b)))
      repo_part ∧
    (∀ pkg position,
       ui_GroupByRepository (config E) = true →
       syncdbs E !! position = Some (alpm_db_name pkg) →
       (∀ earlier, (earlier < position)%nat →
                   syncdbs E !! earlier ≠ Some (alpm_db_name pkg)) →
       repo_rank E pkg = Z.of_nat position) ∧
    (∀ pkg,
       ui_GroupByRepository (config E) = false ∨
       alpm_db_name pkg ∉ syncdbs E →
       repo_rank E pkg = 999) ∧
    (ui_GroupByRepository (config E) = false →
     StronglySorted (λ a b, String.le (alpm_name a) (alpm_name b))
       repo_part).
Proof.
  eexists _, _. split; [|split; [|split; [|split; [|split; [|split]]]]].
  - unfold value_of, print_package_search_results, bind.
    destruct (succeeds_mapM
                (print_search_entry E local_pkgs_versions enumerated)
                (enumerated_packages E repo_packages aur_packages)
                (succeeds_print_search_entry E local_pkgs_versions
                   enumerated) w) as (a & w' & ->).
    reflexivity.
  - apply sorted_perm.
  - apply sorted_perm.
  - eapply StronglySorted_weaken;
      [|apply sorted_StronglySorted].
    + intros a b. apply repo_sort_key_leb_spec.
    + intros a b. rewrite !repo_sort_key_leb_spec. apply repo_key_le_total.
    + intros a b c. rewrite !repo_sort_key_leb_spec.
      apply repo_key_le_trans.
  - intros pkg position Hg Hpos Hfirst. unfold repo_rank. rewrite Hg.
    assert (Hfind : list_find (λ db, db = alpm_db_name pkg) (syncdbs E)
                    = Some (position, alpm_db_name pkg)).
    { apply list_find_Some. split; [done|]. split; [done|].
      intros earlier db Hdb Hlt ->. by apply (Hfirst earlier). }
    by rewrite Hfind.
  - intros pkg [Hg|Hnot]; unfold repo_rank; [by rewrite Hg|].
    destruct (ui_GroupByRepository (config E)); [|done].
    assert (Hfind : list_find (λ db, db = alpm_db_name pkg) (syncdbs E)
                    = None).
    { apply list_find_None, Forall_forall. by intros db Hdb ->. }
    by rewrite Hfind.
  - intros Hg.
    eapply StronglySorted_weaken;
      [|apply sorted_StronglySorted].
    + intros a b [Hlt|[_ Hle]]%repo_sort_key_leb_spec; [|done].
      exfalso. revert Hlt. unfold repo_rank. rewrite Hg. lia.
    + intros a b. rewrite !repo_sort_key_leb_spec. apply repo_key_le_total.
    + intros a b c. rewrite !repo_sort_key_leb_spec.
      apply repo_key_le_trans.
Qed.

Lemma pretty_format_repo_name_run (E : Env) (repo : string) (color : bool)
    (w : World) :
  ∃ text g,
    pretty_format_repo_name E repo color w
    = (Ok text, {| color_gen := g; term_queries := term_queries w;
                   printed := printed w |}).
Proof. apply pretty_format_repo_name_colors_only. Qed.

(** One entry of a search: one line in quiet mode, two otherwise. *)
Lemma print_search_entry_run (E : Env)
    (local_pkgs_versions : gmap string string) (enumerated : bool)
    (entry : nat * AnyPackage) (w : World) :
  ∃ g lines,
    print_search_entry E local_pkgs_versions enumerated entry w
    = (Ok tt, {| color_gen := g; term_queries := term_queries w;
                 printed := printed w ++ lines |}) ∧
    length lines = lines_per_package E ∧
    Forall (λ e, ∃ text, e = Stdout text) lines.
Proof.
  destruct entry as [k p]. unfold print_search_entry, lines_per_package.
  destruct (args_quiet (args E)).
  - eexists (color_gen w), [_]. split; [reflexivity|].
    split; [done|]. repeat constructor. by eexists.
  - assert (Hrepo : ∃ text g,
              (match p with
               | RepoPkg pkg =>
                   pretty_format_repo_name E (alpm_db_name pkg) true
               | AurPkg _ =>
                   ret (color_line E "aur/" (ColorsHighlight_red E) true)
               end) w
              = (Ok text, {| color_gen := g; term_queries := term_queries w;
                             printed := printed w |})).
    { destruct p as [pkg|pkg]; [apply pretty_format_repo_name_run|].
      exists (color_line E "aur/" (ColorsHighlight_red E) true), (color_gen w).
      unfold ret. by destruct w. }
    destruct Hrepo as (text & g & Hrepo).
    unfold bind at 1. rewrite Hrepo.
    match goal with
    | |- context [let '(v, c) := ?x in _] => destruct x as [v c]
    end.
    unfold bind, print_stdout, print. cbn [color_gen term_queries printed].
    eexists g, [_; _]. rewrite <- (assoc_L (++)). split; [reflexivity|].
    split; [done|]. repeat constructor; by eexists.
Qed.

Lemma mapM_print_search_entry_run (E : Env)
    (local_pkgs_versions : gmap string string) (enumerated : bool)
    (entries : list (nat * AnyPackage)) (w : World) :
  ∃ units g lines,
    mapM (print_search_entry E local_pkgs_versions enumerated) entries w
    = (Ok units, {| color_gen := g; term_queries := term_queries w;
                    printed := printed w ++ lines |}) ∧
    length lines = (lines_per_package E * length entries)%nat ∧
    Forall (λ e, ∃ text, e = Stdout text) lines.
Proof.
  revert w. induction entries as [|entry entries IH]; intros w.
  - exists [], (color_gen w), []. cbn. rewrite app_nil_r, Nat.mul_0_r.
    split; [by destruct w|]. split; [done|constructor].
  - cbn [mapM]. unfold bind at 1.
    destruct (print_search_entry_run E local_pkgs_versions enumerated
                entry w) as (g1 & l1 & -> & Hlen1 & Hall1).
    unfold bind at 1.
    destruct (IH {| color_gen := g1; term_queries := term_queries w;
                    printed := printed w ++ l1 |})
      as (units & g2 & l2 & -> & Hlen2 & Hall2).
    cbn [term_queries printed]. unfold ret.
    exists (tt :: units), g2, (l1 ++ l2). rewrite (assoc_L (++)).
    split; [done|]. split; [|by apply Forall_app].
    rewrite length_app, Hlen1, Hlen2. cbn [length]. lia.
Qed.

(** X13: a search prints one line to stdout for each package in quiet
    mode and two otherwise, whether or not the lines are numbered, and
    nothing else; it never asks the terminal width. *)
Theorem search_prints_lines_per_package (E : Env)
    (repo_packages : list AlpmPackage) (aur_packages : list AURPackageInfo)
    (local_pkgs_versions : gmap string string) (enumerated : bool)
    (w : World) :
  ∃ lines,
    printed (world_after
               (print_package_search_results E repo_packages aur_packages
                  local_pkgs_versions enumerated) w)
    = printed w ++ lines ∧
    length lines
    = (lines_per_package E
       * (length repo_packages + length aur_packages))%nat ∧
    Forall (λ e, ∃ text, e = Stdout text) lines ∧
    term_queries (world_after
                    (print_package_search_results E repo_packages
                       aur_packages local_pkgs_versions enumerated) w)
    = term_queries w.
Proof.
  unfold world_after, print_package_search_results, bind.
  destruct (mapM_print_search_entry_run E local_pkgs_versions enumerated
              (enumerated_packages E repo_packages aur_packages) w)
    as (units & g & lines & -> & Hlen & Hall).
  exists lines. cbn [snd ret printed term_queries].
  split; [done|]. split; [|done]. rewrite Hlen. f_equal.
  unfold enumerated_packages.
  assert (Hn : ∀ {A} (l : list A) k, length (enumerate k l) = length l).
  { intros A l. induction l as [|x l IHl]; intros k; [done|].
    cbn. by rewrite IHl. }
  destruct (ui_ReverseSearchSorting (config E));
    rewrite ?length_rev, Hn; unfold sorted_packages;
    rewrite length_app, !length_map, !sorted_perm; done.
Qed.

(** ** The columns of a listing *)

Lemma len_app (a b : string) : Py.len (a +:+ b) = Py.len a + Py.len b.
Proof.
  unfold Py.len. rewrite <- Nat2Z.inj_add. f_equal.
  induction a as [|c a IH]; [done|].
  change (String c a +:+ b) with (String c (a +:+ b)).
  cbn [String.length Nat.add]. by rewrite IH.
Qed.

Lemma append_empty_r (a : string) : a +:+ "" = a.
Proof.
  induction a as [|c a IH]; [done|].
  change (String c a +:+ "") with (String c (a +:+ "")). by rewrite IH.
Qed.

Lemma append_assoc (a b c : string) : (a +:+ b) +:+ c = a +:+ b +:+ c.
Proof.
  induction a as [|x a IH]; [done|].
  change ((String x a +:+ b) +:+ c) with (String x ((a +:+ b) +:+ c)).
  by rewrite IH.
Qed.

(** Without colours the displayed name is the counted name, with the
    mark of a replacing record in front of it, which is not counted. *)
Lemma pkg_name_plain_length (E : Env) (o : Options) (p : InstallInfo)
    (w : World) :
  color o = false →
  (∀ x, format E " ({})" [x] [] = " (" +:+ x +:+ ")") →
  ∃ text,
    pkg_name E o p w = (Ok text, w) ∧
    Py.len text
    = pkg_len E o p + (if Py.truthy_list (replaces p) then 2 else 0).
Proof.
  intros Hc Hfmt.
  destruct (pkg_name_pure E o p (or_introl Hc)) as (text & Hrun).
  exists text. split; [apply Hrun|].
  specialize (Hrun w). revert Hrun.
  unfold pkg_name, pkg_len, pretty_format_repo_name, _color_line,
    _bold_line, required_by_text, provided_by_text, members_of_text,
    replaces_text, orphaned_text.
  rewrite Hc. cbn [negb]. rewrite !Hfmt, !map_id, !append_empty_r.
  unfold bind, ret.
  destruct ((print_repo o || verbose o)
            && Py.truthy_str (Py.str_or (repository p) ""));
    [|destruct (print_repo o)];
    destruct (Py.truthy_list (required_by p));
    destruct (Py.truthy_list (provided_by p));
    destruct (Py.truthy_list (members_of p));
    destruct (Py.truthy_list (replaces p));
    destruct (is_aur_package (package p)
              && bool_decide (maintainer p = None));
    intros [= <-]; rewrite ?len_app; change (Py.len "# ") with 2;
    change (Py.len "/") with 1; lia.
Qed.

(** X14: in a line made without colours, and as long as the padding
    after the current version is not cut off at one space, the arrow
    starts after [2 * column_width - 15] characters whatever the length
    of the name, also for a name that is wider than its column; except
    for a record that replaces other packages, where the mark "# " in
    front of the name is not counted and the arrow starts two
    characters further to the right. *)
Theorem arrow_column_of_plain_line (E : Env) (o : Options)
    (p : InstallInfo) (w : World) :
  let cw := column_width (term_width E (term_queries w)) in
  let common :=
    fst (get_common_version E (current_version p) (new_version p)) in
  color o = false →
  (∀ x, format E " ({})" [x] [] = " (" +:+ x +:+ ")") →
  common +:+ get_version_diff E (current_version p) common
  = current_version p →
  1 ≤ cw - 18 - Py.len (current_version p)
      - Z.max (-1) (pkg_len E o p - cw) →
  ∃ F,
    value_of (pretty_format_fields E o p) w = Ok (F, sort_by E p) ∧
    default_template F = before_arrow F +:+ from_arrow F ∧
    Py.len (before_arrow F)
    = 2 * cw - 15 + (if Py.truthy_list (replaces p) then 2 else 0).
Proof.
  intros cw common Hc Hfmt Hsplit Hroom.
  destruct (pkg_name_plain_length E o p
              {| color_gen := color_gen w;
                 term_queries := S (term_queries w);
                 printed := printed w |} Hc Hfmt) as (text & Hrun & Hlen).
  unfold value_of, pretty_format_fields, bind, get_term_width.
  rewrite Hrun. cbn [fst ret]. eexists. split; [reflexivity|].
  split.
  - unfold default_template, before_arrow, from_arrow.
    cbn [f_pkg_name f_spacing f_current_version f_spacing2
           f_version_separator f_new_version f_spacing3 f_pkg_size
           f_days_old f_out_of_date f_verbose].
    by rewrite !append_assoc.
  - unfold before_arrow.
    cbn [f_pkg_name f_spacing f_current_version f_spacing2].
    unfold _color_line. rewrite Hc. fold common. rewrite Hsplit.
    rewrite !len_app, !len_spaces, Hlen. fold cw in Hroom |- *.
    change (Py.len " ") with 1. lia.
Qed.

(** X14 at [bar] and at [foo], which replaces [x], on a terminal of 80
    columns: the column width is 32, the arrow of [bar] starts after
    49 characters and that of [foo] after 51. *)
Lemma arrow_column_of_plain_line_foo :
  (∃ F,
     value_of (pretty_format_fields ReportInputs.env_default
                 MoreInputs.without_color MoreInputs.bar_plain)
       initial_world
     = Ok (F, sort_by ReportInputs.env_default MoreInputs.bar_plain) ∧
     default_template F = before_arrow F +:+ from_arrow F ∧
     Py.len (before_arrow F) = 2 * 32 - 15 + 0) ∧
  (∃ F,
     value_of (pretty_format_fields ReportInputs.env_default
                 MoreInputs.without_color MoreInputs.foo_replaces_x)
       initial_world
     = Ok (F, sort_by ReportInputs.env_default MoreInputs.foo_replaces_x) ∧
     default_template F = before_arrow F +:+ from_arrow F ∧
     Py.len (before_arrow F) = 2 * 32 - 15 + 2).
Proof.
  assert (Hfmt : ∀ x, format ReportInputs.env_default " ({})" [x] []
                      = " (" +:+ x +:+ ")")
    by (intros x; reflexivity).
  split.
  - apply (arrow_column_of_plain_line ReportInputs.env_default
             MoreInputs.without_color MoreInputs.bar_plain initial_world
             eq_refl Hfmt); [reflexivity|vm_compute; discriminate].
  - apply (arrow_column_of_plain_line ReportInputs.env_default
             MoreInputs.without_color MoreInputs.foo_replaces_x
             initial_world eq_refl Hfmt);
      [reflexivity|vm_compute; discriminate].
Defined.

(** X15: without colours the displayed name is as long as [pkg_len]
    counts, except for the two characters of the mark put in front of
    a record that replaces other packages, which are not counted. *)
Theorem plain_name_length (E : Env) (o : Options) (p : InstallInfo)
    (w : World) :
  color o = false →
  (∀ x, format E " ({})" [x] [] = " (" +:+ x +:+ ")") →
  ∃ text,
    pkg_name E o p w = (Ok text, w) ∧
    Py.len text
    = pkg_len E o p + (if Py.truthy_list (replaces p) then 2 else 0).
Proof. apply pkg_name_plain_length. Qed.

(** X15 at [foo], which replaces [foo-old]: the name shown is
    "# core/foo (for bar) (base group) (replaces foo-old)", two
    characters longer than the 50 that are counted. *)
Lemma plain_name_length_foo_replacing :
  color MoreInputs.without_color = false ∧
  (∀ x, format ReportInputs.env_default " ({})" [x] []
        = " (" +:+ x +:+ ")") ∧
  pkg_len ReportInputs.env_default MoreInputs.without_color
    MoreInputs.foo_replacing = 50 ∧
  ∃ text,
    pkg_name ReportInputs.env_default MoreInputs.without_color
      MoreInputs.foo_replacing initial_world
    = (Ok text, initial_world) ∧
    Py.len text
    = pkg_len ReportInputs.env_default MoreInputs.without_color
        MoreInputs.foo_replacing
      + (if Py.truthy_list (replaces MoreInputs.foo_replacing)
         then 2 else 0).
Proof.
  assert (Hfmt : ∀ x, format ReportInputs.env_default " ({})" [x] []
                      = " (" +:+ x +:+ ")")
    by (intros x; reflexivity).
  split; [reflexivity|]. split; [exact Hfmt|].
  split; [vm_compute; reflexivity|].
  exact (plain_name_length ReportInputs.env_default MoreInputs.without_color
           MoreInputs.foo_replacing initial_world eq_refl Hfmt).
Defined.

(** ** The colour generator, once a colour is cached *)

Lemma first_seen_from_seen (t i : string) (h : list (string * string))
    (seen : list string) :
  i ∈ seen ∨ (t, i) ∈ h → i ∈ first_seen_from t h seen.
Proof.
  revert seen. induction h as [|[t' i'] h IH]; intros seen.
  - intros [Hs|Hh]; [done|]. by apply elem_of_nil in Hh.
  - intros Hin. cbn [first_seen_from]. apply IH.
    destruct Hin as [Hs|[Heq|Hh]%elem_of_cons]; [| |by right].
    + left. destruct (_ && _); [|done]. apply elem_of_app. by left.
    + injection Heq as <- <-. left.
      rewrite bool_decide_eq_true_2 by done. cbn [andb].
      destruct (bool_decide (i ∈ seen)) eqn:Es; cbn [negb].
      * by apply bool_decide_eq_true_1 in Es.
      * apply elem_of_app. right. by left.
Qed.

Lemma get_next_body_cached (h : list (string * string)) (g : ColorGen)
    (t i : string) :
  color_inv h g → (t, i) ∈ h →
  get_next_body t i g = (color_of h (t, i), g).
Proof.
  intros Hinv Hin. unfold get_next_body, color_of. cbn [fst snd].
  rewrite (inv_cache _ _ Hinv).
  destruct (Py.list_index i (first_seen t h)) as [k|] eqn:Ei.
  - cbn. by rewrite palette_color_truthy.
  - apply list_index_None in Ei. exfalso. apply Ei.
    apply first_seen_from_seen. by right.
Qed.

Lemma run_requests_state_inv (E : Env) (requests : list (string * string))
    (h : list (string * string)) (g : ColorGen) :
  color_inv h g →
  color_inv (h ++ requests) (snd (run_requests E requests g)).
Proof.
  revert h g. induction requests as [|[t i] rest IH]; intros h g Hinv.
  - by rewrite app_nil_r.
  - cbn [run_requests]. unfold get_next.
    rewrite (do_init_done E g) by apply Hinv.
    destruct (get_next_body_step h g t i Hinv) as [_ Hinv'].
    destruct (get_next_body t i g) as [c g'].
    cbn [snd] in Hinv'. specialize (IH _ _ Hinv'). revert IH.
    destruct (run_requests E rest g') as [cs g''].
    cbn [fst snd]. intros IH. by rewrite cons_middle, (assoc_L (++)).
Qed.

(** After any requests, and after [do_init], the generator holds what
    the history of the requests says. *)
Lemma run_requests_reached (E : Env) (requests : list (string * string)) :
  color_inv (init_requests E ++ requests)
    (do_init E (snd (run_requests E requests initial_color_gen))).
Proof.
  destruct requests as [|[t i] rest].
  - rewrite app_nil_r. apply do_init_initial.
  - assert (Hinv : color_inv (init_requests E ++ (t, i) :: rest)
                     (snd (run_requests E ((t, i) :: rest)
                             initial_color_gen))).
    { cbn [run_requests]. unfold get_next.
      destruct (get_next_body_step _ _ t i (do_init_initial E))
        as [_ Hinv'].
      destruct (get_next_body t i (do_init E initial_color_gen))
        as [c g'].
      cbn [snd] in Hinv'.
      pose proof (run_requests_state_inv E rest _ _ Hinv') as Hrest.
      revert Hrest. destruct (run_requests E rest g') as [cs g''].
      cbn [fst snd]. intros Hrest.
      by rewrite cons_middle, (assoc_L (++)). }
    rewrite do_init_done; [done|apply Hinv].
Qed.

(** X16: a request that was made before, by [do_init] or by any
    caller, is answered from the cache: it gets the colour it got the
    first time and leaves the generator as it is, so asking again for
    a colour never uses up a colour of the palette. *)
Theorem cached_request_keeps_generator (E : Env)
    (requests : list (string * string)) (color_type _id : string) :
  (color_type, _id) ∈ init_requests E ++ requests →
  get_next E color_type _id
    (snd (run_requests E requests initial_color_gen))
  = (color_of (init_requests E ++ requests) (color_type, _id),
     do_init E (snd (run_requests E requests initial_color_gen))).
Proof.
  intros Hin. unfold get_next.
  by apply get_next_body_cached; [apply run_requests_reached|].
Qed.

(** X16 at the repository [core], which [do_init] has seen, after a
    request for [custom]: the colour is 10 and the generator is the
    one the request for [custom] left. *)
Lemma cached_request_keeps_generator_core :
  ("repo", "core")
  ∈ init_requests ReportInputs.env_default ++ [("repo", "custom")] ∧
  get_next ReportInputs.env_default "repo" "core"
    (snd (run_requests ReportInputs.env_default [("repo", "custom")]
            initial_color_gen))
  = (10,
     snd (run_requests ReportInputs.env_default [("repo", "custom")]
            initial_color_gen)).
Proof.
  assert (Hin : ("repo", "core")
                ∈ init_requests ReportInputs.env_default
                  ++ [("repo", "custom")])
    by (apply list_elem_of_In; vm_compute; auto).
  split; [exact Hin|].
  exact (cached_request_keeps_generator ReportInputs.env_default
           [("repo", "custom")] "repo" "core" Hin).
Defined.

(** ** The warn filter, when no record matches two globs *)

Lemma filter_partition_perm {A} (f : A → bool) (l : list A) :
  List.filter (λ x, negb (f x)) l ++ List.filter f l ≡ₚ l.
Proof.
  induction l as [|x l IH]; [done|]. cbn [List.filter].
  destruct (f x); cbn [negb].
  - rewrite <- Permutation_middle. by constructor.
  - cbn [app]. by constructor.
Qed.

Lemma concat_filter_partition_perm {A} (f : A → bool) (ls : list (list A)) :
  concat (map (List.filter (λ x, negb (f x))) ls)
  ++ concat (map (List.filter f) ls) ≡ₚ concat ls.
Proof.
  induction ls as [|l ls IH]; [done|]. cbn [map concat].
  rewrite <- (filter_partition_perm f l) at 3. rewrite <- IH.
  rewrite <- !(assoc_L (++)). apply Permutation_app_head.
  rewrite !(assoc_L (++)). apply Permutation_app_tail.
  apply Permutation_app_comm.
Qed.

(** X17: when no record matches more than one of the warn globs, the
    warn filter returns and neither loses nor repeats a record: the
    records left in the eight lists and the warned records are,
    together, the records given; the warned records are those that
    match a glob, the records left match none, and a second pass
    moves nothing. *)
Theorem warn_filter_moves_each_record_once (E : Env) (self : Formatter) :
  at_most_one_glob E self →
  ∃ self' warned,
    warn_filter E self = Ok (self', warned) ∧
    concat (all_install_info_lists self') ++ warned
    ≡ₚ concat (all_install_info_lists self) ∧
    Forall (λ p, is_warned E (warn_globs E) p = true) warned ∧
    Forall (Forall (λ p, is_warned E (warn_globs E) p = false))
      (all_install_info_lists self') ∧
    warn_filter E self' = Ok (self', []).
Proof.
  intros Hone.
  destruct (warn_filter_at_most_one_glob E self Hone)
    as (self' & Hf & Hlists & _ & Hagain).
  eexists self', _. split; [exact Hf|].
  split; [rewrite Hlists; apply concat_filter_partition_perm|].
  split; [|split; [|exact Hagain]].
  - apply Forall_forall. intros p Hp.
    apply list_elem_of_In, in_concat in Hp as (l & Hl & Hp).
    apply in_map_iff in Hl as (l0 & <- & _).
    by apply filter_In in Hp as [_ Hp].
  - rewrite Hlists. apply Forall_forall. intros l Hl.
    apply list_elem_of_fmap in Hl as (l0 & -> & _).
    apply Forall_forall. intros p Hp.
    apply elem_of_List_filter in Hp as [_ Hp].
    by apply negb_true_iff in Hp.
Qed.

(** X17 at the updates of [foo] and [bar] with the glob [f*]: [foo] is
    moved to the warned list and [bar] is left. *)
Lemma warn_filter_moves_foo :
  at_most_one_glob MoreInputs.env_warn_f MoreInputs.formatter_foo_bar ∧
  ∃ self' warned,
    warn_filter MoreInputs.env_warn_f MoreInputs.formatter_foo_bar
    = Ok (self', warned) ∧
    concat (all_install_info_lists self') ++ warned
    ≡ₚ concat (all_install_info_lists MoreInputs.formatter_foo_bar) ∧
    Forall (λ p, is_warned MoreInputs.env_warn_f
                   (warn_globs MoreInputs.env_warn_f) p = true) warned ∧
    Forall (Forall (λ p, is_warned MoreInputs.env_warn_f
                           (warn_globs MoreInputs.env_warn_f) p = false))
      (all_install_info_lists self') ∧
    warn_filter MoreInputs.env_warn_f self' = Ok (self', []).
Proof.
  assert (Hone : at_most_one_glob MoreInputs.env_warn_f
                   MoreInputs.formatter_foo_bar)
    by (apply at_most_one_glob_check; vm_compute; reflexivity).
  split; [exact Hone|].
  exact (warn_filter_moves_each_record_once MoreInputs.env_warn_f
           MoreInputs.formatter_foo_bar Hone).
Defined.

(** ** What [print_upgradeable] writes to stdout *)

Lemma no_stdout_warnings (notices : list event) :
  Forall (λ e, ∃ text, e = Warning text) notices → no_stdout notices.
Proof.
  intros Hall. eapply Forall_impl; [exact Hall|]. by intros e [t ->] text.
Qed.

Lemma no_stdout_stderr (notices : list event) :
  Forall (λ e, ∃ text, e = Stderr text) notices → no_stdout notices.
Proof.
  intros Hall. eapply Forall_impl; [exact Hall|]. by intros e [t ->] text.
Qed.

(** The search of the AUR, as [print_upgradeable] runs it. *)
Lemma print_upgradeable_aur_step (E : Env) (w : World) :
  ∃ notices,
    no_stdout notices ∧
    (if negb (args_repo (args E))
     then let* (aur_updates, _) := Updates.find_aur_updates E in
          ret aur_updates
     else ret []) w
    = ((if args_repo (args E) then Ok []
        else res_bind (value_of (Updates.find_aur_updates E) w)
               (λ found, Ok (fst found))),
       {| color_gen := color_gen w; term_queries := term_queries w;
          printed := printed w ++ notices |}).
Proof.
  destruct (args_repo (args E)); cbn [negb].
  - exists []. split; [constructor|]. unfold ret. rewrite app_nil_r.
    by destruct w.
  - destruct (find_aur_updates_general E w) as (notices & Hall & Hrun).
    exists (Stderr (translate_many E "Reading AUR package info..."
                      "Reading AUR packages info..."
                      (Z.of_nat (length (find_packages_not_from_repo E))))
            :: notices).
    split; [constructor; [done|by apply no_stdout_warnings]|].
    unfold bind, value_of. rewrite Hrun. cbn [fst].
    by destruct (List.find _ _).
Qed.

(** The whole of [print_upgradeable]. *)
Lemma print_upgradeable_run (E : Env) (ignored_only : bool) (w : World) :
  ∃ notices g q,
    no_stdout notices ∧
    match found_updates E w with
    | Raise e =>
        Updates.print_upgradeable E ignored_only w
        = (Raise e, {| color_gen := g; term_queries := q;
                       printed := printed w ++ notices |})
    | Ok updates =>
        if negb (Py.truthy_list updates) || ignored_only
        then
          Updates.print_upgradeable E ignored_only w
          = (Ok tt, {| color_gen := g; term_queries := q;
                       printed := printed w ++ notices |})
        else
          ∃ text,
            Updates.print_upgradeable E ignored_only w
            = (Ok tt, {| color_gen := g; term_queries := q;
                         printed := printed w ++ notices ++ [Stdout text] |}) ∧
            (args_quiet (args E) = true →
             text
             = Py.join Py.nl
                 (map name
                    (List.filter
                       (λ p, negb (is_ignored (ignored_names E updates) p))
                       updates)))
    end.
Proof.
  remember (Updates.print_upgradeable E ignored_only w) as run eqn:Hrun.
  unfold found_updates, value_of.
  unfold Updates.print_upgradeable in Hrun.
  destruct (print_upgradeable_aur_step E w) as (n1 & Hn1 & Haur).
  unfold value_of in Haur.
  unfold bind at 1 in Hrun. rewrite Haur in Hrun. clear Haur.
  destruct (if args_repo (args E) then Ok []
            else res_bind ((Updates.find_aur_updates E w).1)
                   (λ found, Ok found.1)) as [aur_updates|e];
    [|exists n1, (color_gen w), (term_queries w); by rewrite Hrun].
  unfold bind at 1 in Hrun.
  assert (Hrepo : ∀ w1,
            (if negb (args_aur (args E))
             then lift (Updates.find_repo_upgradeable E)
             else ret []) w1
            = ((if args_aur (args E) then Ok []
                else Updates.find_repo_upgradeable E), w1)).
  { intros w1. by destruct (args_aur (args E)). }
  rewrite Hrepo in Hrun. clear Hrepo.
  destruct (if args_aur (args E) then Ok []
            else Updates.find_repo_upgradeable E) as [repo_updates|e];
    [|exists n1, (color_gen w), (term_queries w); by rewrite Hrun].
  cbn zeta in Hrun.
  fold (ignored_names E (aur_updates ++ repo_updates)) in Hrun.
  destruct (Py.truthy_list (aur_updates ++ repo_updates));
    cbn [negb orb] in *;
    [|exists n1, (color_gen w), (term_queries w); by rewrite Hrun].
  unfold bind at 1 in Hrun.
  match type of Hrun with
  | context [Updates.remove_ignored E ?names ?l ?l ?w1] =>
      destruct (remove_ignored_general E names l [] w1)
        as (n2 & Hrem & _ & Hn2);
        [intros p Hp; by apply elem_of_nil in Hp|]
  end.
  cbn [app] in Hrem. rewrite Hrem in Hrun. clear Hrem.
  apply no_stdout_stderr in Hn2.
  unfold world_with in Hrun. cbn [color_gen term_queries printed] in Hrun.
  assert (Hn : no_stdout (n1 ++ n2)) by by apply Forall_app.
  destruct ignored_only.
  - eexists (n1 ++ n2), _, _. split; [done|]. rewrite Hrun.
    unfold ret. by rewrite (assoc_L (++)).
  - destruct (args_quiet (args E)).
    + eexists (n1 ++ n2), _, _. split; [done|]. eexists. rewrite Hrun.
      unfold print_stdout, print. cbn [color_gen term_queries printed].
      rewrite !(assoc_L (++)). split; [reflexivity|done].
    + unfold bind in Hrun.
      match type of Hrun with
      | context [pretty_format_upgradeable E ?o ?l ?w1] =>
          destruct (pretty_format_upgradeable_run E o l w1)
            as (text & g & Hfmt)
      end.
      rewrite Hfmt in Hrun.
      eexists (n1 ++ n2), _, _. split; [done|]. exists text. rewrite Hrun.
      unfold print_stdout, print. cbn [color_gen term_queries printed].
      rewrite !(assoc_L (++)). split; [reflexivity|done].
Qed.

(** X18: [print_upgradeable] writes to stdout exactly when it has found
    updates and was not asked for the ignored ones only: then it
    returns and the one line it writes to stdout is the last thing it
    prints, in quiet mode the names of the updates that are not
    ignored, one per line and in the order found.  When a search
    raises, when nothing is upgradeable and with [ignored_only]
    nothing is written to stdout; the notices about read, skipped and
    ignored packages go to stderr and to the warnings. *)
Theorem print_upgradeable_stdout (E : Env) (ignored_only : bool)
    (w : World) :
  ∃ notices,
    no_stdout notices ∧
    match found_updates E w with
    | Raise e =>
        value_of (Updates.print_upgradeable E ignored_only) w = Raise e ∧
        printed (world_after (Updates.print_upgradeable E ignored_only) w)
        = printed w ++ notices
    | Ok updates =>
        value_of (Updates.print_upgradeable E ignored_only) w = Ok tt ∧
        if negb (Py.truthy_list updates) || ignored_only
        then
          printed (world_after (Updates.print_upgradeable E ignored_only) w)
          = printed w ++ notices
        else
          ∃ text,
            printed (world_after (Updates.print_upgradeable E ignored_only)
                       w)
            = printed w ++ notices ++ [Stdout text] ∧
            (args_quiet (args E) = true →
             text
             = Py.join Py.nl
                 (map name
                    (List.filter
                       (λ p, negb (is_ignored (ignored_names E updates) p))
                       updates)))
    end.
Proof.
  destruct (print_upgradeable_run E ignored_only w)
    as (notices & g & q & Hn & Hrun).
  exists notices. split; [done|]. unfold value_of, world_after.
  destruct (found_updates E w) as [updates|e]; [|by rewrite Hrun].
  destruct (negb (Py.truthy_list updates) || ignored_only);
    [by rewrite Hrun|].
  destruct Hrun as (text & -> & Htext). split; [done|]. by exists text.
Qed.
